(** * TradeableAI: the multi-model ensemble service and its configuration

    A shallow embedding of
      - [MultiModelAIService] (the ensemble orchestrator, its weighting,
        consensus and fallback helpers),
      - [AI_ENSEMBLE_CONFIG] / [AIEnsembleConfigManager] (the strategy
        table, [getOptimalConfiguration], the performance history and
        the validation, import and update of the configuration),
      - the handler of the [/enhanced] chat route, as far as it chooses
        the options of the service and records performance, with
        [determineMessageIntent], and
      - the scoring, allocation and risk helpers of
        [InvestmentAnalysisService],
    followed by the properties established about them.

    Numbers.  A JavaScript number is modelled by [num]: an exact
    rational, or one of the three special values [PInf], [NInf], [NaN].
    The special values follow IEEE-754 (so [0/0] is [NaN], [1/0] is
    [PInf], every comparison with [NaN] is false).  Finite arithmetic is
    exact: the rounding of floating-point operations and the sign of
    zero are not modelled.  [Math.round] and [toFixed] round the exact
    value.

    Effects.  A promise that settles is an [outcome]; an exception is a
    [Rejected] outcome carrying the message of the thrown [Error].  The
    remote calls and the clock are supplied by a [World].  Three of the
    five analyzers rethrow whatever their remote call throws: a [World]
    says how each of them settles.  The two others catch it and fall
    back on a local analysis: a [World] says how their [try] block ends,
    and the fallbacks, [getCryptoKeywordAnalysis] and
    [getRuleBasedTechnicalAnalysis], are functions of the embedding. *)

From Stdlib Require Import List String Ascii Bool ZArith QArith Qcanon Lia Lqa.
From Stdlib Require Import DecimalString Qround.
From Equations Require Import Equations.
Import ListNotations.

Set Implicit Arguments.

(* ===================================================================== *)
(** ** JavaScript numbers *)
(* ===================================================================== *)

Module Num.

Local Open Scope Qc_scope.

Inductive num : Type :=
| Fin (q : Qc)
| PInf
| NInf
| NaN.

Definition dec (q : Q) : num := Fin (Q2Qc q).

Definition of_nat (n : nat) : num := Fin (Q2Qc (inject_Z (Z.of_nat n))).

Definition Qcltb (a b : Qc) : bool :=
  match Qccompare a b with Lt => true | _ => false end.

Definition Qceqb (a b : Qc) : bool := Qc_eq_bool a b.

Definition neg (x : num) : num :=
  match x with
  | Fin a => Fin (- a)
  | PInf => NInf
  | NInf => PInf
  | NaN => NaN
  end.

Definition add (x y : num) : num :=
  match x, y with
  | NaN, _ | _, NaN => NaN
  | Fin a, Fin b => Fin (a + b)
  | PInf, NInf | NInf, PInf => NaN
  | PInf, _ | _, PInf => PInf
  | NInf, _ | _, NInf => NInf
  end.

Definition sub (x y : num) : num := add x (neg y).

(** The infinity with the sign of [a], [NaN] when [a] is zero. *)
Definition signed_inf (a : Qc) (pos : num) (negv : num) : num :=
  if Qceqb a 0 then NaN else if Qcltb 0 a then pos else negv.

Definition mul (x y : num) : num :=
  match x, y with
  | NaN, _ | _, NaN => NaN
  | Fin a, Fin b => Fin (a * b)
  | Fin a, PInf | PInf, Fin a => signed_inf a PInf NInf
  | Fin a, NInf | NInf, Fin a => signed_inf a NInf PInf
  | PInf, PInf | NInf, NInf => PInf
  | PInf, NInf | NInf, PInf => NInf
  end.

Definition div (x y : num) : num :=
  match x, y with
  | NaN, _ | _, NaN => NaN
  | Fin a, Fin b =>
      if Qceqb b 0 then signed_inf a PInf NInf else Fin (a / b)
  | Fin _, (PInf | NInf) => Fin 0
  | PInf, Fin b => if Qcltb b 0 then NInf else PInf
  | NInf, Fin b => if Qcltb b 0 then PInf else NInf
  | (PInf | NInf), (PInf | NInf) => NaN
  end.

(** [x > y] and [x < y]: false as soon as one side is [NaN]. *)
Definition ltb (x y : num) : bool :=
  match x, y with
  | NaN, _ | _, NaN => false
  | Fin a, Fin b => Qcltb a b
  | NInf, (Fin _ | PInf) => true
  | Fin _, PInf => true
  | _, _ => false
  end.

Definition gtb (x y : num) : bool := ltb y x.

(** [Math.abs], [Math.min], [Math.max] and [Math.pow(x, 2)]. *)
Definition abs (x : num) : num :=
  match x with
  | Fin a => if Qcltb a 0 then Fin (- a) else Fin a
  | PInf | NInf => PInf
  | NaN => NaN
  end.

Definition min (x y : num) : num :=
  match x, y with
  | NaN, _ | _, NaN => NaN
  | _, _ => if ltb y x then y else x
  end.

Definition max (x y : num) : num :=
  match x, y with
  | NaN, _ | _, NaN => NaN
  | _, _ => if ltb x y then y else x
  end.

Definition sq (x : num) : num := mul x x.

(** Truthiness of a number, as [||] and [!] see it. *)
Definition truthy (x : num) : bool :=
  match x with
  | Fin a => negb (Qceqb a 0)
  | PInf | NInf => true
  | NaN => false
  end.

(** [xs.reduce((sum, x) => sum + x, 0)]. *)
Definition sum (xs : list num) : num := fold_left add xs (Fin 0).

(** The sum of a list of rationals, for stating what a [reduce] yields. *)
Fixpoint Qcsum (qs : list Qc) : Qc :=
  match qs with
  | [] => 0
  | q :: rest => q + Qcsum rest
  end.

Definition finite_nonzero (x : num) : Prop := exists q, x = Fin q /\ q <> 0.

Definition positive (x : num) : Prop := exists q, x = Fin q /\ 0 < q.

(** The order as a proposition; nothing is related to [NaN]. *)
Definition le (x y : num) : Prop :=
  match x, y with
  | NaN, _ | _, NaN => False
  | Fin a, Fin b => a <= b
  | NInf, _ | _, PInf => True
  | _, _ => False
  end.

Definition lt (x y : num) : Prop := ltb x y = true.

(** The first entry of a vector as a fraction, to tell vectors apart. *)
Definition firstWeight (ws : list num) : option Q :=
  match ws with
  | Fin q :: _ => Some (this q)
  | _ => None
  end.

(** The mean and the (population) variance of a list of rationals. *)
Definition mean (cs : list Qc) : Qc :=
  Qcsum cs / Q2Qc (inject_Z (Z.of_nat (List.length cs))).

Definition variance (cs : list Qc) : Qc :=
  Qcsum (map (fun c => (c - mean cs) * (c - mean cs)) cs)
  / Q2Qc (inject_Z (Z.of_nat (List.length cs))).

(** [|sum ws - 1| <= 1e-6]. *)
Definition sumsToOne (ws : list num) : Prop :=
  le (dec 0.999999) (sum ws) /\ le (sum ws) (dec 1.000001).

End Num.

Import Num.

Declare Scope num_scope.
Delimit Scope num_scope with num.
Bind Scope num_scope with num.
Infix "+" := add : num_scope.
Infix "-" := sub : num_scope.
Infix "*" := mul : num_scope.
Infix "/" := div : num_scope.
Infix "<=" := le : num_scope.
Infix "<" := lt : num_scope.

(* ===================================================================== *)
(** ** Values shared by the service and the configuration *)
(* ===================================================================== *)

(** A settled promise; [Rejected] carries the message of the error. *)
Inductive outcome (A : Type) : Type :=
| Fulfilled (value : A)
| Rejected (reason : string).
Arguments Fulfilled {A} value.
Arguments Rejected {A} reason.

(** Plain JSON-like values, for the [data: any] payloads. *)
#[local] Unset Elimination Schemes.
Inductive json : Type :=
| JNull
| JBool (b : bool)
| JNum (n : num)
| JStr (s : string)
| JArr (items : list json)
| JObj (fields : list (string * json)).
#[local] Set Elimination Schemes.

(** An object used as a record of named fields, in the order of its
    literal. *)
Definition Dict (A : Type) : Type := list (string * A).

Definition JSObject : Type := Dict json.

(** [o[key]]: [None] stands for [undefined]. *)
Fixpoint get {A : Type} (key : string) (o : Dict A) : option A :=
  match o with
  | [] => None
  | (k, v) :: rest => if String.eqb k key then Some v else get key rest
  end.

Definition json_truthy (j : json) : bool :=
  match j with
  | JNull => false
  | JBool b => b
  | JNum n => truthy n
  | JStr s => negb (String.eqb s "")
  | JArr _ | JObj _ => true
  end.

(** Every [ModelResponse] the service builds carries an object literal
    as [data]. *)
Record ModelResponse : Type := {
  source : string;
  confidence : num;
  data : JSObject;
  processingTime : num
}.

Record EnsembleResponse : Type := {
  finalResponse : string;
  modelContributions : list ModelResponse;
  consensusScore : num;
  totalProcessingTime : num;
  methodology : string
}.

(** A response within the ranges the data model gives: a confidence in
    (0, 1] and a positive processing time, both finite. *)
Definition inRange (r : ModelResponse) : Prop :=
  exists c t : Qc,
    confidence r = Fin c /\ (0 < c)%Qc /\ (c <= 1)%Qc
    /\ processingTime r = Fin t /\ (0 < t)%Qc.

(* --------------------------------------------------------------------- *)
(** *** Strings *)

Definition nl : string := String (ascii_of_nat 10) EmptyString.
Definition dquote : string := String (ascii_of_nat 34) EmptyString.

Definition lower_ascii (c : ascii) : ascii :=
  let n := nat_of_ascii c in
  if andb (Nat.leb 65 n) (Nat.leb n 90) then ascii_of_nat (n + 32) else c.

(** [s.toLowerCase()] on the ASCII letters; other bytes are kept. *)
Fixpoint toLowerCase (s : string) : string :=
  match s with
  | EmptyString => EmptyString
  | String c rest => String (lower_ascii c) (toLowerCase rest)
  end.

(** [s.includes(word)]. *)
Fixpoint includes (s word : string) : bool :=
  if String.prefix word s then true
  else match s with
       | EmptyString => false
       | String _ rest => includes rest word
       end.

(** [word] occurs in [s]. *)
Definition contains (word s : string) : Prop :=
  exists before after, s = (before ++ word ++ after)%string.

(** [xs.join(sep)]. *)
Definition join (sep : string) (xs : list string) : string :=
  String.concat sep xs.

(** An integer in a template literal. *)
Definition show_nat (n : nat) : string :=
  NilEmpty.string_of_uint (Nat.to_uint n).

Fixpoint mapi_from {A B : Type} (i : nat) (f : A -> nat -> B) (xs : list A)
  : list B :=
  match xs with
  | [] => []
  | x :: rest => f x i :: mapi_from (S i) f rest
  end.

(** [xs.map((x, i) => f(x, i))]. *)
Definition mapi {A B : Type} (f : A -> nat -> B) (xs : list A) : list B :=
  mapi_from 0 f xs.

(** The market context, as far as the service reads it itself; the rest
    of it is read by the remote analyzers only. *)
Module Market.

(** The fields of an asset that the service reads; [None] is a field
    that is absent. *)
Record TechnicalData : Type := {
  name : option string;
  priceChange24h : option num;
  volume24h : option num
}.

(** [coins] is empty when the field is absent. *)
Record MarketContext : Type := {
  topCoin : option TechnicalData;
  coins : list TechnicalData
}.

End Market.

(** The [marketContext] argument: [None] is [null] or [undefined]. *)
Definition Context : Type := option Market.MarketContext.

(** What the service and the configuration take from outside: the
    JavaScript built-ins that print values, the remote calls (given by
    the way they settle) and the clock. *)
Record World : Type := {
  (** [JSON.stringify(v, null, 2)] *)
  stringify : json -> string;
  (** [x.toFixed(digits)] *)
  toFixed : nat -> num -> string;
  (** [String(v)] for a value that is not a string *)
  toString : json -> string;
  (** [callGeminiAPI(prompt)] *)
  callGeminiAPI : string -> outcome string;
  (** the three analyzers that rethrow what their remote call throws *)
  getGeminiAnalysis : string -> Context -> outcome ModelResponse;
  getFinancialSentimentAnalysis : string -> Context -> outcome ModelResponse;
  getNewsAnalysis : string -> Context -> outcome ModelResponse;
  (** the [try] block of [getCryptoSentimentAnalysis]: the remote call
      and the response built from its answer *)
  cryptoBertAttempt : string -> outcome ModelResponse;
  (** the [try] block of [getTechnicalAnalysis], likewise *)
  technicalAnalyzerAttempt :
    Market.TechnicalData -> string -> outcome ModelResponse;
  (** [Date.now()] at the start of an analyzer, and where a local
      fallback builds its response *)
  analyzerStart : num;
  analyzerNow : num;
  (** [Date.now() - startTime] where the ensemble response is built *)
  elapsed : num
}.

(* ===================================================================== *)
(** ** MultiModelAIService *)
(* ===================================================================== *)

Module Engine.

Local Open Scope string_scope.

(* --------------------------------------------------------------------- *)
(** *** Helper methods *)

Definition calculateConsensusScore (responses : list ModelResponse) : num :=
  if Nat.ltb (List.length responses) 2 then dec 0.5
  else
    let avgConfidence :=
      (fold_left (fun sum r => sum + confidence r) responses (Fin 0)
       / of_nat (List.length responses))%num in
    let confidenceVariance :=
      (fold_left (fun sum r => sum + sq (confidence r - avgConfidence))
                 responses (Fin 0)
       / of_nat (List.length responses))%num in
    max (dec 0.1) (min (dec 0.95) (dec 1 - confidenceVariance)%num).

(** A value together with the equation that it is the result of the
    test, for the termination argument below. *)
Definition inspect {A : Type} (x : A) : {y : A | x = y} := exist _ x eq_refl.

(** The recursive call of the ["performance"] case is kept as a call. *)
Equations? calculateModelWeights (responses : list ModelResponse)
  (strategy : string) : list num
  by wf (if String.eqb strategy "performance" then 1 else 0)%nat Nat.lt :=
calculateModelWeights responses strategy
  with inspect (String.eqb strategy "confidence") := {
  | exist _ true _ =>
      let totalConfidence :=
        fold_left (fun sum r => sum + confidence r)%num responses (Fin 0) in
      map (fun r => confidence r / totalConfidence)%num responses
  | exist _ false _ with inspect (String.eqb strategy "performance") := {
    | exist _ true Hperf => calculateModelWeights responses "confidence"
    | exist _ false _ =>
        let equalWeight := (dec 1 / of_nat (List.length responses))%num in
        repeat equalWeight (List.length responses) } }.
Proof. rewrite Hperf. simpl. constructor. Qed.

(** The number [calculateModelWeights] divides by: [totalConfidence],
    or [responses.length] in the [equal]/[default] case. *)
Definition divisor (responses : list ModelResponse) (strategy : string) : num :=
  if orb (String.eqb strategy "confidence") (String.eqb strategy "performance")
  then fold_left (fun sum r => sum + confidence r)%num responses (Fin 0)
  else of_nat (List.length responses).

Definition explainMethodology (responses : list ModelResponse)
  (strategy : string) : string :=
  let modelList := join ", " (map source responses) in
  "Used " ++ show_nat (List.length responses) ++ " AI models (" ++ modelList
  ++ ") with " ++ strategy
  ++ " weighting strategy. Consensus score indicates model agreement level.".

(* --------------------------------------------------------------------- *)
(** *** Local fallbacks of the analyzers *)

Definition cryptoPositive : list string :=
  ["moon"; "hodl"; "bullish"; "pump"; "rally"; "breakout"].
Definition cryptoNegative : list string :=
  ["dump"; "crash"; "bearish"; "rekt"; "fud"; "dip"].

(** The method is [async] and has nothing that throws: its promise is
    fulfilled with the response below.  [now] is the reading of
    [Date.now()] when the response is built. *)
Definition getCryptoKeywordAnalysis (query : string) (context : Context)
  (startTime now : num) : ModelResponse :=
  let lowerQuery := toLowerCase query in
  let positiveMatches :=
    List.length (filter (fun word => includes lowerQuery word) cryptoPositive) in
  let negativeMatches :=
    List.length (filter (fun word => includes lowerQuery word) cryptoNegative) in
  let '(sentiment, confidence) :=
    if Nat.ltb negativeMatches positiveMatches then
      ("positive", min (dec 0.8) (dec 0.5 + of_nat positiveMatches * dec 0.1)%num)
    else if Nat.ltb positiveMatches negativeMatches then
      ("negative", min (dec 0.8) (dec 0.5 + of_nat negativeMatches * dec 0.1)%num)
    else ("neutral", dec 0.5) in
  {| source := "Crypto-Keywords";
     confidence := confidence;
     data := [("sentiment", JStr sentiment);
              ("positiveMatches", JNum (of_nat positiveMatches));
              ("negativeMatches", JNum (of_nat negativeMatches));
              ("type", JStr "crypto_keyword_analysis")];
     processingTime := (now - startTime)%num |}.

(** [x || 0] on an optional number. *)
Definition orZero (x : option num) : num :=
  match x with
  | Some v => if truthy v then v else Fin 0
  | None => Fin 0
  end.

(** [s || fallback] on an optional string. *)
Definition orString (s : option string) (fallback : string) : string :=
  match s with
  | Some v => if String.eqb v "" then fallback else v
  | None => fallback
  end.

(** The line that the chain of tests on [priceChange] appends. *)
Definition priceLine (priceChange : num) : string :=
  if gtb priceChange (dec 5) then "- Strong bullish momentum detected" ++ nl
  else if gtb priceChange (dec 2) then "- Moderate upward movement" ++ nl
  else if ltb priceChange (dec (-5)) then "- Strong bearish pressure" ++ nl
  else if ltb priceChange (dec (-2)) then "- Moderate downward pressure" ++ nl
  else "- Sideways price action" ++ nl.

(** The line that the test on [volume] appends. *)
Definition volumeLine (volume : num) : string :=
  if gtb volume (dec 100000000)
  then "- High trading volume indicates strong interest" ++ nl
  else "- Normal trading volume" ++ nl.

Definition getRuleBasedTechnicalAnalysis (data : Market.TechnicalData)
  (query : string) (startTime now : num) : ModelResponse :=
  let priceChange := orZero (Market.priceChange24h data) in
  let volume := orZero (Market.volume24h data) in
  let analysis :=
    "Technical Analysis for " ++ orString (Market.name data) "Asset"
    ++ ":" ++ nl in
  let analysis := analysis ++ priceLine priceChange in
  let analysis := analysis ++ volumeLine volume in
  {| source := "Rule-Based-Technical";
     confidence := dec 0.6;
     data := [("analysis", JStr analysis);
              ("type", JStr "rule_based_technical");
              ("metrics", JObj [("priceChange", JNum priceChange);
                                ("volume", JNum volume)])];
     processingTime := (now - startTime)%num |}.

(* --------------------------------------------------------------------- *)
(** *** The two analyzers that fall back *)

Definition getCryptoSentimentAnalysis (w : World) (query : string)
  (context : Context) : outcome ModelResponse :=
  let startTime := analyzerStart w in
  match cryptoBertAttempt w query with
  | Fulfilled response => Fulfilled response
  | Rejected _ =>
      Fulfilled (getCryptoKeywordAnalysis query context startTime
                   (analyzerNow w))
  end.

(** Reading [context.topCoin] throws a [TypeError] when there is no
    context. *)
Definition getTechnicalAnalysis (w : World) (query : string)
  (context : Context) : outcome ModelResponse :=
  let startTime := analyzerStart w in
  match context with
  | None => Rejected "Cannot read properties of undefined (reading 'topCoin')"
  | Some context =>
    let technicalData :=
      match Market.topCoin context with
      | Some coin => Some coin
      | None => hd_error (Market.coins context)
      end in
    match technicalData with
    | None =>
        Fulfilled
          {| source := "Technical-Analysis";
             confidence := dec 0.3;
             data := [("analysis",
                       JStr "Insufficient technical data for analysis");
                      ("type", JStr "technical_analysis")];
             processingTime := (analyzerNow w - startTime)%num |}
    | Some technicalData =>
        match technicalAnalyzerAttempt w technicalData query with
        | Fulfilled response => Fulfilled response
        | Rejected _ =>
            Fulfilled (getRuleBasedTechnicalAnalysis technicalData query
                         startTime (analyzerNow w))
        end
    end
  end.

(* --------------------------------------------------------------------- *)
(** *** Synthesis *)

Definition apology : string :=
  "I apologize, but I couldn't generate a comprehensive analysis due to technical difficulties. Please try again.".

Definition closingLine : string :=
  "ðŸ’¡ Remember: This is a learning tool to help you understand trading better!".

(** A value in a template literal. *)
Definition interpolate (w : World) (v : option json) : string :=
  match v with
  | None => "undefined"
  | Some (JStr s) => s
  | Some j => toString w j
  end.

(** [highConfidenceResponses[0] || responses[0]], for a list with a
    first element [first]. *)
Definition primaryOf (first : ModelResponse) (responses : list ModelResponse)
  : ModelResponse :=
  let highConfidenceResponses :=
    filter (fun r => gtb (confidence r) (dec 0.7)) responses in
  match highConfidenceResponses with
  | h :: _ => h
  | [] => first
  end.

Definition fallbackSynthesis (w : World) (responses : list ModelResponse)
  (query : string) : string :=
  match responses with
  | [] => "Unable to provide analysis at this time."
  | first :: others =>
    let primaryResponse := primaryOf first responses in
    let synthesis := "Based on multi-model AI analysis:" ++ nl ++ nl in
    let synthesis :=
      synthesis ++ "Primary Analysis (" ++ source primaryResponse ++ "):" ++ nl in
    let shown :=
      match get "analysis" (data primaryResponse) with
      | Some a => if json_truthy a then a else JObj (data primaryResponse)
      | None => JObj (data primaryResponse)
      end in
    let synthesis := synthesis ++ stringify w shown ++ nl ++ nl in
    let synthesis :=
      if Nat.ltb 1 (List.length responses) then
        fold_left
          (fun acc r =>
             acc ++ "- " ++ source r ++ ": "
             ++ interpolate w (get "type" (data r)) ++ nl)
          others
          (synthesis ++ "Supporting insights from "
           ++ show_nat (List.length responses - 1)
           ++ " additional models:" ++ nl)
      else synthesis in
    let synthesis :=
      synthesis ++ nl ++ "Confidence: "
      ++ toFixed w 1 (confidence primaryResponse * dec 100)%num ++ "%" in
    let synthesis :=
      synthesis ++ nl ++ "Models consulted: "
      ++ join ", " (map source responses) in
    synthesis ++ nl ++ nl ++ closingLine
  end.

Definition synthesisPrompt (w : World) (responses : list ModelResponse)
  (originalQuery : string) (weights : list num) : string :=
  nl
  ++ "    As Tradeable's AI coordinator, synthesize these AI model analyses into one comprehensive response:" ++ nl
  ++ nl
  ++ "    Original Query: " ++ dquote ++ originalQuery ++ dquote ++ nl
  ++ nl
  ++ "    Model Analyses:" ++ nl
  ++ "    "
  ++ join nl
       (mapi (fun r i =>
                nl ++ "    " ++ show_nat (i + 1) ++ ". " ++ source r
                ++ " (Confidence: "
                ++ toFixed w 1 (confidence r * dec 100)%num
                ++ "%, Weight: "
                ++ toFixed w 1 (nth i weights NaN * dec 100)%num ++ "%):" ++ nl
                ++ "    " ++ stringify w (JObj (data r)) ++ nl
                ++ "    ")
             responses)
  ++ nl
  ++ nl
  ++ "    Requirements:" ++ nl
  ++ "    - Synthesize insights from all models" ++ nl
  ++ "    - Highlight areas of consensus" ++ nl
  ++ "    - Note conflicting viewpoints and explain why" ++ nl
  ++ "    - Provide balanced, actionable advice" ++ nl
  ++ "    - Maintain educational tone" ++ nl
  ++ "    - Include confidence indicators" ++ nl
  ++ "    - End with: " ++ dquote ++ closingLine ++ dquote ++ nl
  ++ nl
  ++ "    Create a unified response that leverages the strengths of each model." ++ nl
  ++ "    ".

Definition synthesizeResponses (w : World) (responses : list ModelResponse)
  (originalQuery : string) (strategy : string) : string :=
  if Nat.eqb (List.length responses) 0 then apology
  else
    let weights := calculateModelWeights responses strategy in
    match callGeminiAPI w (synthesisPrompt w responses originalQuery weights) with
    | Fulfilled text => text
    | Rejected _ => fallbackSynthesis w responses originalQuery
    end.

(* --------------------------------------------------------------------- *)
(** *** The body of a [try] block: a computation over the mutable
        [modelResponses] that returns or throws *)

Definition Try (A : Type) : Type :=
  list ModelResponse -> outcome A * list ModelResponse.

Definition ret {A : Type} (a : A) : Try A := fun st => (Fulfilled a, st).

Definition throw {A : Type} (message : string) : Try A :=
  fun st => (Rejected message, st).

Definition bind {A B : Type} (m : Try A) (k : A -> Try B) : Try B :=
  fun st =>
    match m st with
    | (Fulfilled a, st') => k a st'
    | (Rejected message, st') => (Rejected message, st')
    end.

Definition push (r : ModelResponse) : Try unit :=
  fun st => (Fulfilled tt, (st ++ [r])%list).

Definition read : Try (list ModelResponse) := fun st => (Fulfilled st, st).

Notation "x <- m ;; k" := (bind m (fun x => k))
  (at level 61, m at next level, right associativity).
Notation "m ;; k" := (bind m (fun _ => k))
  (at level 61, right associativity).

(* --------------------------------------------------------------------- *)
(** *** generateEnsembleResponse *)

Record Options : Type := {
  useGemini : option bool;
  useFinancialBert : option bool;
  useCryptoBert : option bool;
  useNewsAnalysis : option bool;
  weightingStrategy : option string
}.

(** [options = {}]. *)
Definition noOptions : Options :=
  {| useGemini := None; useFinancialBert := None; useCryptoBert := None;
     useNewsAnalysis := None; weightingStrategy := None |}.

(** A destructuring default: [{ field = d } = options]. *)
Definition orDefault {A : Type} (field : option A) (d : A) : A :=
  match field with Some v => v | None => d end.

(** The promises pushed to [modelPromises], in order, each given by the
    way it settles: this list is the result of [Promise.allSettled]. *)
Definition modelPromises (w : World) (query : string)
  (marketContext : Context)
  (options : Options) : list (outcome ModelResponse) :=
  ((if orDefault (useGemini options) true
    then [getGeminiAnalysis w query marketContext] else [])
   ++ (if orDefault (useFinancialBert options) true
       then [getFinancialSentimentAnalysis w query marketContext] else [])
   ++ (if orDefault (useCryptoBert options) true
       then [getCryptoSentimentAnalysis w query marketContext] else [])
   ++ (if orDefault (useNewsAnalysis options) true
       then [getNewsAnalysis w query marketContext] else [])
   ++ [getTechnicalAnalysis w query marketContext])%list.

(** The values of the fulfilled results, in order. *)
Fixpoint succeeded (results : list (outcome ModelResponse))
  : list ModelResponse :=
  match results with
  | [] => []
  | Fulfilled value :: rest => value :: succeeded rest
  | Rejected _ :: rest => succeeded rest
  end.

Definition isRejected {A : Type} (o : outcome A) : Prop :=
  match o with Rejected _ => True | Fulfilled _ => False end.

(** [results.forEach(...)]: a fulfilled result is pushed and sets
    [hasValidResponse]; a rejected one is only logged. *)
Fixpoint forEachResult (results : list (outcome ModelResponse))
  (hasValidResponse : bool) : Try bool :=
  match results with
  | [] => ret hasValidResponse
  | Fulfilled value :: rest => push value ;; forEachResult rest true
  | Rejected _ :: rest => forEachResult rest hasValidResponse
  end.

Definition tryBlock (apiKey : string) (w : World) (query : string)
  (marketContext : Context) (options : Options) : Try EnsembleResponse :=
  (if String.eqb apiKey "" then throw "HUGGINGFACE_API_KEY is not configured"
   else ret tt) ;;
  let weightingStrategy := orDefault (weightingStrategy options) "confidence" in
  let results := modelPromises w query marketContext options in
  hasValidResponse <- forEachResult results false ;;
  if negb hasValidResponse then
    ret {| finalResponse := apology;
           modelContributions := [];
           consensusScore := Fin 0;
           totalProcessingTime := elapsed w;
           methodology := "No models were able to generate a response" |}
  else
    modelResponses <- read ;;
    let finalResponse :=
      synthesizeResponses w modelResponses query weightingStrategy in
    let totalTime := elapsed w in
    let consensusScore := calculateConsensusScore modelResponses in
    let methodology := explainMethodology modelResponses weightingStrategy in
    ret {| finalResponse := finalResponse;
           modelContributions := modelResponses;
           consensusScore := consensusScore;
           totalProcessingTime := totalTime;
           methodology := methodology |}.

(** The promise returned by the method: the [try] block, and the [catch]
    that turns whatever was thrown into a response. *)
Definition generateEnsembleResponse (apiKey : string) (w : World)
  (query : string) (marketContext : Context) (options : Options)
  : outcome EnsembleResponse :=
  match tryBlock apiKey w query marketContext options [] with
  | (Fulfilled response, _) => Fulfilled response
  | (Rejected message, modelResponses) =>
      Fulfilled
        {| finalResponse :=
             "Analysis failed: " ++ message ++ ". Please try again.";
           modelContributions := modelResponses;
           consensusScore := Fin 0;
           totalProcessingTime := elapsed w;
           methodology := "Analysis failed due to technical error" |}
  end.

(** For the statements below: the response of the [try] block when no
    analyzer succeeded. *)
Definition degraded (w : World) : EnsembleResponse :=
  {| finalResponse := apology;
     modelContributions := [];
     consensusScore := Fin 0;
     totalProcessingTime := elapsed w;
     methodology := "No models were able to generate a response" |}.

(** For the statements below: its response when [modelResponses] holds
    the fulfilled values. *)
Definition synthesized (w : World) (query : string) (options : Options)
  (modelResponses : list ModelResponse) : EnsembleResponse :=
  let weightingStrategy := orDefault (weightingStrategy options) "confidence" in
  {| finalResponse :=
       synthesizeResponses w modelResponses query weightingStrategy;
     modelContributions := modelResponses;
     consensusScore := calculateConsensusScore modelResponses;
     totalProcessingTime := elapsed w;
     methodology := explainMethodology modelResponses weightingStrategy |}.

End Engine.

(* ===================================================================== *)
(** ** AI_ENSEMBLE_CONFIG and AIEnsembleConfigManager *)
(* ===================================================================== *)

Module Config.

Local Open Scope string_scope.

Record RateLimit : Type := {
  requestsPerMinute : num;
  burstLimit : num
}.

Record AIModelConfig : Type := {
  name : string;
  endpoint : option string;
  enabled : bool;
  weight : num;
  timeout : num;
  retries : num;
  fallbackEnabled : bool;
  rateLimit : RateLimit;
  costPerRequest : num;
  strengths : list string;
  weaknesses : list string;
  optimalUseCases : list string;
  minimumConfidenceThreshold : num
}.

Record EnsembleStrategy : Type := {
  strategyName : string;
  description : string;
  weightingFunction : list ModelResponse -> list num;
  consensusThreshold : num;
  requireMinimumModels : num;
  maxProcessingTime : num;
  fallbackStrategy : string
}.

Record GlobalSettings : Type := {
  maxConcurrentRequests : num;
  globalTimeout : num;
  enableFallbacks : bool;
  logPerformanceMetrics : bool;
  cacheResponses : bool;
  cacheTTL : num
}.

Record QualityThresholds : Type := {
  minimumConsensus : num;
  maximumResponseTime : num;
  minimumModelCount : num;
  confidenceThreshold : num
}.

Record CostManagement : Type := {
  dailyBudgetLimit : num;
  costPerRequestLimit : num;
  enableCostOptimization : bool;
  preferLowerCostModels : bool
}.

Record AIEnsembleConfig : Type := {
  models : Dict AIModelConfig;
  strategies : Dict EnsembleStrategy;
  defaultStrategy : string;
  globalSettings : GlobalSettings;
  qualityThresholds : QualityThresholds;
  costManagement : CostManagement
}.

(* --------------------------------------------------------------------- *)
(** *** The weighting functions of the strategy table *)

Definition confidenceWeighting (responses : list ModelResponse) : list num :=
  let totalConfidence :=
    fold_left (fun sum r => sum + confidence r)%num responses (Fin 0) in
  map (fun r => confidence r / totalConfidence)%num responses.

Definition equalWeighting (responses : list ModelResponse) : list num :=
  let equalWeight := (dec 1 / of_nat (List.length responses))%num in
  repeat equalWeight (List.length responses).

Definition performanceScore (r : ModelResponse) : num :=
  if String.eqb (source r) "Gemini-2.0-Flash" then dec 0.85
  else if String.eqb (source r) "FinBERT" then dec 0.78
  else if String.eqb (source r) "CryptoBERT" then dec 0.72
  else if String.eqb (source r) "News-RoBERTa" then dec 0.76
  else if String.eqb (source r) "Technical-Analyzer" then dec 0.7
  else dec 0.6.

Definition performanceWeighting (responses : list ModelResponse) : list num :=
  let performanceScores := map performanceScore responses in
  let totalPerformance :=
    fold_left (fun sum score => sum + score)%num performanceScores (Fin 0) in
  map (fun score => score / totalPerformance)%num performanceScores.

Definition adaptiveWeighting (responses : list ModelResponse) : list num :=
  map (fun r =>
         confidence r
         / fold_left (fun sum resp => sum + confidence resp) responses (Fin 0))%num
      responses.

Definition fastResponseWeighting (responses : list ModelResponse) : list num :=
  let speedScores :=
    map (fun r => dec 1 / (processingTime r / dec 1000))%num responses in
  let totalSpeed :=
    fold_left (fun sum score => sum + score)%num speedScores (Fin 0) in
  map (fun score => score / totalSpeed)%num speedScores.

(** The [consensusBonus] array of the [highAccuracy] strategy. *)
Definition highAccuracyScores (responses : list ModelResponse) : list num :=
  map (fun r =>
         let avgConfidence :=
           (fold_left (fun sum resp => sum + confidence resp) responses (Fin 0)
            / of_nat (List.length responses))%num in
         let consensusScore :=
           (dec 1 - abs (confidence r - avgConfidence))%num in
         (confidence r * dec 0.7 + consensusScore * dec 0.3)%num)
      responses.

Definition highAccuracyWeighting (responses : list ModelResponse) : list num :=
  let consensusBonus := highAccuracyScores responses in
  let total :=
    fold_left (fun sum score => sum + score)%num consensusBonus (Fin 0) in
  map (fun score => score / total)%num consensusBonus.

(** The number the weighting function of the strategy [key] divides by:
    [totalConfidence], [responses.length], [totalPerformance],
    [totalSpeed] or [total]. *)
Definition divisor (key : string) (responses : list ModelResponse) : num :=
  if orb (String.eqb key "confidence") (String.eqb key "adaptive") then
    fold_left (fun sum r => sum + confidence r)%num responses (Fin 0)
  else if String.eqb key "performance" then
    sum (map performanceScore responses)
  else if String.eqb key "fastResponse" then
    sum (map (fun r => dec 1 / (processingTime r / dec 1000))%num responses)
  else if String.eqb key "highAccuracy" then
    sum (highAccuracyScores responses)
  else of_nat (List.length responses).

(* --------------------------------------------------------------------- *)
(** *** The static table *)

Definition gemini : AIModelConfig :=
  {| name := "Gemini-2.0-Flash";
     endpoint := None;
     enabled := true;
     weight := dec 1.0;
     timeout := dec 30000;
     retries := dec 2;
     fallbackEnabled := true;
     rateLimit := {| requestsPerMinute := dec 60; burstLimit := dec 10 |};
     costPerRequest := dec 0.02;
     strengths := ["comprehensive_reasoning"; "context_understanding";
                   "educational_content"; "market_interpretation";
                   "risk_assessment"];
     weaknesses := ["processing_speed"; "specialized_terminology";
                    "real_time_data"];
     optimalUseCases := ["complex_analysis"; "educational_queries";
                         "market_interpretation"; "risk_assessment";
                         "strategic_advice"];
     minimumConfidenceThreshold := dec 0.7 |}.

Definition finbert : AIModelConfig :=
  {| name := "FinBERT";
     endpoint := Some "ProsusAI/finbert";
     enabled := true;
     weight := dec 0.8;
     timeout := dec 15000;
     retries := dec 3;
     fallbackEnabled := true;
     rateLimit := {| requestsPerMinute := dec 100; burstLimit := dec 20 |};
     costPerRequest := dec 0.001;
     strengths := ["financial_sentiment"; "market_terminology";
                   "news_analysis"; "risk_indicators"; "economic_context"];
     weaknesses := ["general_conversation"; "technical_analysis";
                    "crypto_specific_terms"];
     optimalUseCases := ["sentiment_analysis"; "news_interpretation";
                         "financial_document_analysis";
                         "market_mood_assessment"];
     minimumConfidenceThreshold := dec 0.6 |}.

Definition cryptobert : AIModelConfig :=
  {| name := "CryptoBERT";
     endpoint := Some "ElKulako/cryptobert";
     enabled := true;
     weight := dec 0.7;
     timeout := dec 12000;
     retries := dec 3;
     fallbackEnabled := true;
     rateLimit := {| requestsPerMinute := dec 80; burstLimit := dec 15 |};
     costPerRequest := dec 0.0015;
     strengths := ["crypto_terminology"; "community_sentiment";
                   "defi_concepts"; "blockchain_terminology";
                   "trading_slang"; "social_media_analysis"];
     weaknesses := ["formal_financial_analysis"; "traditional_markets";
                    "regulatory_content"];
     optimalUseCases := ["crypto_sentiment_analysis";
                         "social_media_monitoring"; "community_feedback";
                         "meme_coin_analysis"; "defi_protocol_sentiment"];
     minimumConfidenceThreshold := dec 0.65 |}.

Definition newsRoberta : AIModelConfig :=
  {| name := "News-RoBERTa";
     endpoint := Some "cardiffnlp/twitter-roberta-base-sentiment-latest";
     enabled := true;
     weight := dec 0.6;
     timeout := dec 10000;
     retries := dec 3;
     fallbackEnabled := true;
     rateLimit := {| requestsPerMinute := dec 120; burstLimit := dec 25 |};
     costPerRequest := dec 0.0008;
     strengths := ["news_classification"; "social_media_sentiment";
                   "trending_topic_analysis"; "real_time_sentiment";
                   "short_text_analysis"];
     weaknesses := ["long_form_content"; "technical_analysis";
                    "financial_terminology"];
     optimalUseCases := ["breaking_news_analysis"; "social_media_monitoring";
                         "trend_detection"; "public_sentiment_tracking"];
     minimumConfidenceThreshold := dec 0.6 |}.

Definition technicalAnalyzer : AIModelConfig :=
  {| name := "Technical-Analyzer";
     endpoint := Some "custom/technical-patterns";
     enabled := true;
     weight := dec 0.7;
     timeout := dec 8000;
     retries := dec 2;
     fallbackEnabled := true;
     rateLimit := {| requestsPerMinute := dec 200; burstLimit := dec 50 |};
     costPerRequest := dec 0.0005;
     strengths := ["price_pattern_recognition"; "volume_analysis";
                   "trend_identification"; "support_resistance";
                   "indicator_interpretation"];
     weaknesses := ["fundamental_analysis"; "news_interpretation";
                    "sentiment_analysis"];
     optimalUseCases := ["chart_analysis"; "trading_signals";
                         "pattern_recognition"; "technical_indicators"];
     minimumConfidenceThreshold := dec 0.65 |}.

Definition AI_ENSEMBLE_CONFIG : AIEnsembleConfig :=
  {| models :=
       [("gemini", gemini); ("finbert", finbert); ("cryptobert", cryptobert);
        ("newsRoberta", newsRoberta);
        ("technicalAnalyzer", technicalAnalyzer)];
     strategies :=
       [("confidence",
         {| strategyName := "Confidence Weighting";
            description := "Models with higher confidence scores have proportionally more influence on the final response";
            weightingFunction := confidenceWeighting;
            consensusThreshold := dec 0.7;
            requireMinimumModels := dec 2;
            maxProcessingTime := dec 45000;
            fallbackStrategy := "equal" |});
        ("equal",
         {| strategyName := "Equal Weighting";
            description := "All models contribute equally regardless of confidence levels";
            weightingFunction := equalWeighting;
            consensusThreshold := dec 0.6;
            requireMinimumModels := dec 2;
            maxProcessingTime := dec 30000;
            fallbackStrategy := "performance" |});
        ("performance",
         {| strategyName := "Performance Weighting";
            description := "Models are weighted based on historical accuracy and performance metrics";
            weightingFunction := performanceWeighting;
            consensusThreshold := dec 0.75;
            requireMinimumModels := dec 3;
            maxProcessingTime := dec 60000;
            fallbackStrategy := "confidence" |});
        ("adaptive",
         {| strategyName := "Adaptive Weighting";
            description := "Dynamically adjusts model weights based on query type and context";
            weightingFunction := adaptiveWeighting;
            consensusThreshold := dec 0.8;
            requireMinimumModels := dec 3;
            maxProcessingTime := dec 50000;
            fallbackStrategy := "confidence" |});
        ("fastResponse",
         {| strategyName := "Fast Response";
            description := "Optimizes for speed, using fewer models with shorter timeouts";
            weightingFunction := fastResponseWeighting;
            consensusThreshold := dec 0.6;
            requireMinimumModels := dec 2;
            maxProcessingTime := dec 15000;
            fallbackStrategy := "equal" |});
        ("highAccuracy",
         {| strategyName := "High Accuracy";
            description := "Uses all available models with emphasis on consensus and validation";
            weightingFunction := highAccuracyWeighting;
            consensusThreshold := dec 0.85;
            requireMinimumModels := dec 4;
            maxProcessingTime := dec 90000;
            fallbackStrategy := "performance" |})];
     defaultStrategy := "confidence";
     globalSettings :=
       {| maxConcurrentRequests := dec 5;
          globalTimeout := dec 60000;
          enableFallbacks := true;
          logPerformanceMetrics := true;
          cacheResponses := true;
          cacheTTL := dec 300000 |};
     qualityThresholds :=
       {| minimumConsensus := dec 0.6;
          maximumResponseTime := dec 45000;
          minimumModelCount := dec 2;
          confidenceThreshold := dec 0.5 |};
     costManagement :=
       {| dailyBudgetLimit := dec 50.0;
          costPerRequestLimit := dec 0.25;
          enableCostOptimization := true;
          preferLowerCostModels := false |} |}.

(* --------------------------------------------------------------------- *)
(** *** getOptimalConfiguration *)

Record QueryAnalysis : Type := {
  isTechnicalQuery : bool;
  isSentimentQuery : bool;
  isEducationalQuery : bool;
  complexity : string;
  urgency : string
}.

Record OptimalConfiguration : Type := {
  enabledModels : list string;
  strategy : string;
  optimalTimeout : num;
  expectedCost : num
}.

(** [this.config.models[key]?.enabled], as a condition. *)
Definition isEnabled (config : AIEnsembleConfig) (key : string) : bool :=
  match get key (models config) with
  | Some model => enabled model
  | None => false
  end.

(** [config] is the [this.config] of the manager. *)
Definition getOptimalConfiguration (config : AIEnsembleConfig)
  (queryAnalysis : QueryAnalysis) : OptimalConfiguration :=
  let enabledModels := ["gemini"] in
  let strategy := defaultStrategy config in
  let timeout := globalTimeout (globalSettings config) in
  let enabledModels :=
    if isSentimentQuery queryAnalysis
    then (enabledModels ++ ["finbert"; "cryptobert"; "newsRoberta"])%list
    else enabledModels in
  let enabledModels :=
    if isTechnicalQuery queryAnalysis
    then (enabledModels ++ ["technicalAnalyzer"; "finbert"])%list
    else enabledModels in
  let '(enabledModels, strategy) :=
    if isEducationalQuery queryAnalysis
    then ((enabledModels ++ ["finbert"])%list, "confidence")
    else (enabledModels, strategy) in
  let '(strategy, timeout, enabledModels) :=
    if String.eqb (urgency queryAnalysis) "high"
    then ("fastResponse", dec 15000, firstn 2 enabledModels)
    else if String.eqb (complexity queryAnalysis) "high"
    then ("highAccuracy", dec 60000, enabledModels)
    else (strategy, timeout, enabledModels) in
  let expectedCost :=
    fold_left
      (fun sum modelKey =>
         match get modelKey (models config) with
         | Some model => sum + costPerRequest model
         | None => sum + Fin 0
         end)%num
      enabledModels (Fin 0) in
  {| enabledModels := filter (isEnabled config) enabledModels;
     strategy := strategy;
     optimalTimeout := timeout;
     expectedCost := expectedCost |}.

(** For the statements below: the static cost per request of the model
    [key], nothing for a model the configuration does not have; and the
    sum of these over [keys], one term per entry. *)
Definition costOf (config : AIEnsembleConfig) (key : string) : num :=
  match get key (models config) with
  | Some model => costPerRequest model
  | None => Fin 0
  end.

Definition totalCost (config : AIEnsembleConfig) (keys : list string) : num :=
  sum (map (costOf config) keys).

(** [{ ...model, enabled: false }]. *)
Definition disabled (model : AIModelConfig) : AIModelConfig :=
  {| name := name model;
     endpoint := endpoint model;
     enabled := false;
     weight := weight model;
     timeout := timeout model;
     retries := retries model;
     fallbackEnabled := fallbackEnabled model;
     rateLimit := rateLimit model;
     costPerRequest := costPerRequest model;
     strengths := strengths model;
     weaknesses := weaknesses model;
     optimalUseCases := optimalUseCases model;
     minimumConfidenceThreshold := minimumConfidenceThreshold model |}.

(** [{ ...config, models: newModels }], as [updateConfiguration] and the
    constructor accept it. *)
Definition withModels (config : AIEnsembleConfig)
  (newModels : Dict AIModelConfig) : AIEnsembleConfig :=
  {| models := newModels;
     strategies := strategies config;
     defaultStrategy := defaultStrategy config;
     globalSettings := globalSettings config;
     qualityThresholds := qualityThresholds config;
     costManagement := costManagement config |}.

End Config.

(* ===================================================================== *)
(** ** Rounding *)
(* ===================================================================== *)

Module Rounding.

Local Open Scope Qc_scope.

Definition half : Qc := Q2Qc 0.5.

(** [10^digits]. *)
Definition scale (digits : nat) : Qc :=
  Q2Qc (inject_Z (10 ^ Z.of_nat digits)).

(** [Math.round(x)]: the nearest integer, a half going up. *)
Definition round (x : num) : num :=
  match x with
  | Fin q => Fin (Q2Qc (inject_Z (Qfloor (q + half))))
  | _ => x
  end.

(** [Number(x.toFixed(digits))]: the magnitude is rounded to the nearest
    multiple of [10^-digits], a half going up; from [10^21] on, [toFixed]
    prints the number as it is. *)
Definition fixed (digits : nat) (x : num) : num :=
  match x with
  | Fin q =>
      let magnitude := if Qcltb q 0 then - q else q in
      if Qcltb magnitude (scale 21) then
        let n := Qfloor (magnitude * scale digits + half) in
        let rounded := Q2Qc (inject_Z n) / scale digits in
        Fin (if Qcltb q 0 then - rounded else rounded)
      else x
  | _ => x
  end.

End Rounding.

(* ===================================================================== *)
(** ** MultiModelAIService: the confidence of a batch of remote answers *)
(* ===================================================================== *)

Module Service.

Local Open Scope string_scope.

(** [v.key] on a value that is not [null]: only an object has the
    fields read here. *)
Definition field (key : string) (v : json) : option json :=
  match v with
  | JObj fields => get key fields
  | _ => None
  end.

Definition truthyValue (v : option json) : bool :=
  match v with
  | Some j => json_truthy j
  | None => false
  end.

(** [r.confidence || r.score || (Array.isArray(r) ? r[0]?.score : 0.5)];
    reading a property of [null] throws. *)
Definition scoreOf (r : json) : outcome (option json) :=
  match r with
  | JNull => Rejected "Cannot read properties of null (reading 'confidence')"
  | _ =>
      if truthyValue (field "confidence" r) then Fulfilled (field "confidence" r)
      else if truthyValue (field "score" r) then Fulfilled (field "score" r)
      else
        Fulfilled
          (match r with
           | JArr [] => None
           | JArr (JNull :: _) => None
           | JArr (first :: _) => field "score" first
           | _ => Some (JNum (dec 0.5))
           end)
  end.

(** [results.map(...)]: the first element that throws ends it. *)
Fixpoint mapScores (results : list json) : outcome (list (option json)) :=
  match results with
  | [] => Fulfilled []
  | r :: rest =>
      match scoreOf r with
      | Rejected message => Rejected message
      | Fulfilled c =>
          match mapScores rest with
          | Rejected message => Rejected message
          | Fulfilled cs => Fulfilled (c :: cs)
          end
      end
  end.

(** [.filter((c) => typeof c === "number" && c > 0)]. *)
Fixpoint positiveNumbers (values : list (option json)) : list num :=
  match values with
  | [] => []
  | Some (JNum c) :: rest =>
      if gtb c (Fin 0) then c :: positiveNumbers rest
      else positiveNumbers rest
  | _ :: rest => positiveNumbers rest
  end.

Definition calculateAverageConfidence (results : list json) : outcome num :=
  match mapScores results with
  | Rejected message => Rejected message
  | Fulfilled values =>
      let confidences := positiveNumbers values in
      Fulfilled
        (if Nat.ltb 0 (List.length confidences)
         then (fold_left (fun a b => a + b) confidences (Fin 0)
               / of_nat (List.length confidences))%num
         else dec 0.5)
  end.

(** The [source] names that the analyzers and their fallbacks give to
    their responses. *)
Definition sourceNames : list string :=
  ["Gemini-2.0-Flash"; "FinBERT"; "CryptoBERT"; "News-RoBERTa";
   "Technical-Analysis"; "Technical-Analyzer"; "Crypto-Keywords";
   "Rule-Based-Technical"].

(** A world whose remote analyzers answer under the names that the
    service gives them. *)
Definition namesSources (w : World) : Prop :=
  (forall query context r,
      getGeminiAnalysis w query context = Fulfilled r ->
      source r = "Gemini-2.0-Flash")
  /\ (forall query context r,
         getFinancialSentimentAnalysis w query context = Fulfilled r ->
         source r = "FinBERT")
  /\ (forall query context r,
         getNewsAnalysis w query context = Fulfilled r ->
         source r = "News-RoBERTa")
  /\ (forall query r,
         cryptoBertAttempt w query = Fulfilled r -> source r = "CryptoBERT")
  /\ (forall data query r,
         technicalAnalyzerAttempt w data query = Fulfilled r ->
         source r = "Technical-Analyzer").

End Service.

(* ===================================================================== *)
(** ** AIEnsembleConfigManager: the methods with state *)
(* ===================================================================== *)

Module Manager.

Local Open Scope string_scope.

(** [map.set(key, v)]: the entry is replaced where it is, a new key goes
    to the end. *)
Fixpoint set {A : Type} (key : string) (v : A) (d : Dict A) : Dict A :=
  match d with
  | [] => [(key, v)]
  | (k, x) :: rest =>
      if String.eqb k key then (k, v) :: rest else (k, x) :: set key v rest
  end.

(** A [Date] is its time value. *)
Record Metrics : Type := {
  responseTime : num;
  confidence : num;
  accuracy : option num;
  timestamp : num
}.

Record AIEnsembleConfigManager : Type := {
  config : Config.AIEnsembleConfig;
  performanceHistory : Dict (list Metrics)
}.

(** [new AIEnsembleConfigManager(config)]. *)
Definition create (initial : Config.AIEnsembleConfig) : AIEnsembleConfigManager :=
  {| config := initial; performanceHistory := [] |}.

(** [export const aiConfigManager = new AIEnsembleConfigManager()]. *)
Definition aiConfigManager : AIEnsembleConfigManager :=
  create Config.AI_ENSEMBLE_CONFIG.

Definition getOptimalConfiguration (this : AIEnsembleConfigManager)
  (queryAnalysis : Config.QueryAnalysis) : Config.OptimalConfiguration :=
  Config.getOptimalConfiguration (config this) queryAnalysis.

(** The array held by the map is changed in place: the entry of the map
    is the array after [push] and [shift]. *)
Definition updatePerformanceMetrics (this : AIEnsembleConfigManager)
  (modelName : string) (metrics : Metrics) : AIEnsembleConfigManager :=
  let started :=
    match get modelName (performanceHistory this) with
    | Some _ => performanceHistory this
    | None => set modelName [] (performanceHistory this)
    end in
  let history :=
    match get modelName started with Some h => h | None => [] end in
  let history := (history ++ [metrics])%list in
  let history :=
    if Nat.ltb 100 (List.length history) then tl history else history in
  {| config := config this;
     performanceHistory := set modelName history started |}.

Record PerformanceStats : Type := {
  averageResponseTime : num;
  averageConfidence : num;
  successRate : num;
  totalRequests : nat;
  lastUpdated : option num
}.

Inductive Performance : Type :=
| NoData (message : string)
| Stats (stats : PerformanceStats).

(** [this.config.models[modelName]?.minimumConfidenceThreshold]: [NaN]
    is what a comparison makes of [undefined]. *)
Definition thresholdOf (this : AIEnsembleConfigManager) (modelName : string)
  : num :=
  match get modelName (Config.models (config this)) with
  | Some model => Config.minimumConfidenceThreshold model
  | None => NaN
  end.

(** The test of the [filter] that counts successes,
    [m.confidence > threshold || 0.5]: the comparison with [>] is made
    first, and [||] is applied to its result. *)
Definition countsAsSuccess (this : AIEnsembleConfigManager)
  (modelName : string) (m : Metrics) : bool :=
  json_truthy
    (if gtb (confidence m) (thresholdOf this modelName) then JBool true
     else JNum (dec 0.5)).

Definition getModelPerformance (this : AIEnsembleConfigManager)
  (modelName : string) : Performance :=
  match get modelName (performanceHistory this) with
  | None => NoData "No performance data available"
  | Some history =>
      if Nat.eqb (List.length history) 0
      then NoData "No performance data available"
      else
        let avgResponseTime :=
          (fold_left (fun sum m => sum + responseTime m) history (Fin 0)
           / of_nat (List.length history))%num in
        let avgConfidence :=
          (fold_left (fun sum m => sum + confidence m) history (Fin 0)
           / of_nat (List.length history))%num in
        let successRate :=
          (of_nat (List.length (filter (countsAsSuccess this modelName) history))
           / of_nat (List.length history))%num in
        Stats
          {| averageResponseTime := Rounding.round avgResponseTime;
             averageConfidence := Rounding.fixed 3 avgConfidence;
             successRate := Rounding.fixed 3 successRate;
             totalRequests := List.length history;
             lastUpdated := option_map timestamp (last (map Some history) None) |}
  end.

Record Validation : Type := {
  valid : bool;
  errors : list string
}.

(** The errors that one entry of [models] adds. *)
Definition modelErrors (entry : string * Config.AIModelConfig) : list string :=
  let '(key, model) := entry in
  let weightError := "Model " ++ key ++ ": weight must be between 0 and 2" in
  let timeoutError :=
    "Model " ++ key ++ ": timeout must be between 1000 and 120000 ms" in
  let thresholdError :=
    "Model " ++ key ++ ": confidence threshold must be between 0 and 1" in
  ((if orb (ltb (Config.weight model) (dec 0)) (gtb (Config.weight model) (dec 2))
    then [weightError] else [])
   ++ (if orb (ltb (Config.timeout model) (dec 1000))
              (gtb (Config.timeout model) (dec 120000))
       then [timeoutError] else [])
   ++ (if orb (ltb (Config.minimumConfidenceThreshold model) (dec 0))
              (gtb (Config.minimumConfidenceThreshold model) (dec 1))
       then [thresholdError] else []))%list.

Definition validateConfiguration (this : AIEnsembleConfigManager) : Validation :=
  let errors := [] in
  let enabledModels :=
    filter Config.enabled (map snd (Config.models (config this))) in
  let errors :=
    if Nat.eqb (List.length enabledModels) 0
    then (errors ++ ["At least one model must be enabled"])%list else errors in
  let errors :=
    match get (Config.defaultStrategy (config this))
              (Config.strategies (config this)) with
    | Some _ => errors
    | None =>
        let notFound :=
          "Default strategy '" ++ Config.defaultStrategy (config this)
          ++ "' not found" in
        (errors ++ [notFound])%list
    end in
  let errors :=
    fold_left (fun errors entry => (errors ++ modelErrors entry)%list)
              (Config.models (config this)) errors in
  {| valid := Nat.eqb (List.length errors) 0; errors := errors |}.

(** [importConfiguration(configJson)], with [parse] for [JSON.parse]:
    the result, and the manager afterwards. *)
Definition importConfiguration
  (parse : string -> outcome Config.AIEnsembleConfig)
  (this : AIEnsembleConfigManager) (configJson : string)
  : bool * AIEnsembleConfigManager :=
  match parse configJson with
  | Rejected _ => (false, this)
  | Fulfilled newConfig =>
      let validation := validateConfiguration this in
      if valid validation
      then (true, {| config := newConfig;
                     performanceHistory := performanceHistory this |})
      else (false, this)
  end.

Definition getConfiguration (this : AIEnsembleConfigManager)
  : Config.AIEnsembleConfig :=
  config this.

(** [Partial<AIEnsembleConfig>]: [None] is a field that is left out. *)
Record PartialConfig : Type := {
  newModels : option (Dict Config.AIModelConfig);
  newStrategies : option (Dict Config.EnsembleStrategy);
  newDefaultStrategy : option string;
  newGlobalSettings : option Config.GlobalSettings;
  newQualityThresholds : option Config.QualityThresholds;
  newCostManagement : option Config.CostManagement
}.

(** [{ ...config, ...updates }]. *)
Definition merge (current : Config.AIEnsembleConfig) (updates : PartialConfig)
  : Config.AIEnsembleConfig :=
  {| Config.models := Engine.orDefault (newModels updates) (Config.models current);
     Config.strategies :=
       Engine.orDefault (newStrategies updates) (Config.strategies current);
     Config.defaultStrategy :=
       Engine.orDefault (newDefaultStrategy updates)
                        (Config.defaultStrategy current);
     Config.globalSettings :=
       Engine.orDefault (newGlobalSettings updates)
                        (Config.globalSettings current);
     Config.qualityThresholds :=
       Engine.orDefault (newQualityThresholds updates)
                        (Config.qualityThresholds current);
     Config.costManagement :=
       Engine.orDefault (newCostManagement updates)
                        (Config.costManagement current) |}.

(** The configuration is replaced first and validated afterwards. *)
Definition updateConfiguration (this : AIEnsembleConfigManager)
  (updates : PartialConfig) : bool * AIEnsembleConfigManager :=
  let this :=
    {| config := merge (config this) updates;
       performanceHistory := performanceHistory this |} in
  let validation := validateConfiguration this in
  if negb (valid validation) then (false, this) else (true, this).

End Manager.

(* ===================================================================== *)
(** ** The enhanced chat route, up to the call of the service *)
(* ===================================================================== *)

Module Route.

Local Open Scope string_scope.

Definition determineMessageIntent (message : string) : string :=
  let lowerMessage := toLowerCase message in
  if includes lowerMessage "analysis"
     || includes lowerMessage "trend"
     || includes lowerMessage "chart"
     || includes lowerMessage "pattern"
     || includes lowerMessage "price"
     || includes lowerMessage "value"
     || includes lowerMessage "market"
  then "MARKET"
  else if includes lowerMessage "news"
          || includes lowerMessage "announcement"
          || includes lowerMessage "update"
  then "NEWS"
  else if includes lowerMessage "invest"
          || includes lowerMessage "portfolio"
          || includes lowerMessage "allocation"
          || includes lowerMessage "strategy"
          || includes lowerMessage "risk"
          || includes lowerMessage "recommend"
          || includes lowerMessage "profit"
  then "INVESTMENT"
  else if includes lowerMessage "learn"
          || includes lowerMessage "explain"
          || includes lowerMessage "what is"
          || includes lowerMessage "how to"
          || includes lowerMessage "guide"
  then "EDUCATION"
  else "GENERAL".

(** The [queryAnalysis] object that the handler builds from the intent. *)
Definition queryAnalysisOf (intent : string) : Config.QueryAnalysis :=
  {| Config.isTechnicalQuery :=
       includes intent "technical" || includes intent "chart";
     Config.isSentimentQuery :=
       includes intent "sentiment" || includes intent "feeling";
     Config.isEducationalQuery :=
       includes intent "explain" || includes intent "what is";
     Config.complexity :=
       if includes intent "complex" || includes intent "detailed"
       then "high" else "medium";
     Config.urgency :=
       if includes intent "urgent" || includes intent "quick"
       then "high" else "normal" |}.

(** [keys.includes(key)] on an array of strings. *)
Definition arrayIncludes (keys : list string) (key : string) : bool :=
  existsb (String.eqb key) keys.

(** The [modelOptions] object; [aiStrategy] is [preferences?.aiStrategy]. *)
Definition modelOptionsOf (optimalConfig : Config.OptimalConfiguration)
  (aiStrategy : option string) : Engine.Options :=
  {| Engine.useGemini :=
       Some (arrayIncludes (Config.enabledModels optimalConfig) "gemini");
     Engine.useFinancialBert :=
       Some (arrayIncludes (Config.enabledModels optimalConfig) "finbert");
     Engine.useCryptoBert :=
       Some (arrayIncludes (Config.enabledModels optimalConfig) "cryptobert");
     Engine.useNewsAnalysis :=
       Some (arrayIncludes (Config.enabledModels optimalConfig) "newsRoberta");
     Engine.weightingStrategy :=
       Some (Engine.orString aiStrategy (Config.strategy optimalConfig)) |}.

(** The options with which the handler calls the service for [message]. *)
Definition optionsFor (manager : Manager.AIEnsembleConfigManager)
  (message : string) (aiStrategy : option string) : Engine.Options :=
  let intent := determineMessageIntent message in
  let queryAnalysis := queryAnalysisOf intent in
  let optimalConfig := Manager.getOptimalConfiguration manager queryAnalysis in
  modelOptionsOf optimalConfig aiStrategy.

(** [ensembleResult.modelContributions.forEach(...)]: one record per
    contribution, filed under its [source]. *)
Definition recordPerformance (manager : Manager.AIEnsembleConfigManager)
  (contributions : list ModelResponse) (now : num)
  : Manager.AIEnsembleConfigManager :=
  fold_left
    (fun manager contribution =>
       Manager.updatePerformanceMetrics manager (source contribution)
         {| Manager.responseTime := processingTime contribution;
            Manager.confidence := confidence contribution;
            Manager.accuracy := None;
            Manager.timestamp := now |})
    contributions manager.

(** One request to [/enhanced]: the body of the request, and what the
    handler finds around it (the answers of the remote services, the
    market context that [gatherMarketContext] resolves to or the error it
    throws, the clock). *)
Record Request : Type := {
  message : string;
  aiStrategy : option string;
  world : World;
  gathered : outcome Market.MarketContext;
  now : num
}.

(** The manager after the handler has served [request]: nothing is
    recorded when the message is missing, when the context cannot be
    gathered or when the service throws. *)
Definition enhanced (apiKey : string) (manager : Manager.AIEnsembleConfigManager)
  (request : Request) : Manager.AIEnsembleConfigManager :=
  if String.eqb (message request) "" then manager
  else
    match gathered request with
    | Rejected _ => manager
    | Fulfilled marketContext =>
        let modelOptions :=
          optionsFor manager (message request) (aiStrategy request) in
        match Engine.generateEnsembleResponse apiKey (world request)
                (message request) (Some marketContext) modelOptions with
        | Rejected _ => manager
        | Fulfilled ensembleResult =>
            recordPerformance manager (modelContributions ensembleResult)
                              (now request)
        end
    end.

End Route.

(* ===================================================================== *)
(** ** InvestmentAnalysisService: scores, allocation and risk *)
(* ===================================================================== *)

Module Investment.

Local Open Scope string_scope.

(** [x >= y]: false as soon as one side is [NaN]. *)
Definition geb (x y : num) : bool :=
  match x, y with
  | NaN, _ | _, NaN => false
  | _, _ => negb (ltb x y)
  end.

(** [MarketAnalysis["coin"]]. *)
Record Coin : Type := {
  symbol : string;
  name : string;
  price : num;
  priceChange24h : num;
  volume24h : num;
  marketCap : num
}.

Record SentimentResult : Type := {
  sentiment : string;
  confidence : num
}.

Record Macd : Type := {
  value : num;
  signal : num;
  histogram : num
}.

Record MovingAverages : Type := {
  sma20 : num;
  sma50 : num;
  sma200 : num
}.

Record TechnicalAnalysisData : Type := {
  technicalSymbol : string;
  rsi : num;
  macd : Macd;
  movingAverages : MovingAverages;
  volume : num;
  volatility : num
}.

Record InvestmentRecommendation : Type := {
  coin : Coin;
  allocation : num;
  reasoning : string;
  riskLevel : string;
  sentimentScore : num;
  technicalScore : num;
  fundamentalScore : num
}.

(** [50 + (Math.random() - 0.5) * 40], with [random] for the number
    drawn. *)
Definition calculateRSI (random : num) : num :=
  (dec 50 + (random - dec 0.5) * dec 40)%num.

(** The entry that [generateTechnicalAnalysis] builds for one coin. *)
Definition technicalOf (random : num) (c : Coin) : TechnicalAnalysisData :=
  {| technicalSymbol := symbol c;
     rsi := calculateRSI random;
     macd := {| value := if gtb (priceChange24h c) (dec 0)
                         then dec 0.8 else dec (-0.8);
                signal := dec 0.5;
                histogram := (priceChange24h c / dec 100)%num |};
     movingAverages := {| sma20 := (price c * dec 0.98)%num;
                          sma50 := (price c * dec 0.95)%num;
                          sma200 := (price c * dec 0.9)%num |};
     volume := volume24h c;
     volatility := abs (priceChange24h c) |}.

(** [random i] is the number drawn for the coin at index [i]. *)
Definition generateTechnicalAnalysis (random : nat -> num) (coins : list Coin)
  : list TechnicalAnalysisData :=
  mapi (fun c i => technicalOf (random i) c) coins.

Definition calculateSentimentScore (s : option SentimentResult) : num :=
  match s with
  | None => dec 5
  | Some s =>
      let baseScore :=
        if String.eqb (sentiment s) "positive" then dec 7.5
        else if String.eqb (sentiment s) "negative" then dec 2.5
        else dec 5 in
      let confidenceBonus :=
        ((if truthy (confidence s) then confidence s else dec 0.5) * dec 2)%num in
      min (dec 10) (baseScore + confidenceBonus)%num
  end.

Definition calculateTechnicalScore (technical : option TechnicalAnalysisData)
  : num :=
  match technical with
  | None => dec 5
  | Some technical =>
      let score := dec 5 in
      let score :=
        if gtb (rsi technical) (dec 70) then (score - dec 1)%num
        else if ltb (rsi technical) (dec 30) then (score + dec 1)%num
        else score in
      let score :=
        if gtb (value (macd technical)) (signal (macd technical))
        then (score + dec 1)%num else (score - dec 1)%num in
      let score :=
        if gtb (volume technical) (dec 1000000000) then (score + dec 1)%num
        else score in
      max (dec 0) (min (dec 10) score)
  end.

Definition calculateFundamentalScore (c : Coin) : num :=
  let score := dec 5 in
  let score :=
    if gtb (marketCap c) (dec 100000000000) then (score + dec 2)%num
    else if gtb (marketCap c) (dec 10000000000) then (score + dec 1)%num
    else (score - dec 1)%num in
  let score :=
    if gtb (volume24h c) (marketCap c * dec 0.1)%num then (score + dec 1)%num
    else score in
  max (dec 0) (min (dec 10) score).

Definition calculateAllocation (sentimentScore technicalScore fundamentalScore : num)
  (riskTolerance : string) (totalAmount : num) : num :=
  let overallScore :=
    ((sentimentScore + technicalScore + fundamentalScore) / dec 3)%num in
  let riskMultiplier :=
    if String.eqb riskTolerance "aggressive" then dec 1.2
    else if String.eqb riskTolerance "conservative" then dec 0.8
    else dec 1 in
  let allocate (baseAllocation : num) :=
    Rounding.round (totalAmount * baseAllocation * riskMultiplier)%num in
  if geb overallScore (dec 7) then allocate (dec 0.4)
  else if geb overallScore (dec 6) then allocate (dec 0.25)
  else if geb overallScore (dec 5) then allocate (dec 0.15)
  else dec 0.

(** [technical?.volatility > 15] is false without [technical]. *)
Definition assessRiskLevel (c : Coin) (technical : option TechnicalAnalysisData)
  : string :=
  let riskScore := 0%nat in
  let riskScore :=
    if ltb (marketCap c) (dec 1000000000) then (riskScore + 2)%nat
    else riskScore in
  let riskScore :=
    if gtb (abs (priceChange24h c)) (dec 10) then (riskScore + 2)%nat
    else riskScore in
  let riskScore :=
    match technical with
    | Some technical =>
        if gtb (volatility technical) (dec 15) then (riskScore + 1)%nat
        else riskScore
    | None => riskScore
    end in
  if Nat.leb 4 riskScore then "high"
  else if Nat.leb 2 riskScore then "medium"
  else "low".

(** The recommendation after [rec.allocation = v]. *)
Definition withAllocation (rec : InvestmentRecommendation) (v : num)
  : InvestmentRecommendation :=
  {| coin := coin rec;
     allocation := v;
     reasoning := reasoning rec;
     riskLevel := riskLevel rec;
     sentimentScore := sentimentScore rec;
     technicalScore := technicalScore rec;
     fundamentalScore := fundamentalScore rec |}.

Definition normalizeAllocations (recommendations : list InvestmentRecommendation)
  (totalAmount : num) : list InvestmentRecommendation :=
  let totalAllocated :=
    fold_left (fun sum rec => sum + allocation rec)%num recommendations (Fin 0) in
  if gtb totalAllocated totalAmount then
    let scale := (totalAmount / totalAllocated)%num in
    map (fun rec =>
           withAllocation rec (Rounding.round (allocation rec * scale)%num))
        recommendations
  else recommendations.

End Investment.

(* ===================================================================== *)
(** ** Ranges used in the statements *)
(* ===================================================================== *)

Module Ranges.

Local Open Scope Qc_scope.

(** A finite number in (0, 1]. *)
Definition unitWeight (x : num) : Prop :=
  exists q, x = Fin q /\ 0 < q /\ q <= 1.

(** A response whose confidence is a finite number in [0, 1]. *)
Definition confidenceInUnit (r : ModelResponse) : Prop :=
  exists c, confidence r = Fin c /\ 0 <= c /\ c <= 1.

(** A finite number; a record of finite numbers. *)
Definition finite (x : num) : Prop := exists q, x = Fin q.

Definition finiteMetrics (m : Manager.Metrics) : Prop :=
  finite (Manager.responseTime m) /\ finite (Manager.confidence m).


(** The distance between two finite numbers is at most [bound]. *)
Definition within (bound : Qc) (x y : num) : Prop :=
  exists a b, x = Fin a /\ y = Fin b /\ a - b <= bound /\ b - a <= bound.



(** The history that a manager keeps for [modelName], empty when it
    keeps none. *)
Definition historyOf (this : Manager.AIEnsembleConfigManager)
  (modelName : string) : list Manager.Metrics :=
  match get modelName (Manager.performanceHistory this) with
  | Some history => history
  | None => []
  end.

(** A log of calls of [updatePerformanceMetrics], oldest first, applied
    to a manager; and the metrics that a log holds for [modelName]. *)
Definition replay (this : Manager.AIEnsembleConfigManager)
  (log : list (string * Manager.Metrics)) : Manager.AIEnsembleConfigManager :=
  fold_left (fun manager call =>
               Manager.updatePerformanceMetrics manager (fst call) (snd call))
            log this.

Definition entriesOf (modelName : string)
  (log : list (string * Manager.Metrics)) : list Manager.Metrics :=
  map snd (filter (fun call => String.eqb (fst call) modelName) log).

(** What [queryAnalysisOf] gives when no test on the intent holds. *)
Definition plainQuery : Config.QueryAnalysis :=
  {| Config.isTechnicalQuery := false;
     Config.isSentimentQuery := false;
     Config.isEducationalQuery := false;
     Config.complexity := "medium";
     Config.urgency := "normal" |}.

(** The last [k] elements of a list. *)
Definition latest {A : Type} (k : nat) (xs : list A) : list A :=
  skipn (List.length xs - k) xs.

End Ranges.

(* ===================================================================== *)
(** ** Sample values *)
(* ===================================================================== *)

Module Sample.

Local Open Scope string_scope.

Definition response (src : string) (conf time : Q) : ModelResponse :=
  {| source := src; confidence := dec conf;
     data := [("type", JStr "sample")]; processingTime := dec time |}.

(** What [getTechnicalAnalysis] returns without market data, built
    within the millisecond it was asked in: its processing time is 0. *)
Definition insufficientData : ModelResponse :=
  {| source := "Technical-Analysis";
     confidence := dec 0.3;
     data := [("analysis", JStr "Insufficient technical data for analysis");
              ("type", JStr "technical_analysis")];
     processingTime := (dec 1000 - dec 1000)%num |}.

Definition bitcoin (change : Q) : Market.TechnicalData :=
  {| Market.name := Some "Bitcoin";
     Market.priceChange24h := Some (dec change);
     Market.volume24h := Some (dec 250000000) |}.

(** A context without any asset, and the absent context. *)
Definition noAssets : Context :=
  Some {| Market.topCoin := None; Market.coins := [] |}.

Definition noContext : Context := None.

(** Every analyzer but the crypto-sentiment one. *)
Definition withoutCryptoBert : Engine.Options :=
  {| Engine.useGemini := None;
     Engine.useFinancialBert := None;
     Engine.useCryptoBert := Some false;
     Engine.useNewsAnalysis := None;
     Engine.weightingStrategy := None |}.

(** The shipped table with FinBERT switched off. *)
Definition finbertOff : Config.AIEnsembleConfig :=
  Config.withModels Config.AI_ENSEMBLE_CONFIG
    [("gemini", Config.gemini);
     ("finbert", Config.disabled Config.finbert);
     ("cryptobert", Config.cryptobert);
     ("newsRoberta", Config.newsRoberta);
     ("technicalAnalyzer", Config.technicalAnalyzer)].

(** The analysis the chat route builds for a sentiment question. *)
Definition sentimentQuery : Config.QueryAnalysis :=
  {| Config.isTechnicalQuery := false;
     Config.isSentimentQuery := true;
     Config.isEducationalQuery := false;
     Config.complexity := "medium";
     Config.urgency := "normal" |}.

(** A world whose printers print nothing of the value; the analyzers
    start and end within the same millisecond. *)
Definition world (calls : string -> outcome string)
  (gemini finbert cryptobert news technical : outcome ModelResponse) : World :=
  {| stringify := fun _ => "{}";
     toFixed := fun _ _ => "0.0";
     toString := fun _ => "[object Object]";
     callGeminiAPI := calls;
     getGeminiAnalysis := fun _ _ => gemini;
     getFinancialSentimentAnalysis := fun _ _ => finbert;
     getNewsAnalysis := fun _ _ => news;
     cryptoBertAttempt := fun _ => cryptobert;
     technicalAnalyzerAttempt := fun _ _ => technical;
     analyzerStart := dec 1000;
     analyzerNow := dec 1000;
     elapsed := dec 12 |}.

(** Every remote call fails. *)
Definition offline : World :=
  world (fun _ => Rejected "fetch failed")
        (Rejected "Gemini analysis failed: fetch failed")
        (Rejected "FinBERT analysis failed: fetch failed")
        (Rejected "fetch failed")
        (Rejected "News analysis failed: fetch failed")
        (Rejected "fetch failed").

(** The general-purpose model is down (analysis and synthesis), the
    news model too; the others answer. *)
Definition geminiDown : World :=
  world (fun _ => Rejected "fetch failed")
        (Rejected "Gemini analysis failed: fetch failed")
        (Fulfilled (response "FinBERT" 0.75 420))
        (Fulfilled (response "CryptoBERT" 0.9 380))
        (Rejected "News analysis failed: fetch failed")
        (Rejected "fetch failed").

(** The crypto-sentiment model times out; every other model answers. *)
Definition cryptoTimeout : World :=
  world (fun _ => Fulfilled "Sentiment on Bitcoin is mixed.")
        (Fulfilled (response "Gemini-2.0-Flash" 0.85 900))
        (Fulfilled (response "FinBERT" 0.75 420))
        (Rejected "Request to ElKulako/cryptobert timed out after 30 seconds")
        (Fulfilled (response "News-RoBERTa" 0.8 350))
        (Fulfilled (response "Technical-Analyzer" 0.75 610)).

End Sample.

(** Values for the properties of the manager and of the route. *)
Module Example.

Local Open Scope string_scope.

(** Two answers of different confidence and speed. *)
Definition pair : list ModelResponse :=
  [Sample.response "FinBERT" 0.6 120; Sample.response "CryptoBERT" 0.9 80].

(** Two answers of the same confidence. *)
Definition agreeing : list ModelResponse :=
  [Sample.response "FinBERT" 0.75 420;
   Sample.response "Technical-Analyzer" 0.75 610].

(** An urgent question about a chart. *)
Definition urgentQuery : Config.QueryAnalysis :=
  {| Config.isTechnicalQuery := true;
     Config.isSentimentQuery := false;
     Config.isEducationalQuery := false;
     Config.complexity := "medium";
     Config.urgency := "high" |}.

(** Two records of the general-purpose model, the first of them with a
    confidence far below the threshold of the model. *)
Definition records : list Manager.Metrics :=
  [{| Manager.responseTime := dec 900; Manager.confidence := dec 0.1;
      Manager.accuracy := None; Manager.timestamp := dec 1700000000000 |};
   {| Manager.responseTime := dec 1001; Manager.confidence := dec 0.9;
      Manager.accuracy := None; Manager.timestamp := dec 1700000060000 |}].

Definition tracked : Manager.AIEnsembleConfigManager :=
  {| Manager.config := Config.AI_ENSEMBLE_CONFIG;
     Manager.performanceHistory := [("gemini", records)] |}.

(** The shipped configuration with an empty table of models, and a
    parser that reads every text as this configuration. *)
Definition noModels : Config.AIEnsembleConfig :=
  Config.withModels Config.AI_ENSEMBLE_CONFIG [].

Definition parseNoModels (text : string) : outcome Config.AIEnsembleConfig :=
  Fulfilled noModels.

Definition dropModels : Manager.PartialConfig :=
  {| Manager.newModels := Some [];
     Manager.newStrategies := None;
     Manager.newDefaultStrategy := None;
     Manager.newGlobalSettings := None;
     Manager.newQualityThresholds := None;
     Manager.newCostManagement := None |}.

Definition bitcoinContext : Market.MarketContext :=
  {| Market.topCoin := Some (Sample.bitcoin 6.2); Market.coins := [] |}.

(** A request served while the crypto-sentiment model times out. *)
Definition request : Route.Request :=
  {| Route.message := "Is bitcoin going to the moon?";
     Route.aiStrategy := None;
     Route.world := Sample.cryptoTimeout;
     Route.gathered := Fulfilled bitcoinContext;
     Route.now := dec 1700000000000 |}.

(** A coin of large capitalisation on a quiet day, and a recommendation
    of [dollars] for it. *)
Definition bitcoinCoin : Investment.Coin :=
  {| Investment.symbol := "BTC";
     Investment.name := "Bitcoin";
     Investment.price := dec 64000;
     Investment.priceChange24h := dec 1.5;
     Investment.volume24h := dec 25000000000;
     Investment.marketCap := dec 1200000000000 |}.

Definition recommend (dollars : Q) : Investment.InvestmentRecommendation :=
  {| Investment.coin := bitcoinCoin;
     Investment.allocation := dec dollars;
     Investment.reasoning := "Large market cap (stability), Low volatility";
     Investment.riskLevel := "low";
     Investment.sentimentScore := dec 8.5;
     Investment.technicalScore := dec 7;
     Investment.fundamentalScore := dec 7 |}.

(** A positive sentiment of which the model is not confident at all. *)
Definition unsure : Investment.SentimentResult :=
  {| Investment.sentiment := "positive"; Investment.confidence := dec 0 |}.

End Example.

(* ===================================================================== *)
(** * Properties *)
(* ===================================================================== *)

(* --------------------------------------------------------------------- *)
(** ** Arithmetic of [num] *)

(** Goals on [Qc] are sent to [Q], where [lra] and [nra] work. *)
Ltac to_Q :=
  unfold Qcle, Qclt, Qcplus, Qcmult, Qcminus, Qcopp, Qcdiv in *;
  cbn [this Q2Qc] in *; rewrite ?Qred_correct in *.

(** An equation between closed numbers: by evaluation. *)
Ltac num_by_evaluation :=
  vm_compute;
  first [ reflexivity
        | f_equal; first [reflexivity | apply Qc_is_canon; reflexivity] ].

Section NumFacts.

Local Open Scope Qc_scope.

Lemma Qceqb_true (a b : Qc) : Qceqb a b = true <-> a = b.
Proof.
  unfold Qceqb, Qc_eq_bool. destruct (Qc_eq_dec a b); split; congruence.
Qed.

Lemma Qceqb_false (a b : Qc) : Qceqb a b = false <-> a <> b.
Proof.
  unfold Qceqb, Qc_eq_bool. destruct (Qc_eq_dec a b); split; congruence.
Qed.

Lemma Qcltb_true (a b : Qc) : Qcltb a b = true <-> a < b.
Proof.
  unfold Qcltb. rewrite Qclt_alt.
  destruct (a ?= b); split; intros; congruence.
Qed.

Lemma Qcltb_false (a b : Qc) : Qcltb a b = false <-> b <= a.
Proof.
  split; intros H.
  - apply Qcnot_lt_le. intros Hlt. apply Qcltb_true in Hlt. congruence.
  - destruct (Qcltb a b) eqn:E; [|reflexivity].
    apply Qcltb_true in E. exfalso. exact (Qcle_not_lt _ _ H E).
Qed.

Lemma fold_add_fin (qs : list Qc) (a : Qc) :
  fold_left add (map Fin qs) (Fin a) = Fin (a + Qcsum qs).
Proof.
  revert a. induction qs as [|q qs IH]; intros a; simpl.
  - f_equal. ring.
  - rewrite IH. f_equal. ring.
Qed.

Lemma sum_fin (qs : list Qc) : sum (map Fin qs) = Fin (Qcsum qs).
Proof. unfold sum. rewrite fold_add_fin. f_equal. ring. Qed.

Lemma add_fin_inv (x y : num) (t : Qc) :
  add x y = Fin t -> exists a b, x = Fin a /\ y = Fin b /\ t = a + b.
Proof.
  destruct x, y; simpl; intros H; try discriminate.
  injection H as <-. eauto.
Qed.

(** A [reduce] with [+] that ends on a finite number went through finite
    numbers only. *)
Lemma fold_add_fin_inv (xs : list num) (acc : num) (t : Qc) :
  fold_left add xs acc = Fin t ->
  exists a qs, acc = Fin a /\ xs = map Fin qs /\ t = a + Qcsum qs.
Proof.
  revert acc t. induction xs as [|x xs IH]; intros acc t H; simpl in H.
  - exists t, []. subst acc. repeat split. simpl. ring.
  - destruct (IH _ _ H) as (a' & qs & Hadd & -> & ->).
    apply add_fin_inv in Hadd as (a & b & -> & -> & ->).
    exists a, (b :: qs). repeat split. simpl. ring.
Qed.

Lemma sum_fin_inv (xs : list num) (t : Qc) :
  sum xs = Fin t -> exists qs, xs = map Fin qs /\ t = Qcsum qs.
Proof.
  unfold sum. intros H.
  apply fold_add_fin_inv in H as (a & qs & Ha & -> & ->).
  injection Ha as <-. exists qs. split; [reflexivity | ring].
Qed.

Lemma fold_left_map_add {A : Type} (f : A -> num) (xs : list A) (acc : num) :
  fold_left (fun s x => add s (f x)) xs acc = fold_left add (map f xs) acc.
Proof.
  revert acc. induction xs as [|x xs IH]; intros acc; simpl; [reflexivity|].
  apply IH.
Qed.

Lemma Qcsum_scale (qs : list Qc) (t : Qc) :
  Qcsum (map (fun q => q / t) qs) = Qcsum qs / t.
Proof.
  induction qs as [|q qs IH]; simpl.
  - unfold Qcdiv. ring.
  - rewrite IH. unfold Qcdiv. ring.
Qed.

Lemma div_fin (a t : Qc) : t <> 0 -> div (Fin a) (Fin t) = Fin (a / t).
Proof.
  intros Ht. simpl. apply Qceqb_false in Ht. rewrite Ht. reflexivity.
Qed.

(** Scores divided by their finite non-zero total add up to one. *)
Lemma normalised_sum (scores : list num) :
  finite_nonzero (sum scores) ->
  sum (map (fun score => div score (sum scores)) scores) = dec 1.
Proof.
  intros (t & Ht & Hnz). rewrite Ht.
  destruct (sum_fin_inv _ Ht) as (qs & -> & ->).
  rewrite map_map.
  rewrite (map_ext _ (fun q => Fin (q / Qcsum qs))) by (intros; now apply div_fin).
  rewrite <- (map_map (fun q => q / Qcsum qs) Fin), sum_fin, Qcsum_scale.
  unfold dec. f_equal. apply Qc_is_canon.
  transitivity (1%Qc : Q); [|reflexivity].
  assert (E : Qcsum qs / Qcsum qs = 1) by (field; exact Hnz).
  rewrite E. reflexivity.
Qed.

Lemma of_nat_S (n : nat) :
  Q2Qc (inject_Z (Z.of_nat (S n))) = Q2Qc (inject_Z (Z.of_nat n)) + 1.
Proof.
  apply Qc_is_canon. to_Q. rewrite Nat2Z.inj_succ. unfold Z.succ.
  rewrite inject_Z_plus. reflexivity.
Qed.

Lemma of_nat_pos (n : nat) : 0 < Q2Qc (inject_Z (Z.of_nat (S n))).
Proof.
  to_Q. unfold Qlt. simpl. lia.
Qed.

Lemma of_nat_nonzero (n : nat) : Q2Qc (inject_Z (Z.of_nat (S n))) <> 0.
Proof.
  intros E. pose proof (of_nat_pos n) as H. rewrite E in H.
  exact (Qclt_not_le _ _ H (Qcle_refl 0)).
Qed.

Lemma Qcsum_repeat (q : Qc) (n : nat) :
  Qcsum (repeat q n) = Q2Qc (inject_Z (Z.of_nat n)) * q.
Proof.
  induction n as [|n IH].
  - simpl. apply Qc_is_canon. to_Q. simpl. ring.
  - cbn [repeat Qcsum]. rewrite IH, of_nat_S. ring.
Qed.

End NumFacts.

(* --------------------------------------------------------------------- *)
(** ** Strings *)

Section Strings.

Local Open Scope string_scope.

Lemma append_nil_r (s : string) : s ++ "" = s.
Proof. induction s; simpl; congruence. Qed.

Lemma append_assoc (a b c : string) : (a ++ b) ++ c = a ++ b ++ c.
Proof. induction a; simpl; congruence. Qed.

Lemma contains_self (word : string) : contains word word.
Proof. exists "", "". simpl. now rewrite append_nil_r. Qed.

Lemma contains_app_l (word a b : string) :
  contains word a -> contains word (a ++ b).
Proof.
  intros (before & after & ->). exists before, (after ++ b).
  now rewrite !append_assoc.
Qed.

Lemma contains_app_r (word a b : string) :
  contains word b -> contains word (a ++ b).
Proof.
  intros (before & after & ->). exists (a ++ before), after.
  now rewrite !append_assoc.
Qed.

Lemma contains_join (sep x : string) (xs : list string) :
  In x xs -> contains x (join sep xs).
Proof.
  unfold join. induction xs as [|y ys IH]; intros Hin; [destruct Hin|].
  destruct Hin as [->|Hin].
  - destruct ys; simpl; [apply contains_self|].
    apply contains_app_l, contains_self.
  - destruct ys as [|z zs]; [destruct Hin|].
    change (String.concat sep (y :: z :: zs))
      with (y ++ sep ++ String.concat sep (z :: zs)).
    apply contains_app_r, contains_app_r, IH, Hin.
Qed.

Lemma prefix_spec (word s : string) :
  String.prefix word s = true <-> exists rest, s = word ++ rest.
Proof.
  revert s. induction word as [|c word IH]; intros s.
  - split; [intros _; now exists s | intros _; destruct s; reflexivity].
  - destruct s as [|d s]; simpl.
    + split; [discriminate | intros [rest H]; discriminate H].
    + destruct (ascii_dec c d) as [->|Hcd].
      * rewrite IH. split; intros [rest H]; exists rest; congruence.
      * split; [discriminate | intros [rest H]; congruence].
Qed.

Lemma includes_nil (word : string) :
  includes "" word = String.prefix word "".
Proof. cbn [includes]. now destruct (String.prefix word ""). Qed.

Lemma includes_cons (c : ascii) (s word : string) :
  includes (String c s) word
  = orb (String.prefix word (String c s)) (includes s word).
Proof.
  cbn [includes]. now destruct (String.prefix word (String c s)).
Qed.

(** [includes] finds exactly the words that occur. *)
Lemma includes_spec (s word : string) :
  includes s word = true <-> contains word s.
Proof.
  induction s as [|c s IH].
  - rewrite includes_nil, prefix_spec. split.
    + intros [rest ->]. exists "", rest. reflexivity.
    + intros (before & after & H). destruct before; [|discriminate H].
      now exists after.
  - rewrite includes_cons, orb_true_iff, prefix_spec, IH. split.
    + intros [[rest ->]|(before & after & ->)].
      * exists "", rest. reflexivity.
      * exists (String c before), after. reflexivity.
    + intros (before & after & H). destruct before as [|d before].
      * left. now exists after.
      * right. simpl in H. injection H as _ ->. now exists before, after.
Qed.

Lemma fold_left_append {A : Type} (f : A -> string) (xs : list A)
  (init : string) :
  fold_left (fun acc x => acc ++ f x) xs init
  = init ++ String.concat "" (map f xs).
Proof.
  revert init. induction xs as [|x xs IH]; intros init; simpl.
  - now rewrite append_nil_r.
  - rewrite IH, append_assoc.
    destruct xs; simpl; [now rewrite append_nil_r | reflexivity].
Qed.

End Strings.

(* --------------------------------------------------------------------- *)
(** ** Weighting strategies *)

Section Weights.

Local Open Scope Qc_scope.

Lemma length_nonzero {A : Type} (xs : list A) :
  xs <> [] -> exists n, List.length xs = S n.
Proof. intros H. destruct xs; [congruence | simpl; eauto]. Qed.

(** Dividing each score by the total of the scores. *)
Lemma normalised (scores : list num) :
  finite_nonzero (sum scores) ->
  List.length (map (fun score => div score (sum scores)) scores)
  = List.length scores
  /\ sum (map (fun score => div score (sum scores)) scores) = dec 1.
Proof.
  intros H. split; [apply length_map | now apply normalised_sum].
Qed.

Lemma confidence_weights (responses : list ModelResponse) :
  let totalConfidence :=
    fold_left (fun s r => add s (confidence r)) responses (Fin 0) in
  finite_nonzero totalConfidence ->
  List.length (map (fun r => div (confidence r) totalConfidence) responses)
  = List.length responses
  /\ sum (map (fun r => div (confidence r) totalConfidence) responses) = dec 1.
Proof.
  intros total H. subst total. rewrite fold_left_map_add in *.
  fold (sum (map confidence responses)) in *.
  destruct (normalised _ H) as [Hlen Hsum].
  rewrite map_map in Hlen, Hsum. rewrite length_map in Hlen.
  split; [now rewrite length_map | exact Hsum].
Qed.

Lemma equal_weights (responses : list ModelResponse) :
  responses <> [] ->
  let equalWeight := div (dec 1) (of_nat (List.length responses)) in
  List.length (repeat equalWeight (List.length responses))
  = List.length responses
  /\ sum (repeat equalWeight (List.length responses)) = dec 1.
Proof.
  intros Hne w. split; [apply repeat_length|].
  destruct (length_nonzero Hne) as [n Hn]. subst w. rewrite Hn.
  unfold dec, of_nat. rewrite div_fin by apply of_nat_nonzero.
  rewrite <- map_repeat, sum_fin, Qcsum_repeat.
  f_equal. field. apply of_nat_nonzero.
Qed.

End Weights.

Section EngineWeights.

Local Open Scope string_scope.

(** The three cases of the [switch], read off the definition. *)
Lemma calculateModelWeights_cases (responses : list ModelResponse)
  (strategy : string) :
  Engine.calculateModelWeights responses strategy =
  if strategy =? "confidence" then
    map (fun r =>
           div (confidence r)
               (fold_left (fun s r0 => add s (confidence r0)) responses (Fin 0)))
        responses
  else if strategy =? "performance" then
    Engine.calculateModelWeights responses "confidence"
  else
    repeat (div (dec 1) (of_nat (List.length responses)))
           (List.length responses).
Proof.
  funelim (Engine.calculateModelWeights responses strategy);
    repeat match goal with
           | E : (_ =? _) = _ |- _ => rewrite E
           end; reflexivity.
Qed.

Lemma engine_weights (strategy : string) (responses : list ModelResponse) :
  responses <> [] ->
  finite_nonzero (Engine.divisor responses strategy) ->
  List.length (Engine.calculateModelWeights responses strategy)
  = List.length responses
  /\ sum (Engine.calculateModelWeights responses strategy) = dec 1.
Proof.
  intros Hne Hdiv. unfold Engine.divisor in Hdiv.
  rewrite calculateModelWeights_cases.
  destruct (strategy =? "confidence") eqn:Ec; simpl in Hdiv.
  - now apply confidence_weights.
  - destruct (strategy =? "performance") eqn:Ep; simpl in Hdiv.
    + rewrite calculateModelWeights_cases. simpl.
      now apply confidence_weights.
    + now apply equal_weights.
Qed.

Lemma config_weights (key : string) (s : Config.EnsembleStrategy)
  (responses : list ModelResponse) :
  get key (Config.strategies Config.AI_ENSEMBLE_CONFIG) = Some s ->
  responses <> [] ->
  finite_nonzero (Config.divisor key responses) ->
  List.length (Config.weightingFunction s responses) = List.length responses
  /\ sum (Config.weightingFunction s responses) = dec 1.
Proof.
  intros Hget Hne Hdiv.
  unfold Config.AI_ENSEMBLE_CONFIG in Hget. cbn [Config.strategies get] in Hget.
  repeat match type of Hget with
         | (if ?k =? key then _ else _) = _ =>
             let E := fresh "E" in
             destruct (k =? key) eqn:E;
             [apply String.eqb_eq in E; subst key; injection Hget as <-;
              cbn [Config.weightingFunction] in * | ]
         end; try discriminate.
  - change (Config.divisor "confidence" responses)
      with (fold_left (fun s r => add s (confidence r)) responses (Fin 0))
      in Hdiv.
    now apply confidence_weights.
  - now apply equal_weights.
  - change (Config.divisor "performance" responses)
      with (sum (map Config.performanceScore responses)) in Hdiv.
    unfold Config.performanceWeighting. rewrite fold_left_map_add, map_id.
    destruct (normalised _ Hdiv) as [_ Hsum].
    split; [now rewrite !length_map | exact Hsum].
  - change (Config.divisor "adaptive" responses)
      with (fold_left (fun s r => add s (confidence r)) responses (Fin 0))
      in Hdiv.
    now apply confidence_weights.
  - change (Config.divisor "fastResponse" responses)
      with (sum (map (fun r => div (dec 1) (div (processingTime r) (dec 1000)))
                     responses)) in Hdiv.
    unfold Config.fastResponseWeighting. rewrite fold_left_map_add, map_id.
    destruct (normalised _ Hdiv) as [_ Hsum].
    split; [now rewrite !length_map | exact Hsum].
  - change (Config.divisor "highAccuracy" responses)
      with (sum (Config.highAccuracyScores responses)) in Hdiv.
    unfold Config.highAccuracyWeighting. rewrite fold_left_map_add, map_id.
    destruct (normalised _ Hdiv) as [_ Hsum].
    split; [unfold Config.highAccuracyScores; now rewrite !length_map
           | exact Hsum].
Qed.

End EngineWeights.

(* --------------------------------------------------------------------- *)
(** ** Responses in range have a finite non-zero divisor *)

Section InRange.

Local Open Scope Qc_scope.

Lemma Qcdiv_positive (a b : Qc) : 0 < a -> 0 < b -> 0 < a / b.
Proof.
  unfold Qcdiv, Qcmult, Qcinv, Qclt. cbn [this Q2Qc].
  rewrite !Qred_correct. intros Ha Hb.
  apply Qmult_lt_0_compat; [exact Ha | now apply Qinv_lt_0_compat].
Qed.

Lemma positive_nonzero (a : Qc) : 0 < a -> a <> 0.
Proof.
  intros Ha E. rewrite E in Ha. exact (Qclt_not_le _ _ Ha (Qcle_refl 0)).
Qed.

Lemma Qcsum_nonneg (qs : list Qc) :
  Forall (fun q => 0 < q) qs -> 0 <= Qcsum qs.
Proof.
  induction 1 as [|q qs Hq _ IH]; simpl; [apply Qcle_refl|].
  to_Q. lra.
Qed.

Lemma Qcsum_positive (qs : list Qc) :
  qs <> [] -> Forall (fun q => 0 < q) qs -> 0 < Qcsum qs.
Proof.
  intros Hne Hall. destruct Hall as [|q qs Hq Hall]; [congruence|].
  pose proof (Qcsum_nonneg Hall) as Hrest. simpl. to_Q. lra.
Qed.

Lemma Qcsum_at_most_length (qs : list Qc) :
  Forall (fun q => q <= 1) qs ->
  Qcsum qs <= Q2Qc (inject_Z (Z.of_nat (List.length qs))).
Proof.
  induction 1 as [|q qs Hq _ IH].
  - apply Qcle_refl.
  - cbn [Qcsum List.length]. rewrite of_nat_S. to_Q. lra.
Qed.

Lemma positives_are_fin (xs : list num) :
  Forall positive xs ->
  exists qs, xs = map Fin qs /\ Forall (fun q => 0 < q) qs.
Proof.
  induction 1 as [|x xs (q & -> & Hq) _ (qs & -> & Hqs)].
  - now exists [].
  - exists (q :: qs). split; [reflexivity | now constructor].
Qed.

(** A non-empty total of positive numbers is finite and not zero. *)
Lemma sum_of_positives (xs : list num) :
  xs <> [] -> Forall positive xs -> finite_nonzero (sum xs).
Proof.
  intros Hne Hall. destruct (positives_are_fin Hall) as (qs & -> & Hqs).
  rewrite sum_fin. exists (Qcsum qs). split; [reflexivity|].
  assert (Hpos : 0 < Qcsum qs).
  { apply Qcsum_positive; [|exact Hqs]. destruct qs; [|discriminate].
    now contradiction Hne. }
  now apply positive_nonzero.
Qed.

Lemma sum_of_positive_scores (f : ModelResponse -> num)
  (responses : list ModelResponse) :
  responses <> [] ->
  Forall (fun r => positive (f r)) responses ->
  finite_nonzero (sum (map f responses)).
Proof.
  intros Hne Hall. apply sum_of_positives.
  - destruct responses; [congruence | discriminate].
  - now apply Forall_map.
Qed.

Lemma length_divisor (responses : list ModelResponse) :
  responses <> [] -> finite_nonzero (of_nat (List.length responses)).
Proof.
  intros Hne. destruct (length_nonzero Hne) as [n ->].
  eexists. split; [reflexivity | apply of_nat_nonzero].
Qed.

Lemma performanceScore_positive (r : ModelResponse) :
  positive (Config.performanceScore r).
Proof.
  unfold Config.performanceScore.
  repeat match goal with
         | |- positive (if ?b then _ else _) => destruct b
         end; (eexists; split; [reflexivity | reflexivity]).
Qed.

Lemma speedScore_positive (r : ModelResponse) :
  inRange r ->
  positive (div (dec 1) (div (processingTime r) (dec 1000))).
Proof.
  intros (c & t & _ & _ & _ & -> & Ht).
  assert (H1000 : 0 < Q2Qc 1000) by reflexivity.
  pose proof (Qcdiv_positive Ht H1000) as Hpos.
  unfold dec.
  rewrite (div_fin t (positive_nonzero H1000)).
  rewrite (div_fin (Q2Qc 1) (positive_nonzero Hpos)).
  eexists. split; [reflexivity|].
  apply Qcdiv_positive; [reflexivity | exact Hpos].
Qed.

Lemma confidence_positive (r : ModelResponse) :
  inRange r -> positive (confidence r).
Proof. intros (c & t & -> & Hc & _). now exists c. Qed.

Lemma confidences_in_range (responses : list ModelResponse) :
  Forall inRange responses ->
  exists cs,
    map confidence responses = map Fin cs
    /\ Forall (fun c => 0 < c) cs /\ Forall (fun c => c <= 1) cs.
Proof.
  induction 1 as [|r rs (c & t & Hc & Hpos & Hle & _) _ (cs & Hcs & Hp & Hl)].
  - exists []. repeat split; constructor.
  - exists (c :: cs). cbn [map]. rewrite Hc, Hcs.
    repeat split; now constructor.
Qed.

Lemma Qcdiv_at_most_one (a b : Qc) : a <= b -> 0 < b -> a / b <= 1.
Proof.
  unfold Qcdiv, Qcmult, Qcinv, Qcle, Qclt. cbn [this Q2Qc].
  rewrite !Qred_correct. intros Hab Hb.
  apply Qle_shift_div_r; [exact Hb|]. lra.
Qed.

(** The average confidence of responses in range lies in (0, 1]. *)
Lemma average_in_range (responses : list ModelResponse) :
  responses <> [] -> Forall inRange responses ->
  exists m,
    div (fold_left (fun s r => add s (confidence r)) responses (Fin 0))
        (of_nat (List.length responses)) = Fin m
    /\ 0 < m /\ m <= 1.
Proof.
  intros Hne Hall.
  destruct (confidences_in_range Hall) as (cs & Hcs & Hpos & Hle).
  assert (Hlen : List.length cs = List.length responses).
  { rewrite <- (length_map Fin cs), <- Hcs. apply length_map. }
  destruct (length_nonzero Hne) as [n Hn].
  rewrite fold_left_map_add, Hcs, fold_add_fin, Hn. unfold of_nat.
  rewrite div_fin by apply of_nat_nonzero.
  replace (0 + Qcsum cs) with (Qcsum cs) by ring.
  eexists. split; [reflexivity|]. split.
  - apply Qcdiv_positive; [|apply of_nat_pos].
    apply Qcsum_positive; [|exact Hpos].
    destruct cs; [rewrite Hn in Hlen; discriminate Hlen | discriminate].
  - apply Qcdiv_at_most_one; [|apply of_nat_pos].
    rewrite <- Hn, <- Hlen. now apply Qcsum_at_most_length.
Qed.

Lemma accuracy_term_positive (c m : Qc) :
  0 < c -> c <= 1 -> 0 < m -> m <= 1 ->
  positive (add (mul (Fin c) (dec 0.7))
                (mul (sub (dec 1) (abs (sub (Fin c) (Fin m)))) (dec 0.3))).
Proof.
  intros Hc Hc1 Hm Hm1. unfold dec, sub. cbn [neg add abs].
  destruct (Qcltb (c + - m) 0) eqn:E; cbn [add neg mul];
    (eexists; split; [reflexivity|]).
  - apply Qcltb_true in E. to_Q. lra.
  - apply Qcltb_false in E. to_Q. lra.
Qed.

Lemma highAccuracyScores_positive (responses : list ModelResponse) :
  responses <> [] -> Forall inRange responses ->
  Forall positive (Config.highAccuracyScores responses).
Proof.
  intros Hne Hall. unfold Config.highAccuracyScores.
  destruct (average_in_range Hne Hall) as (m & -> & Hm & Hm1).
  apply Forall_map. eapply Forall_impl; [|exact Hall].
  intros r (c & t & -> & Hc & Hc1 & _). now apply accuracy_term_positive.
Qed.

(** For a non-empty list of responses in range, every strategy divides
    by a finite number that is not zero. *)
Lemma in_range_divisors (responses : list ModelResponse) :
  responses <> [] -> Forall inRange responses ->
  (forall strategy, finite_nonzero (Engine.divisor responses strategy))
  /\ (forall key, finite_nonzero (Config.divisor key responses)).
Proof.
  intros Hne Hall.
  assert (Hconf : finite_nonzero
                    (fold_left (fun s r => add s (confidence r))
                               responses (Fin 0))).
  { rewrite fold_left_map_add. apply (sum_of_positive_scores _ Hne).
    eapply Forall_impl; [|exact Hall]. apply confidence_positive. }
  split.
  - intros strategy. unfold Engine.divisor.
    destruct (orb _ _); [exact Hconf | now apply length_divisor].
  - intros key. unfold Config.divisor.
    destruct (orb _ _); [exact Hconf|].
    destruct (String.eqb key "performance").
    { apply (sum_of_positive_scores _ Hne).
      apply Forall_forall. intros r _. apply performanceScore_positive. }
    destruct (String.eqb key "fastResponse").
    { apply (sum_of_positive_scores _ Hne).
      eapply Forall_impl; [|exact Hall]. apply speedScore_positive. }
    destruct (String.eqb key "highAccuracy").
    { apply sum_of_positives.
      - unfold Config.highAccuracyScores.
        destruct responses; [congruence | discriminate].
      - now apply highAccuracyScores_positive. }
    now apply length_divisor.
Qed.

End InRange.

Lemma one_within_tolerance (ws : list num) : sum ws = dec 1 -> sumsToOne ws.
Proof.
  intros E. unfold sumsToOne. rewrite E. split; vm_compute; discriminate.
Qed.

(** C3 (amended).  For each of the strategies, on a non-empty list of
    responses for which the number the strategy divides by (the total
    confidence, the total performance score, the total speed score, the
    total accuracy score, or the number of responses) is finite and not
    zero, the weight vector has the length of the input and its entries
    add up to exactly 1, hence to 1 within 1e-6.  The first part is the
    engine's [calculateModelWeights] under any strategy name, the second
    the six weighting functions of the strategy table. *)
Theorem weights_sum_to_one :
  (forall (strategy : string) (responses : list ModelResponse),
      responses <> [] ->
      finite_nonzero (Engine.divisor responses strategy) ->
      let weights := Engine.calculateModelWeights responses strategy in
      List.length weights = List.length responses
      /\ sum weights = dec 1 /\ sumsToOne weights)
  /\
  (forall (key : string) (s : Config.EnsembleStrategy)
          (responses : list ModelResponse),
      get key (Config.strategies Config.AI_ENSEMBLE_CONFIG) = Some s ->
      responses <> [] ->
      finite_nonzero (Config.divisor key responses) ->
      let weights := Config.weightingFunction s responses in
      List.length weights = List.length responses
      /\ sum weights = dec 1 /\ sumsToOne weights).
Proof.
  split.
  - intros strategy responses Hne Hdiv weights.
    destruct (engine_weights strategy Hne Hdiv) as [Hlen Hsum].
    repeat split; auto using one_within_tolerance;
      now apply one_within_tolerance.
  - intros key s responses Hget Hne Hdiv weights.
    destruct (config_weights key Hget Hne Hdiv) as [Hlen Hsum].
    repeat split; auto using one_within_tolerance;
      now apply one_within_tolerance.
Qed.

(** A closed number is finite and not zero: by evaluation. *)
Ltac finite_nonzero_by_evaluation :=
  eexists; split;
  [ vm_compute; reflexivity
  | let E := fresh "E" in
    intros E; apply (f_equal this) in E; vm_compute in E; discriminate E ].

Lemma weights_sum_to_one_witness :
  let responses :=
    [Sample.response "FinBERT" 0.9 120; Sample.response "CryptoBERT" 0.6 80] in
  sum (Engine.calculateModelWeights responses "confidence") = dec 1
  /\ sum (Config.highAccuracyWeighting responses) = dec 1
  /\ sum (Config.fastResponseWeighting responses) = dec 1.
Proof.
  intros responses. repeat split.
  - apply (proj1 weights_sum_to_one "confidence"%string responses).
    + discriminate.
    + finite_nonzero_by_evaluation.
  - refine (proj1 (proj2 (proj2 weights_sum_to_one "highAccuracy"%string _
                                responses eq_refl _ _))).
    + discriminate.
    + finite_nonzero_by_evaluation.
  - refine (proj1 (proj2 (proj2 weights_sum_to_one "fastResponse"%string _
                                responses eq_refl _ _))).
    + discriminate.
    + finite_nonzero_by_evaluation.
Defined.

(** C3 as stated fails.  A single response of confidence 0 gets the
    weight [0/0] from the engine's confidence strategy, and a response
    built within one millisecond (processing time 0) gets the weight
    [Infinity/Infinity] from the fast-response strategy: the weight
    vector is [[NaN]] and does not add up to 1. *)
Lemma weights_sum_counterexample :
  let silent := Sample.response "CryptoBERT" 0 35 in
  ([silent] <> []
   /\ Engine.calculateModelWeights [silent] "confidence" = [NaN]
   /\ ~ sumsToOne (Engine.calculateModelWeights [silent] "confidence"))
  /\
  ([Sample.insufficientData] <> []
   /\ Config.fastResponseWeighting [Sample.insufficientData] = [NaN]
   /\ ~ sumsToOne (Config.fastResponseWeighting [Sample.insufficientData])).
Proof.
  intros silent.
  assert (Hnan : ~ sumsToOne [NaN]) by (intros [H _]; exact H).
  split; (split; [discriminate | split; [reflexivity | exact Hnan]]).
Qed.

(** C10.  The engine's [calculateModelWeights] gives under "performance"
    the weight vector it gives under "confidence", for every list of
    responses.  The weighting function that the strategy table files
    under "performance" (scores from a table keyed by the source name)
    is another function: it differs from the engine's on a non-empty
    list. *)
Theorem performance_is_confidence :
  (forall responses : list ModelResponse,
      Engine.calculateModelWeights responses "performance"
      = Engine.calculateModelWeights responses "confidence")
  /\
  (exists s,
      get "performance"%string (Config.strategies Config.AI_ENSEMBLE_CONFIG)
      = Some s
      /\ Config.weightingFunction s = Config.performanceWeighting)
  /\
  (exists responses : list ModelResponse,
      responses <> []
      /\ Config.performanceWeighting responses
         <> Engine.calculateModelWeights responses "performance").
Proof.
  split; [|split].
  - intros responses.
    rewrite (calculateModelWeights_cases responses "performance").
    reflexivity.
  - eexists. split; reflexivity.
  - exists [Sample.response "Gemini-2.0-Flash" 0.5 100;
            Sample.response "FinBERT" 0.9 100].
    split; [discriminate|].
    intros E. apply (f_equal firstWeight) in E.
    vm_compute in E. discriminate E.
Qed.

(* --------------------------------------------------------------------- *)
(** ** The orchestrator *)

Section Orchestrator.

Local Open Scope string_scope.

Variables (w : World) (query : string) (marketContext : Context)
          (options : Engine.Options).

(** The loop over the settled results pushes the fulfilled values, in
    order, and reports whether there was one. *)
Lemma forEachResult_run (results : list (outcome ModelResponse))
  (hasValidResponse : bool) (st : list ModelResponse) :
  Engine.forEachResult results hasValidResponse st
  = (Fulfilled (orb hasValidResponse
                    (negb (Nat.eqb (List.length (Engine.succeeded results)) 0))),
     (st ++ Engine.succeeded results)%list).
Proof.
  revert hasValidResponse st.
  induction results as [|[value|reason] rest IH]; intros hv st; simpl.
  - unfold Engine.ret. now rewrite orb_false_r, app_nil_r.
  - unfold Engine.bind, Engine.push. rewrite IH. simpl.
    now rewrite orb_true_r, <- app_assoc.
  - apply IH.
Qed.

Lemma generate_configured (apiKey : string) :
  apiKey <> "" ->
  Engine.generateEnsembleResponse apiKey w query marketContext options
  = Fulfilled
      (match Engine.succeeded
               (Engine.modelPromises w query marketContext options) with
       | [] => Engine.degraded w
       | r :: rest => Engine.synthesized w query options (r :: rest)
       end).
Proof.
  intros Hkey. apply String.eqb_neq in Hkey.
  unfold Engine.generateEnsembleResponse, Engine.tryBlock.
  rewrite Hkey. unfold Engine.bind at 1. unfold Engine.ret at 1.
  unfold Engine.bind at 1. rewrite forEachResult_run. simpl.
  destruct (Engine.succeeded _) as [|r rest]; reflexivity.
Qed.

Lemma generate_unconfigured :
  Engine.generateEnsembleResponse "" w query marketContext options
  = Fulfilled
      {| finalResponse :=
           "Analysis failed: HUGGINGFACE_API_KEY is not configured. Please try again.";
         modelContributions := [];
         consensusScore := Fin 0;
         totalProcessingTime := elapsed w;
         methodology := "Analysis failed due to technical error" |}.
Proof. reflexivity. Qed.

End Orchestrator.

(** The crypto-sentiment analyzer always answers, by its fallback if
    need be; the technical analyzer throws only for want of a context. *)
Lemma getCryptoSentimentAnalysis_fulfilled (w : World) (query : string)
  (context : Context) :
  exists response,
    Engine.getCryptoSentimentAnalysis w query context = Fulfilled response.
Proof.
  unfold Engine.getCryptoSentimentAnalysis.
  destruct (cryptoBertAttempt w query); eauto.
Qed.

Lemma getTechnicalAnalysis_rejected (w : World) (query : string)
  (context : Context) (reason : string) :
  Engine.getTechnicalAnalysis w query context = Rejected reason ->
  context = None.
Proof.
  unfold Engine.getTechnicalAnalysis.
  destruct context as [context|]; [|reflexivity].
  destruct (Market.topCoin context) as [coin|];
    [|destruct (hd_error (Market.coins context)) as [coin|]];
    try discriminate;
    destruct (technicalAnalyzerAttempt w coin query); discriminate.
Qed.

(** So every dispatched analyzer can fail only in a call that leaves the
    crypto-sentiment analyzer out and has no context. *)
Lemma all_rejected_only_without_context (w : World) (query : string)
  (marketContext : Context) (options : Engine.Options) :
  Forall Engine.isRejected
         (Engine.modelPromises w query marketContext options) ->
  Engine.useCryptoBert options = Some false /\ marketContext = None.
Proof.
  unfold Engine.modelPromises. rewrite !Forall_app. intros (_ & _ & Hc & _ & Ht).
  split.
  - destruct (Engine.useCryptoBert options) as [[|]|]; cbn in Hc;
      try reflexivity;
      apply Forall_inv in Hc;
      destruct (getCryptoSentimentAnalysis_fulfilled w query marketContext)
        as [response E]; rewrite E in Hc; destruct Hc.
  - apply Forall_inv in Ht.
    destruct (Engine.getTechnicalAnalysis w query marketContext) eqn:E;
      [destruct Ht | exact (getTechnicalAnalysis_rejected _ _ _ E)].
Qed.

Lemma succeeded_all_rejected (results : list (outcome ModelResponse)) :
  Forall Engine.isRejected results -> Engine.succeeded results = [].
Proof.
  induction 1 as [|[value|reason] rest Hrej _ IH]; simpl; auto.
  destruct Hrej.
Qed.

Lemma succeeded_In (results : list (outcome ModelResponse)) (r : ModelResponse) :
  In r (Engine.succeeded results) <-> In (Fulfilled r) results.
Proof.
  induction results as [|[value|reason] rest IH]; simpl.
  - tauto.
  - rewrite IH. split; intros [H|H]; auto; left; congruence.
  - rewrite IH. split; [auto | intros [H|H]; [discriminate | exact H]].
Qed.

(** C1.  With the credential configured, so that the analyzers are
    dispatched: if every dispatched analyzer call throws (its promise is
    rejected), [generateEnsembleResponse] does not throw; it resolves to a
    response with no contribution, consensus score 0, the fixed apology as
    its (non-empty) final response and a methodology saying that no model
    responded. *)
Theorem all_analyzers_failed (apiKey : string) (w : World) (query : string)
  (marketContext : Context) (options : Engine.Options) :
  apiKey <> ""%string ->
  Forall Engine.isRejected
         (Engine.modelPromises w query marketContext options) ->
  exists response,
    Engine.generateEnsembleResponse apiKey w query marketContext options
    = Fulfilled response
    /\ modelContributions response = []
    /\ consensusScore response = Fin 0
    /\ finalResponse response = Engine.apology
    /\ finalResponse response <> ""%string
    /\ methodology response
       = "No models were able to generate a response"%string.
Proof.
  intros Hkey Hall. rewrite generate_configured by exact Hkey.
  rewrite (succeeded_all_rejected Hall).
  eexists. split; [reflexivity|]. simpl. repeat split. discriminate.
Qed.

Lemma all_analyzers_failed_witness :
  exists response,
    Engine.generateEnsembleResponse "hf_key" Sample.offline
      "What's the Bitcoin sentiment?" Sample.noContext
      Sample.withoutCryptoBert
    = Fulfilled response
    /\ modelContributions response = []
    /\ consensusScore response = Fin 0
    /\ finalResponse response = Engine.apology
    /\ finalResponse response <> ""%string
    /\ methodology response
       = "No models were able to generate a response"%string.
Proof.
  apply all_analyzers_failed.
  - discriminate.
  - repeat constructor.
Defined.

(** C4.  With the credential configured, the contributions of the
    returned response are exactly the values of the analyzer calls that
    were fulfilled, in the order of dispatch: each fulfilled call
    contributes its response whatever the other calls did, and a rejected
    call contributes nothing. *)
Theorem contributions_are_the_successes (apiKey : string) (w : World)
  (query : string) (marketContext : Context) (options : Engine.Options) :
  apiKey <> ""%string ->
  exists response,
    Engine.generateEnsembleResponse apiKey w query marketContext options
    = Fulfilled response
    /\ modelContributions response
       = Engine.succeeded (Engine.modelPromises w query marketContext options)
    /\ forall r,
         In r (modelContributions response)
         <-> In (Fulfilled r)
                (Engine.modelPromises w query marketContext options).
Proof.
  intros Hkey. rewrite generate_configured by exact Hkey.
  eexists. split; [reflexivity|].
  assert (E : modelContributions
                (match Engine.succeeded
                         (Engine.modelPromises w query marketContext options)
                 with
                 | [] => Engine.degraded w
                 | r :: rest =>
                     Engine.synthesized w query options (r :: rest)
                 end)
              = Engine.succeeded
                  (Engine.modelPromises w query marketContext options)).
  { destruct (Engine.succeeded _); reflexivity. }
  split; [exact E|]. intros r. rewrite E. apply succeeded_In.
Qed.

Lemma contributions_are_the_successes_witness :
  exists response,
    Engine.generateEnsembleResponse "hf_key" Sample.geminiDown
      "What's the Bitcoin sentiment?" Sample.noAssets Engine.noOptions
    = Fulfilled response
    /\ modelContributions response
       = [Sample.response "FinBERT" 0.75 420;
          Sample.response "CryptoBERT" 0.9 380;
          Sample.insufficientData].
Proof.
  destruct (@contributions_are_the_successes "hf_key" Sample.geminiDown
              "What's the Bitcoin sentiment?" Sample.noAssets Engine.noOptions)
    as (response & Hrun & Hcontrib & _).
  - discriminate.
  - exists response. split; [exact Hrun | exact Hcontrib].
Defined.

(** When the crypto-sentiment model times out, its keyword fallback
    contributes in its place: five contributions for five analyzers. *)
Example crypto_timeout_contributes_fallback :
  exists response,
    Engine.generateEnsembleResponse "hf_key" Sample.cryptoTimeout
      "What's the Bitcoin sentiment?"
      (Some {| Market.topCoin := Some (Sample.bitcoin 7.5);
               Market.coins := [] |})
      Engine.noOptions
    = Fulfilled response
    /\ map source (modelContributions response)
       = ["Gemini-2.0-Flash"; "FinBERT"; "Crypto-Keywords"; "News-RoBERTa";
          "Technical-Analyzer"]%string
    /\ finalResponse response = "Sentiment on Bitcoin is mixed."%string.
Proof. eexists. repeat split. Qed.

(** C5 as stated fails.  Without the credential the call is not
    rejected: it resolves to a response that carries the message. *)
Lemma missing_key_counterexample :
  Engine.generateEnsembleResponse "" Sample.offline
    "What's the Bitcoin sentiment?" Sample.noAssets Engine.noOptions
  = Fulfilled
      {| finalResponse :=
           "Analysis failed: HUGGINGFACE_API_KEY is not configured. Please try again.";
         modelContributions := [];
         consensusScore := Fin 0;
         totalProcessingTime := elapsed Sample.offline;
         methodology := "Analysis failed due to technical error" |}
  /\ ~ (exists reason,
           Engine.generateEnsembleResponse "" Sample.offline
             "What's the Bitcoin sentiment?" Sample.noAssets Engine.noOptions
           = Rejected reason).
Proof.
  split; [reflexivity|]. intros [reason H]. discriminate H.
Qed.

(** C5 (amended).  Without the credential the [try] block throws the
    configuration error at once, whatever the analyzers would have
    answered, and the [catch] of [generateEnsembleResponse] turns it into
    a returned response: final response "Analysis failed:
    HUGGINGFACE_API_KEY is not configured. Please try again.", no
    contribution, consensus score 0, methodology "Analysis failed due to
    technical error".  With or without the credential the call is never
    rejected: no failure reaches the caller as an error. *)
Theorem configuration_error_is_returned (w : World) (query : string)
  (marketContext : Context) (options : Engine.Options) :
  Engine.tryBlock "" w query marketContext options []
  = (Rejected "HUGGINGFACE_API_KEY is not configured"%string, [])
  /\ Engine.generateEnsembleResponse "" w query marketContext options
     = Fulfilled
         {| finalResponse :=
              "Analysis failed: HUGGINGFACE_API_KEY is not configured. Please try again.";
            modelContributions := [];
            consensusScore := Fin 0;
            totalProcessingTime := elapsed w;
            methodology := "Analysis failed due to technical error" |}
  /\ forall apiKey, exists response,
       Engine.generateEnsembleResponse apiKey w query marketContext options
       = Fulfilled response.
Proof.
  split; [reflexivity | split; [reflexivity|]].
  intros apiKey. unfold Engine.generateEnsembleResponse.
  destruct (Engine.tryBlock apiKey w query marketContext options [])
    as [[response|message] st]; eauto.
Qed.

(* --------------------------------------------------------------------- *)
(** ** Consensus score *)

Section Consensus.

Local Open Scope Qc_scope.

(** [max(0.1, min(0.95, v))] lies between its bounds when [v] is finite. *)
Lemma clamp_bounds (v : Qc) :
  le (dec 0.1) (max (dec 0.1) (min (dec 0.95) (Fin v)))
  /\ le (max (dec 0.1) (min (dec 0.95) (Fin v))) (dec 0.95).
Proof.
  unfold dec, min, ltb.
  destruct (Qcltb v (Q2Qc 0.95)) eqn:Hhi; unfold max, ltb.
  - destruct (Qcltb (Q2Qc 0.1) v) eqn:Hlo; simpl.
    + apply Qcltb_true in Hhi, Hlo. split; now apply Qclt_le_weak.
    + split; [apply Qcle_refl | vm_compute; discriminate].
  - replace (Qcltb (Q2Qc 0.1) (Q2Qc 0.95)) with true by reflexivity. simpl.
    split; [vm_compute; discriminate | apply Qcle_refl].
Qed.

Lemma consensus_formula (responses : list ModelResponse) (cs : list Qc) :
  map confidence responses = map Fin cs ->
  (2 <= List.length responses)%nat ->
  Engine.calculateConsensusScore responses
  = max (dec 0.1) (min (dec 0.95) (Fin (1 - variance cs))).
Proof.
  intros Hcs Hlen.
  assert (Hn : List.length cs = List.length responses).
  { rewrite <- (length_map Fin cs), <- Hcs. apply length_map. }
  unfold Engine.calculateConsensusScore.
  destruct (Nat.ltb_spec (List.length responses) 2) as [Hlt|_]; [lia|].
  destruct (List.length responses) as [|n] eqn:En; [lia|].
  cbv zeta.
  rewrite (fold_left_map_add confidence responses (Fin 0)).
  rewrite Hcs, fold_add_fin. unfold of_nat at 1.
  rewrite div_fin by apply of_nat_nonzero.
  replace (0 + Qcsum cs) with (Qcsum cs) by ring.
  assert (Hmean : Qcsum cs / Q2Qc (inject_Z (Z.of_nat (S n))) = mean cs).
  { unfold mean. now rewrite Hn. }
  rewrite Hmean.
  rewrite (fold_left_map_add
             (fun r => sq (sub (confidence r) (Fin (mean cs)))) responses (Fin 0)).
  rewrite <- (map_map confidence (fun c => sq (sub c (Fin (mean cs))))).
  rewrite Hcs, map_map.
  rewrite (map_ext _ (fun c => Fin ((c - mean cs) * (c - mean cs))))
    by reflexivity.
  rewrite <- (map_map (fun c => (c - mean cs) * (c - mean cs)) Fin).
  rewrite fold_add_fin. unfold of_nat.
  rewrite div_fin by apply of_nat_nonzero.
  do 3 f_equal. unfold dec, sub, neg, add. f_equal.
  unfold variance. rewrite Hn. unfold Qcminus, Qcdiv. ring.
Qed.

(** C2.  [calculateConsensusScore] is exactly 0.5 on one response.  On
    two or more responses with finite confidences [cs] it is
    [max(0.1, min(0.95, 1 - variance cs))], the variance being the mean of
    the squared deviations from the mean, and lies in [0.1, 0.95].  The
    response returned by [generateEnsembleResponse] carries consensus
    score 0 when no analyzer succeeded, and the score of the succeeded
    responses (0.5 for one, the formula for more) otherwise. *)
Theorem consensus_score :
  (forall r : ModelResponse, Engine.calculateConsensusScore [r] = dec 0.5)
  /\
  (forall (responses : list ModelResponse) (cs : list Qc),
      map confidence responses = map Fin cs ->
      (2 <= List.length responses)%nat ->
      Engine.calculateConsensusScore responses
      = max (dec 0.1) (min (dec 0.95) (Fin (1 - variance cs)))
      /\ le (dec 0.1) (Engine.calculateConsensusScore responses)
      /\ le (Engine.calculateConsensusScore responses) (dec 0.95))
  /\
  (forall (apiKey : string) (w : World) (query : string)
          (marketContext : Context) (options : Engine.Options),
      exists response,
        Engine.generateEnsembleResponse apiKey w query marketContext options
        = Fulfilled response
        /\ (Engine.succeeded
              (Engine.modelPromises w query marketContext options) = [] ->
            consensusScore response = Fin 0)
        /\ (apiKey <> ""%string ->
            Engine.succeeded
              (Engine.modelPromises w query marketContext options) <> [] ->
            consensusScore response
            = Engine.calculateConsensusScore
                (Engine.succeeded
                   (Engine.modelPromises w query marketContext options)))).
Proof.
  split; [reflexivity | split].
  - intros responses cs Hcs Hlen.
    rewrite (@consensus_formula responses cs Hcs Hlen).
    split; [reflexivity | apply clamp_bounds].
  - intros apiKey w query marketContext options.
    destruct (string_dec apiKey "") as [->|Hkey].
    + rewrite generate_unconfigured. eexists. split; [reflexivity|].
      split; [reflexivity | congruence].
    + rewrite generate_configured by exact Hkey.
      eexists. split; [reflexivity|].
      destruct (Engine.succeeded _) as [|r rest]; split;
        try reflexivity; congruence.
Qed.

Lemma consensus_score_witness :
  let responses :=
    [Sample.response "Gemini-2.0-Flash" 0.85 900; Sample.insufficientData] in
  let cs := [Q2Qc 0.85; Q2Qc 0.3] in
  Engine.calculateConsensusScore responses
  = max (dec 0.1) (min (dec 0.95) (Fin (1 - variance cs)))
  /\ le (dec 0.1) (Engine.calculateConsensusScore responses)
  /\ le (Engine.calculateConsensusScore responses) (dec 0.95).
Proof.
  intros responses cs.
  apply (proj1 (proj2 consensus_score) responses cs).
  - reflexivity.
  - simpl. lia.
Defined.

(** The score of that pair: [1 - 0.275^2]. *)
Example consensus_score_of_a_pair :
  Engine.calculateConsensusScore
    [Sample.response "Gemini-2.0-Flash" 0.85 900; Sample.insufficientData]
  = dec 0.924375.
Proof. num_by_evaluation. Qed.

End Consensus.

(* --------------------------------------------------------------------- *)
(** ** Local fallbacks *)

Section Fallbacks.

Local Open Scope string_scope.

Lemma min_cap (cap v : Qc) : le (min (Fin cap) (Fin v)) (Fin cap).
Proof.
  unfold min, ltb. destruct (Qcltb v cap) eqn:E; simpl.
  - apply Qcltb_true in E. now apply Qclt_le_weak.
  - apply Qcle_refl.
Qed.

Lemma moon_hodl_analysis (context : Context) (startTime now : num) :
  Engine.getCryptoKeywordAnalysis "to the moon, hodl strong" context
    startTime now
  = {| source := "Crypto-Keywords";
       confidence := min (dec 0.8) (add (dec 0.5) (mul (of_nat 2) (dec 0.1)));
       data := [("sentiment", JStr "positive");
                ("positiveMatches", JNum (of_nat 2));
                ("negativeMatches", JNum (of_nat 0));
                ("type", JStr "crypto_keyword_analysis")];
       processingTime := sub now startTime |}.
Proof.
  unfold Engine.getCryptoKeywordAnalysis.
  replace (List.length
             (filter (fun word =>
                        includes (toLowerCase "to the moon, hodl strong") word)
                     Engine.cryptoPositive)) with 2%nat
    by (vm_compute; reflexivity).
  replace (List.length
             (filter (fun word =>
                        includes (toLowerCase "to the moon, hodl strong") word)
                     Engine.cryptoNegative)) with 0%nat
    by (vm_compute; reflexivity).
  reflexivity.
Qed.

(** C7.  On "to the moon, hodl strong" the keyword fallback counts 2
    positive and 0 negative words and answers "positive" with confidence
    0.7, above 0.5 and at most 0.8; on every query its confidence is at
    most 0.8. *)
Theorem crypto_keyword_fallback :
  (forall (context : Context) (startTime now : num),
      let r := Engine.getCryptoKeywordAnalysis "to the moon, hodl strong"
                 context startTime now in
      get "sentiment" (data r) = Some (JStr "positive")
      /\ get "positiveMatches" (data r) = Some (JNum (of_nat 2))
      /\ get "negativeMatches" (data r) = Some (JNum (of_nat 0))
      /\ confidence r = dec 0.7
      /\ lt (dec 0.5) (confidence r)
      /\ le (confidence r) (dec 0.8))
  /\
  (forall (query : string) (context : Context) (startTime now : num),
      le (confidence
            (Engine.getCryptoKeywordAnalysis query context startTime now))
         (dec 0.8)).
Proof.
  split.
  - intros context startTime now r. subst r.
    rewrite moon_hodl_analysis. cbn [data confidence].
    assert (E : min (dec 0.8) (add (dec 0.5) (mul (of_nat 2) (dec 0.1)))
                = dec 0.7).
    { num_by_evaluation. }
    rewrite E. repeat split; vm_compute; discriminate.
  - intros query context startTime now.
    unfold Engine.getCryptoKeywordAnalysis.
    set (pos := List.length (filter _ Engine.cryptoPositive)).
    set (neg := List.length (filter _ Engine.cryptoNegative)).
    destruct (Nat.ltb neg pos); [|destruct (Nat.ltb pos neg)]; cbn [confidence].
    + apply (min_cap (Q2Qc 0.8)
                     (Q2Qc 0.5 + Q2Qc (inject_Z (Z.of_nat pos)) * Q2Qc 0.1)%Qc).
    + apply (min_cap (Q2Qc 0.8)
                     (Q2Qc 0.5 + Q2Qc (inject_Z (Z.of_nat neg)) * Q2Qc 0.1)%Qc).
    + vm_compute. discriminate.
Qed.

Lemma priceLine_sideways (pc : Qc) :
  Engine.priceLine (Fin pc) = "- Sideways price action" ++ nl
  <-> (Q2Qc (-2) <= pc /\ pc <= Q2Qc 2)%Qc.
Proof.
  unfold Engine.priceLine, gtb, ltb, dec.
  destruct (Qcltb (Q2Qc 5) pc) eqn:E5;
    [split; [intros H; vm_compute in H; discriminate H|] |].
  { intros [_ H2]. apply Qcltb_true in E5. exfalso.
    apply (Qclt_not_le _ _ E5). eapply Qcle_trans; [exact H2|].
    vm_compute. discriminate. }
  destruct (Qcltb (Q2Qc 2) pc) eqn:E2;
    [split; [intros H; vm_compute in H; discriminate H|] |].
  { intros [_ H2]. apply Qcltb_true in E2. exfalso.
    exact (Qclt_not_le _ _ E2 H2). }
  destruct (Qcltb pc (Q2Qc (-5))) eqn:Em5;
    [split; [intros H; vm_compute in H; discriminate H|] |].
  { intros [H2 _]. apply Qcltb_true in Em5. exfalso.
    apply (Qclt_not_le _ _ Em5). eapply Qcle_trans; [|exact H2].
    vm_compute. discriminate. }
  destruct (Qcltb pc (Q2Qc (-2))) eqn:Em2;
    [split; [intros H; vm_compute in H; discriminate H|] |].
  { intros [H2 _]. apply Qcltb_true in Em2. exfalso.
    exact (Qclt_not_le _ _ Em2 H2). }
  apply Qcltb_false in E2, Em2. tauto.
Qed.

(** C8.  In the rule-based fallback a 24h change of 7.5 yields the line
    of a strong bullish move and a change of -1 the line of sideways
    price action; a finite change yields the sideways line exactly when
    it lies between -2 and 2, bounds included; and the confidence of the
    response is 0.6 whatever the data. *)
Theorem rule_based_technical_fallback :
  (forall (data0 : Market.TechnicalData) (query : string) (startTime now : num),
      Market.priceChange24h data0 = Some (dec 7.5) ->
      get "analysis"
          (data (Engine.getRuleBasedTechnicalAnalysis data0 query startTime now))
      = Some (JStr ("Technical Analysis for "
                    ++ Engine.orString (Market.name data0) "Asset" ++ ":" ++ nl
                    ++ "- Strong bullish momentum detected" ++ nl
                    ++ Engine.volumeLine (Engine.orZero (Market.volume24h data0)))))
  /\
  (forall (data0 : Market.TechnicalData) (query : string) (startTime now : num),
      Market.priceChange24h data0 = Some (dec (-1)) ->
      get "analysis"
          (data (Engine.getRuleBasedTechnicalAnalysis data0 query startTime now))
      = Some (JStr ("Technical Analysis for "
                    ++ Engine.orString (Market.name data0) "Asset" ++ ":" ++ nl
                    ++ "- Sideways price action" ++ nl
                    ++ Engine.volumeLine (Engine.orZero (Market.volume24h data0)))))
  /\
  (forall pc : Qc,
      Engine.priceLine (Fin pc) = "- Sideways price action" ++ nl
      <-> (Q2Qc (-2) <= pc /\ pc <= Q2Qc 2)%Qc)
  /\
  (forall (data0 : Market.TechnicalData) (query : string) (startTime now : num),
      confidence (Engine.getRuleBasedTechnicalAnalysis data0 query startTime now)
      = dec 0.6).
Proof.
  split; [|split; [|split; [exact priceLine_sideways | reflexivity]]].
  - intros data0 query startTime now Hpc.
    unfold Engine.getRuleBasedTechnicalAnalysis. rewrite Hpc.
    cbn [data get String.eqb Ascii.eqb Bool.eqb].
    change (Engine.orZero (Some (dec 7.5))) with (dec 7.5).
    change (Engine.priceLine (dec 7.5))
      with ("- Strong bullish momentum detected" ++ nl).
    now rewrite !append_assoc.
  - intros data0 query startTime now Hpc.
    unfold Engine.getRuleBasedTechnicalAnalysis. rewrite Hpc.
    cbn [data get String.eqb Ascii.eqb Bool.eqb].
    change (Engine.orZero (Some (dec (-1)))) with (dec (-1)).
    change (Engine.priceLine (dec (-1))) with ("- Sideways price action" ++ nl).
    now rewrite !append_assoc.
Qed.

Lemma rule_based_technical_fallback_witness :
  get "analysis"
      (data (Engine.getRuleBasedTechnicalAnalysis (Sample.bitcoin 7.5)
               "Is Bitcoin breaking out?" (dec 1000) (dec 1003)))
  = Some (JStr ("Technical Analysis for Bitcoin:" ++ nl
                ++ "- Strong bullish momentum detected" ++ nl
                ++ "- High trading volume indicates strong interest" ++ nl))
  /\
  get "analysis"
      (data (Engine.getRuleBasedTechnicalAnalysis (Sample.bitcoin (-1))
               "Is Bitcoin breaking out?" (dec 1000) (dec 1003)))
  = Some (JStr ("Technical Analysis for Bitcoin:" ++ nl
                ++ "- Sideways price action" ++ nl
                ++ "- High trading volume indicates strong interest" ++ nl)).
Proof.
  split.
  - apply (proj1 rule_based_technical_fallback (Sample.bitcoin 7.5)).
    reflexivity.
  - apply (proj1 (proj2 rule_based_technical_fallback) (Sample.bitcoin (-1))).
    reflexivity.
Defined.

End Fallbacks.


(* --------------------------------------------------------------------- *)
(** ** Synthesis and its fallback *)

Section Synthesis.

Local Open Scope string_scope.

Variable w : World.

(** The first element of a filtered list is the first element that
    passes the test. *)
Lemma primaryOf_find (first : ModelResponse) (responses : list ModelResponse) :
  Engine.primaryOf first responses
  = match find (fun r => gtb (confidence r) (dec 0.7)) responses with
    | Some r => r
    | None => first
    end.
Proof.
  unfold Engine.primaryOf.
  induction responses as [|r rest IH]; cbn [filter find].
  - reflexivity.
  - destruct (gtb (confidence r) (dec 0.7)); [reflexivity | exact IH].
Qed.

(** The text of the fallback: a heading that names the primary response,
    something in between, and the list of all the sources. *)
Lemma fallbackSynthesis_shape (first : ModelResponse)
  (rest : list ModelResponse) (query : string) :
  exists middle,
    Engine.fallbackSynthesis w (first :: rest) query
    = "Based on multi-model AI analysis:" ++ nl ++ nl
      ++ "Primary Analysis ("
      ++ source (Engine.primaryOf first (first :: rest)) ++ "):" ++ nl
      ++ middle
      ++ nl ++ "Models consulted: "
      ++ join ", " (map source (first :: rest))
      ++ nl ++ nl ++ Engine.closingLine.
Proof.
  unfold Engine.fallbackSynthesis.
  set (primary := Engine.primaryOf first (first :: rest)).
  set (shown := match get "analysis" (data primary) with
                | Some a => if json_truthy a then a else JObj (data primary)
                | None => JObj (data primary)
                end).
  exists (stringify w shown ++ nl ++ nl
          ++ (if Nat.ltb 1 (List.length (first :: rest))
              then "Supporting insights from "
                   ++ show_nat (List.length (first :: rest) - 1)
                   ++ " additional models:" ++ nl
                   ++ String.concat ""
                        (map (fun r =>
                                "- " ++ source r ++ ": "
                                ++ Engine.interpolate w (get "type" (data r))
                                ++ nl)
                             rest)
              else "")
          ++ nl ++ "Confidence: "
          ++ toFixed w 1 (mul (confidence primary) (dec 100)) ++ "%").
  destruct (Nat.ltb 1 (List.length (first :: rest))).
  - rewrite fold_left_append.
    rewrite !append_assoc. reflexivity.
  - rewrite !append_assoc. reflexivity.
Qed.

Lemma fallbackSynthesis_nonempty (responses : list ModelResponse)
  (query : string) :
  Engine.fallbackSynthesis w responses query <> "".
Proof.
  destruct responses as [|first rest]; [discriminate|].
  destruct (fallbackSynthesis_shape first rest query) as [middle ->].
  discriminate.
Qed.

Lemma fallbackSynthesis_names_primary (first : ModelResponse)
  (rest : list ModelResponse) (query : string) :
  contains ("Primary Analysis ("
            ++ source (Engine.primaryOf first (first :: rest)) ++ "):")
           (Engine.fallbackSynthesis w (first :: rest) query).
Proof.
  destruct (fallbackSynthesis_shape first rest query) as [middle ->].
  exists ("Based on multi-model AI analysis:" ++ nl ++ nl).
  exists (nl ++ middle ++ nl ++ "Models consulted: "
          ++ join ", " (map source (first :: rest))
          ++ nl ++ nl ++ Engine.closingLine).
  rewrite !append_assoc. reflexivity.
Qed.

Lemma fallbackSynthesis_names_all (responses : list ModelResponse)
  (query : string) (r : ModelResponse) :
  In r responses ->
  contains (source r) (Engine.fallbackSynthesis w responses query).
Proof.
  intros Hin. destruct responses as [|first rest]; [destruct Hin|].
  destruct (fallbackSynthesis_shape first rest query) as [middle ->].
  do 10 apply contains_app_r. apply contains_app_l.
  apply contains_join, in_map, Hin.
Qed.

End Synthesis.

(** C6 (amended).  With the credential configured, at least one analyzer
    fulfilled and the synthesis call to the primary model rejected,
    [generateEnsembleResponse] returns the text of the local fallback
    synthesis.  That text is not empty; its primary section is headed by
    the source of the first contributing response whose confidence
    exceeds 0.7, or of the first contributing response when none does;
    and it contains the source name of every contributing response, so
    also that of the most confident one. *)
Theorem synthesis_falls_back (apiKey : string) (w : World) (query : string)
  (marketContext : Context) (options : Engine.Options)
  (first : ModelResponse) (rest : list ModelResponse) (reason : string) :
  let strategy :=
    Engine.orDefault (Engine.weightingStrategy options) "confidence"%string in
  let responses := first :: rest in
  apiKey <> ""%string ->
  Engine.succeeded (Engine.modelPromises w query marketContext options)
  = responses ->
  callGeminiAPI w
    (Engine.synthesisPrompt w responses query
       (Engine.calculateModelWeights responses strategy))
  = Rejected reason ->
  exists response,
    Engine.generateEnsembleResponse apiKey w query marketContext options
    = Fulfilled response
    /\ finalResponse response = Engine.fallbackSynthesis w responses query
    /\ finalResponse response <> ""%string
    /\ (let primary :=
          match find (fun r => gtb (confidence r) (dec 0.7)) responses with
          | Some r => r
          | None => first
          end in
        contains ("Primary Analysis (" ++ source primary ++ "):")%string
                 (finalResponse response))
    /\ forall r, In r responses -> contains (source r) (finalResponse response).
Proof.
  intros strategy responses Hkey Hsucc Hcall. subst responses.
  assert (E : finalResponse
                (Engine.synthesized w query options (first :: rest))
              = Engine.fallbackSynthesis w (first :: rest) query).
  { unfold Engine.synthesized, Engine.synthesizeResponses.
    cbn [finalResponse]. fold strategy.
    change (Nat.eqb (List.length (first :: rest)) 0) with false. cbv iota.
    now rewrite Hcall. }
  rewrite generate_configured by exact Hkey. rewrite Hsucc.
  exists (Engine.synthesized w query options (first :: rest)).
  split; [reflexivity|]. rewrite E. split; [reflexivity|].
  split; [apply fallbackSynthesis_nonempty|].
  split.
  - cbv zeta. rewrite <- primaryOf_find.
    apply fallbackSynthesis_names_primary.
  - intros r. apply fallbackSynthesis_names_all.
Qed.

Lemma synthesis_falls_back_witness :
  exists response,
    Engine.generateEnsembleResponse "hf_key" Sample.geminiDown
      "What's the Bitcoin sentiment?" Sample.noAssets Engine.noOptions
    = Fulfilled response
    /\ finalResponse response <> ""%string
    /\ contains "Primary Analysis (FinBERT):" (finalResponse response)
    /\ contains "CryptoBERT" (finalResponse response).
Proof.
  destruct (@synthesis_falls_back "hf_key" Sample.geminiDown
              "What's the Bitcoin sentiment?" Sample.noAssets Engine.noOptions
              (Sample.response "FinBERT" 0.75 420)
              [Sample.response "CryptoBERT" 0.9 380; Sample.insufficientData]
              "fetch failed")
    as (response & Hrun & _ & Hne & Hprimary & Hall).
  - discriminate.
  - reflexivity.
  - reflexivity.
  - exists response. repeat split; try assumption.
    apply (Hall (Sample.response "CryptoBERT" 0.9 380)). right. now left.
Defined.

(** C6 as stated fails.  When the general-purpose model is down and
    FinBERT (confidence 0.75), CryptoBERT (0.9) and the technical
    analyzer (0.3) contribute, the primary section of the fallback is
    FinBERT, the first response above 0.7, and not CryptoBERT, the most
    confident one. *)
Lemma fallback_primary_counterexample :
  let finbert := Sample.response "FinBERT" 0.75 420 in
  let cryptobert := Sample.response "CryptoBERT" 0.9 380 in
  let responses := [finbert; cryptobert; Sample.insufficientData] in
  exists response,
    Engine.generateEnsembleResponse "hf_key" Sample.geminiDown
      "What's the Bitcoin sentiment?" Sample.noAssets Engine.noOptions
    = Fulfilled response
    /\ modelContributions response = responses
    /\ finalResponse response
       = Engine.fallbackSynthesis Sample.geminiDown responses
           "What's the Bitcoin sentiment?"
    /\ String.prefix ("Based on multi-model AI analysis:" ++ nl ++ nl
                      ++ "Primary Analysis (FinBERT):" ++ nl)
                     (finalResponse response) = true
    /\ Engine.primaryOf finbert responses = finbert
    /\ ~ (forall r, In r (modelContributions response) ->
                    le (confidence r) (confidence finbert)).
Proof.
  intros finbert cryptobert responses.
  eexists. split; [reflexivity|].
  split; [reflexivity|]. split; [reflexivity|].
  split; [vm_compute; reflexivity|]. split; [reflexivity|].
  intros H. specialize (H cryptobert).
  assert (Hin : In cryptobert
                   (modelContributions
                      (Engine.synthesized Sample.geminiDown
                         "What's the Bitcoin sentiment?" Engine.noOptions
                         responses)))
    by (right; now left).
  apply H in Hin. vm_compute in Hin. apply Hin. reflexivity.
Qed.

(* --------------------------------------------------------------------- *)
(** ** getOptimalConfiguration *)

Section OptimalConfiguration.

Local Open Scope string_scope.

Variable config : Config.AIEnsembleConfig.

Lemma add_zero_r (x : num) : add x (Fin 0) = x.
Proof. destruct x; simpl; try reflexivity. f_equal. ring. Qed.

Lemma fold_cost (keys : list string) (acc : num) :
  fold_left
    (fun s key =>
       match get key (Config.models config) with
       | Some model => add s (Config.costPerRequest model)
       | None => add s (Fin 0)
       end) keys acc
  = fold_left add (map (Config.costOf config) keys) acc.
Proof.
  revert acc. induction keys as [|key keys IH]; intros acc.
  - reflexivity.
  - cbn [fold_left map]. rewrite <- IH. unfold Config.costOf.
    now destruct (get key (Config.models config)).
Qed.

(** The cost is added up over the models selected by the rules, and the
    [enabled] flags are looked at afterwards, only for the list that is
    returned. *)
Lemma getOptimalConfiguration_selection (queryAnalysis : Config.QueryAnalysis) :
  exists selected,
    Config.enabledModels (Config.getOptimalConfiguration config queryAnalysis)
    = filter (Config.isEnabled config) selected
    /\ Config.expectedCost (Config.getOptimalConfiguration config queryAnalysis)
       = Config.totalCost config selected.
Proof.
  unfold Config.getOptimalConfiguration.
  destruct (Config.isSentimentQuery queryAnalysis),
           (Config.isTechnicalQuery queryAnalysis),
           (Config.isEducationalQuery queryAnalysis),
           (Config.urgency queryAnalysis =? "high"),
           (Config.complexity queryAnalysis =? "high");
    eexists; (split; [reflexivity | apply fold_cost]).
Qed.

(** The part of C9 that holds: the returned list names only models that
    the configuration has and has enabled. *)
Lemma returned_models_are_enabled (queryAnalysis : Config.QueryAnalysis)
  (key : string) :
  In key (Config.enabledModels
            (Config.getOptimalConfiguration config queryAnalysis)) ->
  exists model,
    get key (Config.models config) = Some model
    /\ Config.enabled model = true.
Proof.
  destruct (getOptimalConfiguration_selection queryAnalysis)
    as (selected & -> & _).
  intros Hin. apply filter_In in Hin as [_ Hen].
  unfold Config.isEnabled in Hen.
  destruct (get key (Config.models config)) as [model|]; [eauto | discriminate].
Qed.

(** A model that is not in the configuration costs nothing, so leaving
    it out of the list does not change the total. *)
Lemma fold_cost_present (keys : list string) (acc : num) :
  (forall key model, In key keys ->
                     get key (Config.models config) = Some model ->
                     Config.enabled model = true) ->
  fold_left add
    (map (Config.costOf config) (filter (Config.isEnabled config) keys)) acc
  = fold_left add (map (Config.costOf config) keys) acc.
Proof.
  revert acc. induction keys as [|key keys IH]; intros acc Hall.
  - reflexivity.
  - cbn [filter map fold_left]. unfold Config.isEnabled at 1.
    destruct (get key (Config.models config)) as [model|] eqn:E.
    + rewrite (Hall key model (or_introl eq_refl) E).
      cbn [map fold_left]. apply IH.
      intros k m Hin. apply Hall. now right.
    + replace (Config.costOf config key) with (Fin 0)
        by (unfold Config.costOf; now rewrite E).
      rewrite add_zero_r. apply IH.
      intros k m Hin. apply Hall. now right.
Qed.

(** Where no selected model is switched off, the expected cost is the
    cost of the returned list; this is so for the shipped table. *)
Lemma expected_cost_when_all_enabled (queryAnalysis : Config.QueryAnalysis) :
  (forall key model, get key (Config.models config) = Some model ->
                     Config.enabled model = true) ->
  Config.expectedCost (Config.getOptimalConfiguration config queryAnalysis)
  = Config.totalCost config
      (Config.enabledModels
         (Config.getOptimalConfiguration config queryAnalysis)).
Proof.
  intros Hall.
  destruct (getOptimalConfiguration_selection queryAnalysis)
    as (selected & -> & ->).
  unfold Config.totalCost, sum. symmetry. apply fold_cost_present.
  intros key model _. apply Hall.
Qed.

End OptimalConfiguration.

Lemma shipped_models_enabled (key : string) (model : Config.AIModelConfig) :
  get key (Config.models Config.AI_ENSEMBLE_CONFIG) = Some model ->
  Config.enabled model = true.
Proof.
  unfold Config.AI_ENSEMBLE_CONFIG. cbn [Config.models get].
  repeat match goal with
         | |- (if ?b then _ else _) = _ -> _ =>
             destruct b; [intros E; injection E as <-; reflexivity|]
         end.
  discriminate.
Qed.

(** With the shipped table, where the five models are enabled, the
    expected cost is the cost of the returned list. *)
Lemma expected_cost_shipped_table (queryAnalysis : Config.QueryAnalysis) :
  let optimal :=
    Config.getOptimalConfiguration Config.AI_ENSEMBLE_CONFIG queryAnalysis in
  Config.expectedCost optimal
  = Config.totalCost Config.AI_ENSEMBLE_CONFIG (Config.enabledModels optimal).
Proof.
  apply expected_cost_when_all_enabled, shipped_models_enabled.
Qed.

(** C9, at a configuration with a model switched off.  For a sentiment
    question and the shipped table with FinBERT disabled,
    [getOptimalConfiguration] returns the models gemini, cryptobert and
    newsRoberta, whose costs add up to 0.0223, and an expected cost of
    0.0233: the cost of the disabled FinBERT, 0.001, is counted. *)
Theorem expected_cost_counts_disabled_model :
  let optimal :=
    Config.getOptimalConfiguration Sample.finbertOff Sample.sentimentQuery in
  Config.enabledModels optimal
  = ["gemini"; "cryptobert"; "newsRoberta"]%string
  /\ Config.expectedCost optimal = dec 0.0233
  /\ Config.totalCost Sample.finbertOff (Config.enabledModels optimal)
     = dec 0.0223
  /\ Config.expectedCost optimal
     <> Config.totalCost Sample.finbertOff (Config.enabledModels optimal).
Proof.
  intros optimal. subst optimal.
  split; [reflexivity|].
  split; [num_by_evaluation|].
  split; [num_by_evaluation|].
  intros E. apply (f_equal (fun x => firstWeight [x])) in E.
  vm_compute in E. discriminate E.
Qed.

(* ===================================================================== *)
(** * Further properties *)
(* ===================================================================== *)

(* --------------------------------------------------------------------- *)
(** ** Weights of responses in range *)

Section MoreWeights.

Local Open Scope Qc_scope.

Import Ranges.

Lemma Qcsum_bounds_element (qs : list Qc) (q : Qc) :
  Forall (fun x => 0 < x) qs -> In q qs -> q <= Qcsum qs.
Proof.
  induction 1 as [|x qs Hx Hall IH]; intros Hin; [destruct Hin|].
  pose proof (Qcsum_nonneg Hall) as Hrest.
  destruct Hin as [->|Hin]; cbn [Qcsum].
  - to_Q. lra.
  - specialize (IH Hin). to_Q. lra.
Qed.

(** Positive scores divided by their total lie in (0, 1]. *)
Lemma normalised_unit (scores : list num) :
  Forall positive scores ->
  Forall unitWeight (map (fun score => div score (sum scores)) scores).
Proof.
  intros Hall. destruct (positives_are_fin Hall) as (qs & -> & Hqs).
  rewrite sum_fin. apply Forall_map, Forall_map, Forall_forall.
  intros q Hin.
  assert (Hq : 0 < q) by (rewrite Forall_forall in Hqs; now apply Hqs).
  assert (Hle : q <= Qcsum qs) by now apply Qcsum_bounds_element.
  assert (Hpos : 0 < Qcsum qs) by (eapply Qclt_le_trans; eassumption).
  rewrite (div_fin q (positive_nonzero Hpos)).
  exists (q / Qcsum qs). split; [reflexivity|]. split.
  - now apply Qcdiv_positive.
  - now apply Qcdiv_at_most_one.
Qed.

Lemma confidence_weights_unit (responses : list ModelResponse) :
  Forall inRange responses ->
  Forall unitWeight
    (map (fun r =>
            div (confidence r)
                (fold_left (fun s r0 => add s (confidence r0)) responses (Fin 0)))
         responses).
Proof.
  intros Hall. rewrite fold_left_map_add.
  assert (H : Forall positive (map confidence responses)).
  { apply Forall_map. eapply Forall_impl; [|exact Hall].
    apply confidence_positive. }
  apply normalised_unit in H. rewrite map_map in H. exact H.
Qed.

Lemma one_le_of_nat (n : nat) : 1 <= Q2Qc (inject_Z (Z.of_nat (S n))).
Proof. to_Q. unfold Qle. simpl. lia. Qed.

Lemma equal_weights_unit (responses : list ModelResponse) :
  Forall unitWeight
    (repeat (div (dec 1) (of_nat (List.length responses)))
            (List.length responses)).
Proof.
  apply Forall_forall. intros x Hin.
  destruct (List.length responses) as [|n]; [destruct Hin|].
  apply repeat_spec in Hin. subst x.
  unfold dec, of_nat. rewrite div_fin by apply of_nat_nonzero.
  eexists. split; [reflexivity|]. split.
  - apply Qcdiv_positive; [reflexivity | apply of_nat_pos].
  - apply Qcdiv_at_most_one; [apply one_le_of_nat | apply of_nat_pos].
Qed.

(** X1.  For responses in range (confidence in (0, 1], positive
    processing time), every weight that any strategy returns is a finite
    number in (0, 1]: no weight is zero, negative, above one or [NaN]. *)
Theorem weights_in_unit_interval (responses : list ModelResponse) :
  Forall inRange responses ->
  (forall strategy,
      Forall unitWeight (Engine.calculateModelWeights responses strategy))
  /\
  (forall key s,
      get key (Config.strategies Config.AI_ENSEMBLE_CONFIG) = Some s ->
      Forall unitWeight (Config.weightingFunction s responses)).
Proof.
  intros Hall. split.
  - intros strategy. rewrite calculateModelWeights_cases.
    destruct (String.eqb strategy "confidence");
      [now apply confidence_weights_unit|].
    destruct (String.eqb strategy "performance");
      [|apply equal_weights_unit].
    rewrite calculateModelWeights_cases. now apply confidence_weights_unit.
  - intros key s Hget.
    unfold Config.AI_ENSEMBLE_CONFIG in Hget.
    cbn [Config.strategies get] in Hget.
    repeat match type of Hget with
           | (if ?b then _ else _) = _ =>
               destruct b;
               [injection Hget as <-; cbn [Config.weightingFunction] | ]
           end; try discriminate.
    + now apply confidence_weights_unit.
    + apply equal_weights_unit.
    + unfold Config.performanceWeighting. rewrite fold_left_map_add, map_id.
      apply normalised_unit, Forall_map, Forall_forall.
      intros r _. apply performanceScore_positive.
    + now apply confidence_weights_unit.
    + unfold Config.fastResponseWeighting. rewrite fold_left_map_add, map_id.
      apply normalised_unit, Forall_map.
      eapply Forall_impl; [|exact Hall]. apply speedScore_positive.
    + unfold Config.highAccuracyWeighting. rewrite fold_left_map_add, map_id.
      destruct responses as [|r rest]; [constructor|].
      apply normalised_unit, highAccuracyScores_positive;
        [discriminate | exact Hall].
Qed.

End MoreWeights.

Section EqualConfidences.

Local Open Scope Qc_scope.

Lemma map_constant {A B : Type} (f : A -> B) (v : B) (xs : list A) :
  Forall (fun x => f x = v) xs -> map f xs = repeat v (List.length xs).
Proof.
  induction 1 as [|x xs Hx _ IH]; simpl; [reflexivity | now rewrite Hx, IH].
Qed.




End EqualConfidences.

Section WeightOrder.

Local Open Scope Qc_scope.

Lemma Qcdiv_le_compat (a b t : Qc) : a <= b -> 0 < t -> a / t <= b / t.
Proof.
  unfold Qcdiv, Qcmult, Qcinv, Qcle, Qclt. cbn [this Q2Qc].
  rewrite !Qred_correct. intros Hab Ht.
  apply Qmult_le_compat_r; [exact Hab|].
  apply Qlt_le_weak. now apply Qinv_lt_0_compat.
Qed.

Lemma Qcinv_le_contravar (a b : Qc) :
  0 < a -> a <= b -> Q2Qc 1 / b <= Q2Qc 1 / a.
Proof.
  unfold Qcdiv, Qcmult, Qcinv, Qcle, Qclt. cbn [this Q2Qc].
  rewrite !Qred_correct. intros Ha Hab.
  assert (Hb : (0 < b)%Q) by lra.
  change (1 * / b <= 1 * / a)%Q with (1 / b <= 1 / a)%Q.
  apply Qle_shift_div_r; [exact Hb|].
  setoid_replace (1 / a * b)%Q with (b / a)%Q by (field; lra).
  apply Qle_shift_div_l; [exact Ha | lra].
Qed.

(** Dividing positive scores by their total keeps their order. *)
Lemma normalised_order (scores : list num) (i j : nat) (a b : Qc) :
  Forall positive scores ->
  nth_error scores i = Some (Fin a) ->
  nth_error scores j = Some (Fin b) ->
  a <= b ->
  exists wa wb,
    nth_error (map (fun s => div s (sum scores)) scores) i = Some (Fin wa)
    /\ nth_error (map (fun s => div s (sum scores)) scores) j = Some (Fin wb)
    /\ wa <= wb.
Proof.
  intros Hall Hi Hj Hab.
  assert (Hne : scores <> []) by (intros ->; destruct i; discriminate Hi).
  destruct (positives_are_fin Hall) as (qs & E & Hqs).
  assert (Hpos : 0 < Qcsum qs).
  { apply Qcsum_positive; [|exact Hqs]. intros ->. now apply Hne. }
  assert (Hsum : sum scores = Fin (Qcsum qs)) by (rewrite E; apply sum_fin).
  rewrite Hsum.
  exists (a / Qcsum qs), (b / Qcsum qs).
  rewrite (map_nth_error _ _ _ Hi), (map_nth_error _ _ _ Hj).
  rewrite !(div_fin _ (positive_nonzero Hpos)).
  repeat split. now apply Qcdiv_le_compat.
Qed.

(** X3.  For responses in range, weighting by confidence keeps the order
    of the confidences, and the fast-response weighting reverses the
    order of the processing times: of two responses, the more confident
    one never gets the smaller weight, and the slower one never gets the
    larger weight. *)
Theorem weights_follow_order (responses : list ModelResponse)
  (i j : nat) (r1 r2 : ModelResponse) :
  Forall inRange responses ->
  nth_error responses i = Some r1 ->
  nth_error responses j = Some r2 ->
  (le (confidence r1) (confidence r2) ->
   exists w1 w2,
     nth_error (Engine.calculateModelWeights responses "confidence") i = Some w1
     /\ nth_error (Engine.calculateModelWeights responses "confidence") j
        = Some w2
     /\ le w1 w2)
  /\
  (le (processingTime r1) (processingTime r2) ->
   exists w1 w2,
     nth_error (Config.fastResponseWeighting responses) i = Some w1
     /\ nth_error (Config.fastResponseWeighting responses) j = Some w2
     /\ le w2 w1).
Proof.
  intros Hall Hi Hj.
  assert (H1 : inRange r1)
    by (rewrite Forall_forall in Hall; eapply Hall, nth_error_In, Hi).
  assert (H2 : inRange r2)
    by (rewrite Forall_forall in Hall; eapply Hall, nth_error_In, Hj).
  destruct H1 as (c1 & t1 & Ec1 & Hc1 & _ & Et1 & Ht1).
  destruct H2 as (c2 & t2 & Ec2 & Hc2 & _ & Et2 & Ht2).
  split.
  - rewrite Ec1, Ec2. intros Hle. cbn in Hle.
    rewrite calculateModelWeights_cases. cbn [String.eqb Ascii.eqb Bool.eqb].
    rewrite fold_left_map_add.
    assert (Hpos : Forall positive (map confidence responses)).
    { apply Forall_map. eapply Forall_impl; [|exact Hall].
      apply confidence_positive. }
    destruct (@normalised_order (map confidence responses) i j c1 c2 Hpos)
      as (w1 & w2 & E1 & E2 & Hw); auto.
    + rewrite (map_nth_error _ _ _ Hi). now rewrite Ec1.
    + rewrite (map_nth_error _ _ _ Hj). now rewrite Ec2.
    + rewrite map_map in E1, E2. exists (Fin w1), (Fin w2). auto.
  - rewrite Et1, Et2. intros Hle. cbn in Hle.
    unfold Config.fastResponseWeighting. rewrite fold_left_map_add, map_id.
    set (speed := fun r : ModelResponse =>
                    div (dec 1) (div (processingTime r) (dec 1000))).
    assert (Hpos : Forall positive (map speed responses)).
    { apply Forall_map. eapply Forall_impl; [|exact Hall].
      apply speedScore_positive. }
    assert (H1000 : 0 < Q2Qc 1000) by reflexivity.
    assert (Hs : forall t, 0 < t ->
                 div (dec 1) (div (Fin t) (dec 1000))
                 = Fin (Q2Qc 1 / (t / Q2Qc 1000))).
    { intros t Ht. unfold dec.
      rewrite (div_fin t (positive_nonzero H1000)).
      now rewrite (div_fin (Q2Qc 1)
                     (positive_nonzero (Qcdiv_positive Ht H1000))). }
    destruct (@normalised_order (map speed responses) j i
                (Q2Qc 1 / (t2 / Q2Qc 1000)) (Q2Qc 1 / (t1 / Q2Qc 1000)) Hpos)
      as (w2 & w1 & E2 & E1 & Hw).
    + rewrite (map_nth_error _ _ _ Hj). unfold speed. now rewrite Et2, Hs.
    + rewrite (map_nth_error _ _ _ Hi). unfold speed. now rewrite Et1, Hs.
    + apply Qcinv_le_contravar; [now apply Qcdiv_positive|].
      now apply Qcdiv_le_compat.
    + exists (Fin w1), (Fin w2). auto.
Qed.

End WeightOrder.

(* --------------------------------------------------------------------- *)
(** ** More on getOptimalConfiguration *)

Section MoreOptimalConfiguration.

Local Open Scope string_scope.

Variable config : Config.AIEnsembleConfig.

(** Case analysis on the five tests of [getOptimalConfiguration]. *)
Ltac by_flags queryAnalysis :=
  unfold Config.getOptimalConfiguration;
  destruct (Config.isSentimentQuery queryAnalysis),
           (Config.isTechnicalQuery queryAnalysis),
           (Config.isEducationalQuery queryAnalysis),
           (Config.urgency queryAnalysis =? "high") eqn:?,
           (Config.complexity queryAnalysis =? "high") eqn:?.

Lemma calculateModelWeights_other (responses : list ModelResponse)
  (strategy : string) :
  (strategy =? "confidence") = false ->
  (strategy =? "performance") = false ->
  Engine.calculateModelWeights responses strategy
  = Config.equalWeighting responses.
Proof.
  intros Hc Hp.
  rewrite (calculateModelWeights_cases responses strategy), Hc, Hp.
  reflexivity.
Qed.

(** X4.  The strategy names that [getOptimalConfiguration] gives to a
    query of high urgency or high complexity, "fastResponse" and
    "highAccuracy", are not cases of the engine's [calculateModelWeights]:
    called with the returned strategy, the engine weighs every response
    equally, as under "equal". *)
Theorem urgent_or_complex_strategy_weighs_equally
  (queryAnalysis : Config.QueryAnalysis) (responses : list ModelResponse) :
  Config.urgency queryAnalysis = "high"
  \/ Config.complexity queryAnalysis = "high" ->
  let strategy :=
    Config.strategy (Config.getOptimalConfiguration config queryAnalysis) in
  (strategy = "fastResponse" \/ strategy = "highAccuracy")
  /\ Engine.calculateModelWeights responses strategy
     = Engine.calculateModelWeights responses "equal"
  /\ Engine.calculateModelWeights responses strategy
     = Config.equalWeighting responses.
Proof.
  intros H strategy. subst strategy.
  assert (E : (Config.urgency queryAnalysis =? "high") = true
              \/ (Config.urgency queryAnalysis =? "high") = false
                 /\ (Config.complexity queryAnalysis =? "high") = true).
  { destruct (Config.urgency queryAnalysis =? "high") eqn:Eu; [now left|].
    right. split; [reflexivity|].
    destruct H as [H|H]; [|now apply String.eqb_eq].
    apply String.eqb_eq in H. congruence. }
  clear H.
  by_flags queryAnalysis; cbn [Config.strategy];
    try (destruct E as [E|[E1 E2]]; discriminate);
    (split; [auto|]);
    rewrite (@calculateModelWeights_other responses "equal") by reflexivity;
    split; now apply calculateModelWeights_other.
Qed.

Lemma filter_shorter {A : Type} (f : A -> bool) (xs : list A) :
  (List.length (filter f xs) <= List.length xs)%nat.
Proof.
  induction xs as [|x xs IH]; simpl; [lia|]. destruct (f x); simpl; lia.
Qed.

Lemma count_filter (f : string -> bool) (xs : list string) (x : string) :
  count_occ string_dec (filter f xs) x
  = if f x then count_occ string_dec xs x else 0%nat.
Proof.
  induction xs as [|y ys IH]; simpl; [now destruct (f x)|].
  destruct (f y) eqn:Ey; simpl; destruct (string_dec y x) as [->|Hne];
    rewrite IH; try rewrite Ey; reflexivity.
Qed.

(** X5.  For a query of high urgency [getOptimalConfiguration] answers
    with the strategy "fastResponse" and the timeout 15000, whatever the
    other flags and the complexity, and returns at most two models, none
    of them [cryptobert] or [newsRoberta]: the two are cut off with the
    rest of the list. *)
Theorem urgent_query_configuration (queryAnalysis : Config.QueryAnalysis) :
  Config.urgency queryAnalysis = "high" ->
  let optimal := Config.getOptimalConfiguration config queryAnalysis in
  Config.strategy optimal = "fastResponse"
  /\ Config.optimalTimeout optimal = dec 15000
  /\ (List.length (Config.enabledModels optimal) <= 2)%nat
  /\ forall key,
       In key (Config.enabledModels optimal) ->
       key = "gemini" \/ key = "finbert" \/ key = "technicalAnalyzer".
Proof.
  intros H optimal. subst optimal. apply String.eqb_eq in H.
  by_flags queryAnalysis; try discriminate;
    cbn [Config.strategy Config.optimalTimeout Config.enabledModels
         firstn app];
    (split; [reflexivity|]); (split; [reflexivity|]);
    (split;
     [eapply Nat.le_trans; [apply filter_shorter | simpl; lia]
     | intros key Hin; apply filter_In in Hin as [Hin _];
       simpl in Hin; intuition auto]).
Qed.

(** X6.  The general-purpose model heads the returned list exactly when
    the configuration has it enabled; when it is disabled, a query with
    no flag set gets the empty list. *)
Theorem gemini_heads_the_list (queryAnalysis : Config.QueryAnalysis) :
  let optimal := Config.getOptimalConfiguration config queryAnalysis in
  (Config.isEnabled config "gemini" = true ->
   exists rest, Config.enabledModels optimal = "gemini" :: rest)
  /\ (Config.isEnabled config "gemini" = false ->
      ~ In "gemini" (Config.enabledModels optimal)
      /\ (Config.isSentimentQuery queryAnalysis = false ->
          Config.isTechnicalQuery queryAnalysis = false ->
          Config.isEducationalQuery queryAnalysis = false ->
          Config.enabledModels optimal = [])).
Proof.
  intros optimal. subst optimal. split.
  - intros H. by_flags queryAnalysis;
      cbn [Config.enabledModels firstn app filter]; rewrite H; eauto.
  - intros H. split.
    + intros Hin.
      destruct (getOptimalConfiguration_selection config queryAnalysis)
        as (selected & E & _).
      rewrite E in Hin. apply filter_In in Hin as [_ Hin]. congruence.
    + intros E1 E2 E3. unfold Config.getOptimalConfiguration.
      rewrite E1, E2, E3.
      destruct (Config.urgency queryAnalysis =? "high"),
               (Config.complexity queryAnalysis =? "high");
        cbn [Config.enabledModels firstn app filter]; now rewrite H.
Qed.

(** X7.  The rules add [finbert] once for each of the three flags
    (sentiment, technical, educational) without looking whether it is
    there already: unless the urgency is high, an enabled [finbert]
    occurs in the returned list once per flag that is set, up to three
    times. *)
Theorem finbert_once_per_flag (queryAnalysis : Config.QueryAnalysis) :
  Config.isEnabled config "finbert" = true ->
  Config.urgency queryAnalysis <> "high" ->
  count_occ string_dec
    (Config.enabledModels (Config.getOptimalConfiguration config queryAnalysis))
    "finbert"
  = (Nat.b2n (Config.isSentimentQuery queryAnalysis)
     + Nat.b2n (Config.isTechnicalQuery queryAnalysis)
     + Nat.b2n (Config.isEducationalQuery queryAnalysis))%nat.
Proof.
  intros H Hu. apply String.eqb_neq in Hu.
  by_flags queryAnalysis; try discriminate;
    cbn [Config.enabledModels firstn app];
    rewrite count_filter, H; reflexivity.
Qed.

End MoreOptimalConfiguration.

(* --------------------------------------------------------------------- *)
(** ** The performance history *)

Section History.

Local Open Scope string_scope.

Import Ranges.

Lemma get_set_same {A : Type} (key : string) (v : A) (d : Dict A) :
  get key (Manager.set key v d) = Some v.
Proof.
  induction d as [|[k x] rest IH]; simpl.
  - now rewrite String.eqb_refl.
  - destruct (k =? key) eqn:E; simpl; rewrite E; [reflexivity | exact IH].
Qed.

Lemma get_set_other {A : Type} (key other : string) (v : A) (d : Dict A) :
  key <> other -> get other (Manager.set key v d) = get other d.
Proof.
  intros Hne. induction d as [|[k x] rest IH]; simpl.
  - apply String.eqb_neq in Hne. now rewrite Hne.
  - destruct (k =? key) eqn:E; simpl.
    + apply String.eqb_eq in E. subst k.
      apply String.eqb_neq in Hne. now rewrite Hne.
    + destruct (k =? other); [reflexivity | exact IH].
Qed.

(** One call: the history of the model gets the record at its end and
    loses its first element when that makes more than 100; the history
    of any other model is as before. *)
Lemma updatePerformanceMetrics_same (this : Manager.AIEnsembleConfigManager)
  (modelName : string) (metrics : Manager.Metrics) :
  historyOf (Manager.updatePerformanceMetrics this modelName metrics) modelName
  = let history := (historyOf this modelName ++ [metrics])%list in
    if Nat.ltb 100 (List.length history) then tl history else history.
Proof.
  unfold historyOf, Manager.updatePerformanceMetrics.
  cbn [Manager.performanceHistory]. rewrite get_set_same.
  destruct (get modelName (Manager.performanceHistory this)) as [h|] eqn:E.
  - now rewrite E.
  - now rewrite get_set_same.
Qed.

Lemma updatePerformanceMetrics_other (this : Manager.AIEnsembleConfigManager)
  (modelName other : string) (metrics : Manager.Metrics) :
  modelName <> other ->
  historyOf (Manager.updatePerformanceMetrics this modelName metrics) other
  = historyOf this other.
Proof.
  intros Hne. unfold historyOf, Manager.updatePerformanceMetrics.
  cbn [Manager.performanceHistory]. rewrite (get_set_other _ _ Hne).
  destruct (get modelName (Manager.performanceHistory this));
    [reflexivity | now rewrite (get_set_other _ _ Hne)].
Qed.

Lemma latest_all {A : Type} (k : nat) (xs : list A) :
  (List.length xs <= k)%nat -> latest k xs = xs.
Proof.
  intros H. unfold latest. replace (List.length xs - k)%nat with 0%nat by lia.
  reflexivity.
Qed.

Lemma latest_length {A : Type} (k : nat) (xs : list A) :
  List.length (latest k xs) = Nat.min k (List.length xs).
Proof. unfold latest. rewrite length_skipn. lia. Qed.

Lemma latest_snoc {A : Type} (k : nat) (xs : list A) (x : A) :
  latest (S k) (xs ++ [x]) = (latest k xs ++ [x])%list.
Proof.
  unfold latest. rewrite length_app. cbn [List.length].
  replace (List.length xs + 1 - S k)%nat with (List.length xs - k)%nat by lia.
  rewrite skipn_app.
  replace (List.length xs - k - List.length xs)%nat with 0%nat by lia.
  reflexivity.
Qed.

Lemma tl_skipn {A : Type} (n : nat) (xs : list A) :
  tl (skipn n xs) = skipn (S n) xs.
Proof.
  revert xs. induction n as [|n IH]; intros [|x xs]; try reflexivity.
  cbn [skipn]. rewrite IH. now destruct xs.
Qed.

(** Appending to the last 100 and trimming gives the last 100. *)
Lemma trim_latest (xs : list Manager.Metrics) (x : Manager.Metrics) :
  (let history := (latest 100 xs ++ [x])%list in
   if Nat.ltb 100 (List.length history) then tl history else history)
  = latest 100 (xs ++ [x]).
Proof.
  cbv zeta. rewrite length_app, latest_length. cbn [List.length].
  rewrite latest_snoc.
  destruct (Nat.ltb_spec 100 (Nat.min 100 (List.length xs) + 1)) as [H|H].
  - assert (Hlen : (100 <= List.length xs)%nat) by lia.
    unfold latest.
    replace (List.length xs - 99)%nat with (S (List.length xs - 100)) by lia.
    rewrite <- tl_skipn.
    destruct (skipn (List.length xs - 100) xs) as [|y ys] eqn:E.
    + apply (f_equal (@List.length _)) in E. rewrite length_skipn in E.
      simpl in E. lia.
    + reflexivity.
  - assert (Hlen : (List.length xs <= 99)%nat) by lia.
    now rewrite !latest_all by lia.
Qed.

Lemma replay_snoc (this : Manager.AIEnsembleConfigManager)
  (log : list (string * Manager.Metrics)) (call : string * Manager.Metrics) :
  replay this (log ++ [call])
  = Manager.updatePerformanceMetrics (replay this log) (fst call) (snd call).
Proof. unfold replay. now rewrite fold_left_app. Qed.

Lemma entriesOf_snoc (modelName : string)
  (log : list (string * Manager.Metrics)) (call : string * Manager.Metrics) :
  entriesOf modelName (log ++ [call])
  = (entriesOf modelName log
     ++ if fst call =? modelName then [snd call] else [])%list.
Proof.
  unfold entriesOf. rewrite filter_app, map_app. cbn [filter].
  now destruct (fst call =? modelName).
Qed.

(** The history kept for a model after a log of calls. *)
Lemma history_latest (initial : Config.AIEnsembleConfig)
  (log : list (string * Manager.Metrics)) (modelName : string) :
  historyOf (replay (Manager.create initial) log) modelName
  = latest 100 (entriesOf modelName log).
Proof.
  induction log as [|call log IH] using rev_ind; [reflexivity|].
  rewrite replay_snoc, entriesOf_snoc.
  destruct (fst call =? modelName) eqn:Ecall.
  - apply String.eqb_eq in Ecall. rewrite Ecall.
    rewrite updatePerformanceMetrics_same, IH. apply trim_latest.
  - apply String.eqb_neq in Ecall.
    rewrite (updatePerformanceMetrics_other _ _ Ecall), IH.
    now rewrite app_nil_r.
Qed.

(** X8.  Whatever calls of [updatePerformanceMetrics] a new manager has
    received, the history it keeps for a model is the last 100 of the
    records filed under that model's name, in the order of the calls: it
    never holds more than 100 records, the oldest are the ones dropped,
    and calls for other models do not touch it. *)
Theorem history_is_latest_hundred (initial : Config.AIEnsembleConfig)
  (log : list (string * Manager.Metrics)) (modelName : string) :
  historyOf (replay (Manager.create initial) log) modelName
  = latest 100 (entriesOf modelName log)
  /\ (List.length (historyOf (replay (Manager.create initial) log) modelName)
      <= 100)%nat.
Proof.
  split; [apply history_latest|].
  rewrite history_latest, latest_length. lia.
Qed.

End History.

(* --------------------------------------------------------------------- *)
(** ** The statistics of a model *)

Section Performance.

Local Open Scope string_scope.

Import Ranges.

Lemma last_skipn {A : Type} (n : nat) (xs : list A) (d : A) :
  (n < List.length xs)%nat -> last (skipn n xs) d = last xs d.
Proof.
  revert xs. induction n as [|n IH]; intros [|x xs] H; simpl in *;
    try reflexivity; try lia.
  rewrite IH by lia. destruct xs; [simpl in H; lia | reflexivity].
Qed.

Lemma last_latest {A : Type} (k : nat) (xs : list A) (d : A) :
  xs <> [] -> last (latest (S k) xs) d = last xs d.
Proof.
  intros Hne. unfold latest. apply last_skipn.
  destruct xs; [contradiction | simpl; lia].
Qed.

Lemma last_nonempty {A : Type} (d d' x : A) (xs : list A) :
  last (x :: xs) d = last (x :: xs) d'.
Proof.
  revert x. induction xs as [|y ys IH]; intros x; [reflexivity|].
  change (last (y :: ys) d = last (y :: ys) d'). apply IH.
Qed.

Lemma last_cons {A : Type} (d x : A) (xs : list A) :
  last (x :: xs) d = last xs x.
Proof.
  destruct xs as [|y ys]; [reflexivity|].
  change (last (y :: ys) d = last (y :: ys) x). apply last_nonempty.
Qed.

Lemma last_map_Some {A : Type} (x : A) (xs : list A) :
  last (map Some (x :: xs)) None = Some (last xs x).
Proof.
  revert x. induction xs as [|y ys IH]; intros x; [reflexivity|].
  change (last (map Some (x :: y :: ys)) None)
    with (last (map Some (y :: ys)) None).
  rewrite IH, <- (last_cons x y ys). reflexivity.
Qed.

(** The statistics are those of the history that is kept: none when it
    is empty or missing. *)
Lemma getModelPerformance_cases (this : Manager.AIEnsembleConfigManager)
  (modelName : string) :
  (historyOf this modelName = []
   /\ Manager.getModelPerformance this modelName
      = Manager.NoData "No performance data available")
  \/ (exists first rest stats,
         get modelName (Manager.performanceHistory this) = Some (first :: rest)
         /\ Manager.getModelPerformance this modelName = Manager.Stats stats
         /\ Manager.totalRequests stats = S (List.length rest)
         /\ Manager.lastUpdated stats = Some (Manager.timestamp (last rest first))
         /\ Manager.successRate stats
            = Rounding.fixed 3
                (of_nat (List.length
                           (filter (Manager.countsAsSuccess this modelName)
                                   (first :: rest)))
                 / of_nat (S (List.length rest)))%num).
Proof.
  unfold historyOf, Manager.getModelPerformance.
  destruct (get modelName (Manager.performanceHistory this)) as [[|m h]|];
    [left; split; reflexivity | | left; split; reflexivity].
  right. exists m, h. eexists. split; [reflexivity|].
  cbn [List.length Nat.eqb]. split; [reflexivity|].
  cbn [Manager.totalRequests Manager.lastUpdated Manager.successRate].
  split; [reflexivity|]. split; [|reflexivity].
  rewrite last_map_Some. reflexivity.
Qed.

(** X9.  After any calls of [updatePerformanceMetrics] on a new manager,
    [getModelPerformance] answers "No performance data available" exactly
    for a model under whose name nothing was recorded; for any other it
    counts the records kept, at most 100, and gives the timestamp of the
    most recent call as [lastUpdated]. *)
Theorem performance_after_calls (initial : Config.AIEnsembleConfig)
  (log : list (string * Manager.Metrics)) (modelName : string) :
  match entriesOf modelName log with
  | [] =>
      Manager.getModelPerformance (replay (Manager.create initial) log) modelName
      = Manager.NoData "No performance data available"
  | first :: rest =>
      exists stats,
        Manager.getModelPerformance (replay (Manager.create initial) log)
                                    modelName
        = Manager.Stats stats
        /\ Manager.totalRequests stats = Nat.min 100 (S (List.length rest))
        /\ Manager.lastUpdated stats
           = Some (Manager.timestamp (last rest first))
  end.
Proof.
  pose proof (history_latest initial log modelName) as Hhistory.
  destruct (getModelPerformance_cases (replay (Manager.create initial) log)
                                      modelName)
    as [[Hempty Hnone] | (m & h & stats & Hget & Hstats & Htotal & Hlast & _)].
  - rewrite Hempty in Hhistory.
    destruct (entriesOf modelName log) as [|first rest]; [exact Hnone|].
    apply (f_equal (@List.length _)) in Hhistory.
    rewrite latest_length in Hhistory. simpl in Hhistory. lia.
  - unfold historyOf in Hhistory. rewrite Hget in Hhistory.
    destruct (entriesOf modelName log) as [|first rest];
      [discriminate Hhistory|].
    exists stats. split; [exact Hstats|]. split.
    + rewrite Htotal.
      apply (f_equal (@List.length _)) in Hhistory.
      rewrite latest_length in Hhistory. exact Hhistory.
    + rewrite Hlast.
      rewrite <- (last_cons first m h), Hhistory, last_latest by discriminate.
      now rewrite last_cons.
Qed.

Lemma countsAsSuccess_always (this : Manager.AIEnsembleConfigManager)
  (modelName : string) (m : Manager.Metrics) :
  Manager.countsAsSuccess this modelName m = true.
Proof.
  unfold Manager.countsAsSuccess.
  destruct (gtb (Manager.confidence m) (Manager.thresholdOf this modelName));
    reflexivity.
Qed.

Lemma filter_all {A : Type} (f : A -> bool) (xs : list A) :
  (forall x, f x = true) -> filter f xs = xs.
Proof.
  intros H. induction xs as [|x xs IH]; simpl; [reflexivity|].
  now rewrite H, IH.
Qed.

(** X10.  Whenever [getModelPerformance] gives statistics, their
    [successRate] is 1, whatever confidences were recorded and whatever
    the model's threshold: the test [m.confidence > threshold || 0.5] of
    the filter holds for every record. *)
Theorem success_rate_is_always_one (this : Manager.AIEnsembleConfigManager)
  (modelName : string) (stats : Manager.PerformanceStats) :
  Manager.getModelPerformance this modelName = Manager.Stats stats ->
  Manager.successRate stats = dec 1.
Proof.
  intros Hstats.
  destruct (getModelPerformance_cases this modelName)
    as [[_ Hnone] | (m & h & stats' & _ & Hstats' & _ & _ & Hrate)];
    [congruence|].
  assert (stats' = stats) as -> by congruence.
  rewrite Hrate, (@filter_all _ _ (m :: h) (countsAsSuccess_always this modelName)).
  cbn [List.length]. unfold of_nat.
  rewrite (div_fin _ (@of_nat_nonzero (List.length h))).
  replace (Q2Qc (inject_Z (Z.of_nat (S (List.length h))))
           / Q2Qc (inject_Z (Z.of_nat (S (List.length h)))))%Qc
    with (Q2Qc 1).
  - num_by_evaluation.
  - change (Q2Qc 1) with 1%Qc. field. apply of_nat_nonzero.
Qed.

End Performance.

(* --------------------------------------------------------------------- *)
(** ** Rounding of the averages *)

Section RoundedAverages.

Local Open Scope Qc_scope.

Import Ranges.

Lemma round_within (q : Qc) :
  within Rounding.half (Rounding.round (Fin q)) (Fin q).
Proof.
  unfold Rounding.round.
  exists (Q2Qc (inject_Z (Qfloor (q + Rounding.half)))), q.
  split; [reflexivity|]. split; [reflexivity|].
  pose proof (Qfloor_le (q + Rounding.half)) as Hlo.
  pose proof (Qlt_floor (q + Rounding.half)) as Hhi.
  rewrite inject_Z_plus in Hhi.
  remember (inject_Z (Qfloor (q + Rounding.half))) as n eqn:En. clear En.
  unfold Rounding.half in *. to_Q. to_Q.
  change (inject_Z 1) with 1%Q in *. split; lra.
Qed.

Lemma nearest_thousandth (m r : Qc) :
  r = Q2Qc (inject_Z (Qfloor (m * Rounding.scale 3 + Rounding.half)))
      / Rounding.scale 3 ->
  r - m <= Q2Qc 0.0005 /\ m - r <= Q2Qc 0.0005.
Proof.
  intros ->.
  pose proof (Qfloor_le (m * Rounding.scale 3 + Rounding.half)) as Hlo.
  pose proof (Qlt_floor (m * Rounding.scale 3 + Rounding.half)) as Hhi.
  rewrite inject_Z_plus in Hhi.
  remember (inject_Z (Qfloor (m * Rounding.scale 3 + Rounding.half))) as n
    eqn:En. clear En.
  unfold Rounding.half, Rounding.scale in *.
  change (inject_Z (10 ^ Z.of_nat 3)) with (inject_Z 1000) in *.
  to_Q. to_Q. unfold Qcinv in *. to_Q.
  change (inject_Z 1000) with 1000%Q in *.
  change (inject_Z 1) with 1%Q in *.
  change (/ 1000)%Q with (1 # 1000)%Q.
  split; lra.
Qed.

Lemma fixed_within (q : Qc) :
  within (Q2Qc 0.0005) (Rounding.fixed 3 (Fin q)) (Fin q).
Proof.
  unfold Rounding.fixed, within.
  destruct (Qcltb q 0) eqn:Esign;
    (match goal with
     | |- context [Qcltb ?m (Rounding.scale 21)] =>
         destruct (Qcltb m (Rounding.scale 21)) eqn:Ebig
     end; clear Esign Ebig;
     [ set (r := (_ / Rounding.scale 3)%Qc);
       eexists; exists q; split; [reflexivity|]; split; [reflexivity|]
     | exists q, q; split; [reflexivity|]; split; [reflexivity|];
       split; to_Q; to_Q; lra ]).
  - destruct (@nearest_thousandth (- q) r eq_refl) as [H1 H2].
    clearbody r. to_Q. to_Q. split; lra.
  - exact (@nearest_thousandth q r eq_refl).
Qed.

Lemma mean_of_history {A : Type} (f : A -> num) (history : list A)
  (qs : list Qc) :
  history <> [] -> map f history = map Fin qs ->
  (fold_left (fun sum m => sum + f m) history (Fin 0)
   / of_nat (List.length history))%num
  = Fin (mean qs).
Proof.
  intros Hne Hqs.
  rewrite (fold_left_map_add f history (Fin 0)), Hqs, fold_add_fin.
  assert (Hlen : List.length history = List.length qs).
  { rewrite <- (length_map f history), Hqs. apply length_map. }
  rewrite Hlen. destruct qs as [|q qs];
    [destruct history; [contradiction | discriminate Hlen]|].
  unfold of_nat. rewrite (div_fin _ (@of_nat_nonzero (List.length qs))).
  unfold mean. f_equal. cbn [List.length]. f_equal. ring.
Qed.

(** X11.  For a history of finite numbers, the [averageResponseTime]
    reported is a whole number at most a half away from the mean of the
    recorded response times, and the [averageConfidence] reported is at
    most 0.0005 away from the mean of the recorded confidences. *)
Theorem averages_are_rounded_means (this : Manager.AIEnsembleConfigManager)
  (modelName : string) (history : list Manager.Metrics) (ts cs : list Qc) :
  get modelName (Manager.performanceHistory this) = Some history ->
  history <> [] ->
  map Manager.responseTime history = map Fin ts ->
  map Manager.confidence history = map Fin cs ->
  exists stats,
    Manager.getModelPerformance this modelName = Manager.Stats stats
    /\ within (Q2Qc 0.5) (Manager.averageResponseTime stats) (Fin (mean ts))
    /\ (exists n : Z,
           Manager.averageResponseTime stats = Fin (Q2Qc (inject_Z n)))
    /\ within (Q2Qc 0.0005) (Manager.averageConfidence stats) (Fin (mean cs)).
Proof.
  intros Hget Hne Hts Hcs.
  unfold Manager.getModelPerformance. rewrite Hget.
  destruct (Nat.eqb (List.length history) 0) eqn:Elen.
  { apply Nat.eqb_eq in Elen. destruct history; [contradiction | discriminate]. }
  eexists. split; [reflexivity|].
  cbn [Manager.averageResponseTime Manager.averageConfidence].
  rewrite (@mean_of_history _ Manager.responseTime history ts Hne Hts).
  rewrite (@mean_of_history _ Manager.confidence history cs Hne Hcs).
  split; [apply round_within|]. split; [|apply fixed_within].
  eexists. reflexivity.
Qed.

End RoundedAverages.

(* --------------------------------------------------------------------- *)
(** ** Validation, import and update of the configuration *)

Section Validation.

Local Open Scope string_scope.

Import Ranges.






(** The answer of [validateConfiguration] depends on the configuration
    alone. *)
Lemma validateConfiguration_config (this other : Manager.AIEnsembleConfigManager) :
  Manager.config this = Manager.config other ->
  Manager.validateConfiguration this = Manager.validateConfiguration other.
Proof. unfold Manager.validateConfiguration. now intros ->. Qed.


(** X13.  [importConfiguration] checks the configuration in force, not
    the one it is given: on a valid manager it accepts a configuration
    that [validateConfiguration] rejects, and from then on it refuses
    every text, also that of a valid configuration. *)
Theorem import_accepts_invalid_then_refuses
  (parse : string -> outcome Config.AIEnsembleConfig)
  (this : Manager.AIEnsembleConfigManager) (configJson : string)
  (newConfig : Config.AIEnsembleConfig) :
  parse configJson = Fulfilled newConfig ->
  Manager.valid (Manager.validateConfiguration this) = true ->
  Manager.valid (Manager.validateConfiguration (Manager.create newConfig))
  = false ->
  let after := snd (Manager.importConfiguration parse this configJson) in
  fst (Manager.importConfiguration parse this configJson) = true
  /\ Manager.getConfiguration after = newConfig
  /\ Manager.performanceHistory after = Manager.performanceHistory this
  /\ forall text, Manager.importConfiguration parse after text = (false, after).
Proof.
  intros Hparse Hvalid Hbad. cbv zeta.
  assert (Himport :
            Manager.importConfiguration parse this configJson
            = (true, {| Manager.config := newConfig;
                        Manager.performanceHistory :=
                          Manager.performanceHistory this |})).
  { unfold Manager.importConfiguration. now rewrite Hparse, Hvalid. }
  rewrite Himport. cbn [fst snd]. repeat split. intros text.
  unfold Manager.importConfiguration.
  rewrite (@validateConfiguration_config
             {| Manager.config := newConfig;
                Manager.performanceHistory := Manager.performanceHistory this |}
             (Manager.create newConfig) eq_refl), Hbad.
  now destruct (parse text).
Qed.

(** X14.  [updateConfiguration] never goes back: the merged
    configuration is in force also when the method answers [false], and
    after such an answer [importConfiguration] refuses every text, so
    that only another update can repair the manager. *)
Theorem failed_update_is_kept
  (this : Manager.AIEnsembleConfigManager) (updates : Manager.PartialConfig)
  (after : Manager.AIEnsembleConfigManager) :
  Manager.updateConfiguration this updates = (false, after) ->
  Manager.getConfiguration after = Manager.merge (Manager.config this) updates
  /\ Manager.valid (Manager.validateConfiguration after) = false
  /\ forall parse text,
       Manager.importConfiguration parse after text = (false, after).
Proof.
  unfold Manager.updateConfiguration. intros H.
  destruct (Manager.valid
              (Manager.validateConfiguration
                 {| Manager.config := Manager.merge (Manager.config this) updates;
                    Manager.performanceHistory :=
                      Manager.performanceHistory this |})) eqn:E;
    cbn [negb] in H; [discriminate H|].
  injection H as <-. split; [reflexivity|]. split; [exact E|].
  intros parse text. unfold Manager.importConfiguration. rewrite E.
  now destruct (parse text).
Qed.

End Validation.

(* --------------------------------------------------------------------- *)
(** ** The enhanced chat route *)

Section EnhancedRoute.

Local Open Scope string_scope.

Import Ranges.

Lemma determineMessageIntent_cases (message : string) :
  In (Route.determineMessageIntent message)
     ["MARKET"; "NEWS"; "INVESTMENT"; "EDUCATION"; "GENERAL"].
Proof.
  unfold Route.determineMessageIntent.
  repeat match goal with
         | |- context [if ?c then _ else _] => destruct c
         end; simpl; auto 6.
Qed.

Lemma intent_sets_no_flag (message : string) :
  Route.queryAnalysisOf (Route.determineMessageIntent message) = plainQuery.
Proof.
  destruct (determineMessageIntent_cases message)
    as [<-|[<-|[<-|[<-|[<-|[]]]]]]; reflexivity.
Qed.

Lemma plain_configuration (config : Config.AIEnsembleConfig) :
  Config.enabledModels (Config.getOptimalConfiguration config plainQuery)
  = (if Config.isEnabled config "gemini" then ["gemini"] else [])
  /\ Config.strategy (Config.getOptimalConfiguration config plainQuery)
     = Config.defaultStrategy config.
Proof. split; reflexivity. Qed.

(** X15.  [determineMessageIntent] answers one of five names in capital
    letters, and none of the words that the handler of [/enhanced] looks
    for in the intent occurs in any of them: for every message the
    handler builds the same [queryAnalysis], with no flag set, complexity
    "medium" and urgency "normal". *)
Theorem intent_never_sets_a_flag (message : string) :
  In (Route.determineMessageIntent message)
     ["MARKET"; "NEWS"; "INVESTMENT"; "EDUCATION"; "GENERAL"]
  /\ Route.queryAnalysisOf (Route.determineMessageIntent message) = plainQuery.
Proof.
  split; [apply determineMessageIntent_cases | apply intent_sets_no_flag].
Qed.

Lemma optionsFor_plain (manager : Manager.AIEnsembleConfigManager)
  (message : string) (aiStrategy : option string) :
  Route.optionsFor manager message aiStrategy
  = {| Engine.useGemini :=
         Some (Config.isEnabled (Manager.config manager) "gemini");
       Engine.useFinancialBert := Some false;
       Engine.useCryptoBert := Some false;
       Engine.useNewsAnalysis := Some false;
       Engine.weightingStrategy :=
         Some (Engine.orString aiStrategy
                 (Config.defaultStrategy (Manager.config manager))) |}.
Proof.
  unfold Route.optionsFor, Manager.getOptimalConfiguration.
  rewrite intent_sets_no_flag. unfold Route.modelOptionsOf.
  destruct (plain_configuration (Manager.config manager)) as [-> ->].
  destruct (Config.isEnabled (Manager.config manager) "gemini"); reflexivity.
Qed.

(** X16.  Whatever the message and the preferences, the options that
    the handler of [/enhanced] passes to the service switch FinBERT,
    CryptoBERT and the news analyzer off: the service dispatches the
    Gemini analyzer, if the configuration enables it, and the technical
    analyzer, and nothing else; the strategy is the one the user prefers
    or else the default strategy of the configuration. *)
Theorem enhanced_route_dispatch (manager : Manager.AIEnsembleConfigManager)
  (message : string) (aiStrategy : option string) (w : World)
  (marketContext : Context) :
  Engine.modelPromises w message marketContext
    (Route.optionsFor manager message aiStrategy)
  = ((if Config.isEnabled (Manager.config manager) "gemini"
      then [getGeminiAnalysis w message marketContext] else [])
     ++ [Engine.getTechnicalAnalysis w message marketContext])%list
  /\ Engine.weightingStrategy (Route.optionsFor manager message aiStrategy)
     = Some (Engine.orString aiStrategy
               (Config.defaultStrategy (Manager.config manager))).
Proof.
  rewrite optionsFor_plain. split; reflexivity.
Qed.

(** The names under which the analyzers answer. *)
Lemma promised_sources (w : World) (query : string) (marketContext : Context)
  (options : Engine.Options) (r : ModelResponse) :
  Service.namesSources w ->
  In (Fulfilled r) (Engine.modelPromises w query marketContext options) ->
  In (source r) Service.sourceNames.
Proof.
  intros (Hgemini & Hfinbert & Hnews & Hcrypto & Htechnical).
  unfold Engine.modelPromises. rewrite !in_app_iff.
  intros [H|[H|[H|[H|H]]]].
  - destruct (Engine.orDefault (Engine.useGemini options) true);
      [|destruct H].
    destruct H as [H|[]]. rewrite (Hgemini _ _ _ H). simpl. auto.
  - destruct (Engine.orDefault (Engine.useFinancialBert options) true);
      [|destruct H].
    destruct H as [H|[]]. rewrite (Hfinbert _ _ _ H). simpl. auto.
  - destruct (Engine.orDefault (Engine.useCryptoBert options) true);
      [|destruct H].
    destruct H as [H|[]]. unfold Engine.getCryptoSentimentAnalysis in H.
    destruct (cryptoBertAttempt w query) eqn:E.
    + injection H as <-. rewrite (Hcrypto _ _ E). simpl. auto.
    + injection H as <-. unfold Engine.getCryptoKeywordAnalysis.
      repeat match goal with
             | |- context [if ?c then _ else _] => destruct c
             end; simpl; auto 10.
  - destruct (Engine.orDefault (Engine.useNewsAnalysis options) true);
      [|destruct H].
    destruct H as [H|[]]. rewrite (Hnews _ _ _ H). simpl. auto.
  - destruct H as [H|[]]. unfold Engine.getTechnicalAnalysis in H.
    destruct marketContext as [context|]; [|discriminate H].
    destruct (match Market.topCoin context with
              | Some coin => Some coin
              | None => hd_error (Market.coins context)
              end) as [coin|].
    + destruct (technicalAnalyzerAttempt w coin query) eqn:E.
      * injection H as <-. rewrite (Htechnical _ _ _ E). simpl. auto 10.
      * injection H as <-. simpl. auto 10.
    + injection H as <-. simpl. auto 10.
Qed.

Lemma contribution_sources (apiKey : string) (w : World) (query : string)
  (marketContext : Context) (options : Engine.Options)
  (result : EnsembleResponse) :
  Service.namesSources w ->
  Engine.generateEnsembleResponse apiKey w query marketContext options
  = Fulfilled result ->
  Forall (fun r => In (source r) Service.sourceNames)
         (modelContributions result).
Proof.
  intros Hnames Hresult.
  destruct (String.eqb apiKey "") eqn:Ekey.
  - apply String.eqb_eq in Ekey. subst apiKey.
    rewrite generate_unconfigured in Hresult. injection Hresult as <-.
    constructor.
  - apply String.eqb_neq in Ekey.
    rewrite (generate_configured w query marketContext options Ekey) in Hresult.
    injection Hresult as <-.
    assert (Hall : Forall (fun r => In (source r) Service.sourceNames)
                     (Engine.succeeded
                        (Engine.modelPromises w query marketContext options))).
    { apply Forall_forall. intros r Hin. apply succeeded_In in Hin.
      exact (@promised_sources w query marketContext options r Hnames Hin). }
    destruct (Engine.succeeded _) as [|r rest]; [constructor | exact Hall].
Qed.

(** No name of a source is a key of the table of models. *)
Lemma source_is_no_key (name key : string) :
  In name Service.sourceNames ->
  In key (map fst (Config.models Config.AI_ENSEMBLE_CONFIG)) ->
  name <> key.
Proof.
  simpl. intros Hname Hkey.
  repeat match goal with
         | H : _ \/ _ |- _ => destruct H as [H|H]
         | H : False |- _ => destruct H
         end; subst; discriminate.
Qed.

(** Recording under the names of sources leaves alone the histories
    filed under the keys of the table. *)
Lemma recordPerformance_other (manager : Manager.AIEnsembleConfigManager)
  (contributions : list ModelResponse) (now : num) (key : string) :
  Forall (fun r => source r <> key) contributions ->
  historyOf (Route.recordPerformance manager contributions now) key
  = historyOf manager key.
Proof.
  unfold Route.recordPerformance. intros Hall. revert manager.
  induction Hall as [|r rest Hr _ IH]; intros manager; [reflexivity|].
  cbn [fold_left]. rewrite IH. now apply updatePerformanceMetrics_other.
Qed.

Lemma enhanced_other (apiKey : string)
  (manager : Manager.AIEnsembleConfigManager) (request : Route.Request)
  (key : string) :
  Service.namesSources (Route.world request) ->
  In key (map fst (Config.models Config.AI_ENSEMBLE_CONFIG)) ->
  historyOf (Route.enhanced apiKey manager request) key
  = historyOf manager key.
Proof.
  intros Hnames Hkey. unfold Route.enhanced.
  destruct (Route.message request =? ""); [reflexivity|].
  destruct (Route.gathered request) as [marketContext|]; [|reflexivity].
  destruct (Engine.generateEnsembleResponse _ _ _ _ _) as [result|] eqn:E;
    [|reflexivity].
  apply recordPerformance_other.
  eapply Forall_impl; [|exact (@contribution_sources _ _ _ _ _ _ Hnames E)].
  intros r Hr. exact (source_is_no_key Hr Hkey).
Qed.

(** X17.  The handler of [/enhanced] files its records under the names
    of the sources ("Gemini-2.0-Flash", "FinBERT", ...), while the
    performance endpoint asks [getModelPerformance] for the keys of the
    table of models ("gemini", "finbert", ...): whatever requests the
    shipped manager has served, with analyzers that answer under their
    own names, the statistics of every key of the table are
    "No performance data available". *)
Theorem performance_endpoint_has_no_data (apiKey : string)
  (requests : list Route.Request) (key : string) :
  Forall (fun request => Service.namesSources (Route.world request)) requests ->
  In key (map fst (Config.models
                     (Manager.getConfiguration Manager.aiConfigManager))) ->
  Manager.getModelPerformance
    (fold_left (Route.enhanced apiKey) requests Manager.aiConfigManager) key
  = Manager.NoData "No performance data available".
Proof.
  intros Hnames Hkey.
  assert (Hempty :
            historyOf (fold_left (Route.enhanced apiKey) requests
                                 Manager.aiConfigManager) key = []).
  { assert (Hstart : historyOf Manager.aiConfigManager key = [])
      by reflexivity.
    revert Hstart. generalize Manager.aiConfigManager.
    induction Hnames as [|request rest Hrequest _ IH]; intros manager Hstart;
      [exact Hstart|].
    cbn [fold_left]. apply IH.
    now rewrite (enhanced_other apiKey manager request Hrequest Hkey). }
  destruct (getModelPerformance_cases
              (fold_left (Route.enhanced apiKey) requests
                         Manager.aiConfigManager) key)
    as [[_ Hnone] | (m & h & stats & Hget & _)]; [exact Hnone|].
  unfold historyOf in Hempty. rewrite Hget in Hempty. discriminate Hempty.
Qed.

End EnhancedRoute.

(* --------------------------------------------------------------------- *)
(** ** The consensus score of confidences between 0 and 1 *)

Section ConsensusBounds.

Local Open Scope Qc_scope.

Import Ranges.

Lemma confidences_in_unit (responses : list ModelResponse) :
  Forall confidenceInUnit responses ->
  exists cs,
    map confidence responses = map Fin cs
    /\ Forall (fun c => 0 <= c /\ c <= 1) cs.
Proof.
  induction 1 as [|r rs (c & Hc & Hlo & Hhi) _ (cs & Hcs & Hall)].
  - exists []. split; constructor.
  - exists (c :: cs). cbn [map]. rewrite Hc, Hcs.
    split; [reflexivity | now constructor].
Qed.

(** The squared deviations from any [m], and the products [c (1 - c)],
    add up to [S - 2 m S + n m^2]. *)
Lemma deviations_identity (cs : list Qc) (m : Qc) :
  Qcsum (map (fun c => (c - m) * (c - m)) cs)
  + Qcsum (map (fun c => c * (1 - c)) cs)
  = Qcsum cs - (1 + 1) * m * Qcsum cs
    + Q2Qc (inject_Z (Z.of_nat (List.length cs))) * m * m.
Proof.
  induction cs as [|c cs IH].
  - simpl. apply Qc_is_canon. to_Q. to_Q. simpl. ring.
  - cbn [map Qcsum List.length]. rewrite of_nat_S.
    transitivity
      ((c - m) * (c - m) + c * (1 - c)
       + (Qcsum (map (fun c => (c - m) * (c - m)) cs)
          + Qcsum (map (fun c => c * (1 - c)) cs))); [ring|].
    rewrite IH. ring.
Qed.

Lemma products_nonneg (cs : list Qc) :
  Forall (fun c => 0 <= c /\ c <= 1) cs ->
  0 <= Qcsum (map (fun c => c * (1 - c)) cs).
Proof.
  induction 1 as [|c cs [Hlo Hhi] _ IH]; [apply Qcle_refl|].
  cbn [map Qcsum].
  remember (Qcsum (map (fun c => c * (1 - c)) cs)) as rest eqn:E. clear E.
  to_Q. to_Q. nra.
Qed.

Lemma squares_nonneg (cs : list Qc) (m : Qc) :
  0 <= Qcsum (map (fun c => (c - m) * (c - m)) cs).
Proof.
  induction cs as [|c cs IH]; [apply Qcle_refl|].
  cbn [map Qcsum].
  remember (Qcsum (map (fun c => (c - m) * (c - m)) cs)) as rest eqn:E. clear E.
  remember (c - m) as d eqn:Ed. clear Ed.
  to_Q. to_Q. nra.
Qed.

(** The variance of numbers between 0 and 1 is between 0 and 1/4. *)
Lemma variance_in_unit (cs : list Qc) :
  cs <> [] -> Forall (fun c => 0 <= c /\ c <= 1) cs ->
  0 <= variance cs /\ variance cs <= Q2Qc 0.25.
Proof.
  intros Hne Hall. unfold variance.
  destruct (length_nonzero Hne) as [k Hk]. rewrite Hk.
  pose proof (of_nat_pos k) as Hn.
  pose proof (squares_nonneg cs (mean cs)) as Hsq.
  pose proof (products_nonneg Hall) as Hprod.
  pose proof (deviations_identity cs (mean cs)) as Hid.
  assert (Hmean : Qcsum cs = Q2Qc (inject_Z (Z.of_nat (S k))) * mean cs).
  { unfold mean. rewrite Hk. field. now apply positive_nonzero. }
  rewrite Hk, Hmean in Hid.
  remember (Qcsum (map (fun c => (c - mean cs) * (c - mean cs)) cs)) as V
    eqn:EV. clear EV.
  remember (Qcsum (map (fun c => c * (1 - c)) cs)) as P eqn:EP. clear EP.
  remember (mean cs) as m eqn:Em. clear Em Hmean.
  remember (Q2Qc (inject_Z (Z.of_nat (S k)))) as n eqn:En. clear En.
  assert (Hbound : V <= n * Q2Qc 0.25).
  { assert (HV : V = n * (m * (1 - m)) - P).
    { transitivity (V + P - P); [ring|]. rewrite Hid. ring. }
    rewrite HV. clear HV Hid Hsq.
    assert (Hm : m * (1 - m) <= Q2Qc 0.25).
    { clear.
      assert (Hsq : forall d : Q, (0 <= d * d)%Q) by (intros d; nra).
      specialize (Hsq (m - 0.5)%Q). to_Q. to_Q. lra. }
    remember (m * (1 - m)) as t eqn:Et. clear Et.
    to_Q. to_Q. nra. }
  clear Hid. split.
  - unfold Qcdiv, Qcmult, Qcinv, Qcle, Qclt in *. cbn [this Q2Qc] in *.
    rewrite ?Qred_correct in *.
    apply Qmult_le_0_compat; [exact Hsq|].
    apply Qlt_le_weak. now apply Qinv_lt_0_compat.
  - unfold Qcdiv, Qcmult, Qcinv, Qcle, Qclt in *. cbn [this Q2Qc] in *.
    rewrite ?Qred_correct in *.
    apply Qle_shift_div_r; [exact Hn|]. lra.
Qed.

(** X18.  On two or more responses whose confidences lie between 0 and
    1, [calculateConsensusScore] lies between 0.75 and 0.95: the variance
    of such confidences is at most 1/4, so the lower clamp at 0.1 is never
    reached. *)
Theorem consensus_of_unit_confidences (responses : list ModelResponse) :
  (2 <= List.length responses)%nat ->
  Forall confidenceInUnit responses ->
  le (dec 0.75) (Engine.calculateConsensusScore responses)
  /\ le (Engine.calculateConsensusScore responses) (dec 0.95).
Proof.
  intros Hlen Hall.
  destruct (confidences_in_unit Hall) as (cs & Hcs & Hunit).
  rewrite (consensus_formula responses cs Hcs Hlen).
  assert (Hne : cs <> []).
  { intros ->. destruct responses; [simpl in Hlen; lia | discriminate Hcs]. }
  destruct (variance_in_unit Hne Hunit) as [Hlo Hhi].
  remember (variance cs) as v eqn:Ev. clear Ev.
  unfold dec, min, ltb.
  destruct (Qcltb (1 - v) (Q2Qc 0.95)) eqn:Ecap; unfold max, ltb.
  - apply Qcltb_true in Ecap.
    destruct (Qcltb (Q2Qc 0.1) (1 - v)) eqn:Efloor; simpl.
    + split; to_Q; to_Q; lra.
    + apply Qcltb_false in Efloor. exfalso. to_Q. to_Q. lra.
  - replace (Qcltb (Q2Qc 0.1) (Q2Qc 0.95)) with true by reflexivity.
    simpl. split; to_Q; to_Q; lra.
Qed.

Lemma variance_of_equals (c : Qc) (n : nat) :
  variance (repeat c (S n)) = 0.
Proof.
  unfold variance.
  assert (Hmean : mean (repeat c (S n)) = c).
  { unfold mean. rewrite Qcsum_repeat, repeat_length. field.
    apply of_nat_nonzero. }
  rewrite Hmean, repeat_length.
  assert (Hzero : map (fun x => (x - c) * (x - c)) (repeat c (S n))
                  = repeat 0 (S n)).
  { rewrite (@map_constant _ _ (fun x => (x - c) * (x - c)) 0);
      [now rewrite repeat_length|].
    apply Forall_forall. intros x Hx. apply repeat_spec in Hx. subst x. ring. }
  rewrite Hzero, Qcsum_repeat. field. apply of_nat_nonzero.
Qed.

(** X19.  Two or more responses with one and the same finite confidence
    have consensus score 0.95, the cap: the score never says more than
    that the confidences agree, whatever they are. *)
Theorem consensus_of_equal_confidences (responses : list ModelResponse)
  (c : Qc) :
  (2 <= List.length responses)%nat ->
  Forall (fun r => confidence r = Fin c) responses ->
  Engine.calculateConsensusScore responses = dec 0.95.
Proof.
  intros Hlen Hall.
  assert (Hcs : map confidence responses
                = map Fin (repeat c (List.length responses))).
  { rewrite (map_constant confidence Hall).
    clear. induction (List.length responses) as [|n IH]; [reflexivity|].
    simpl. now rewrite IH. }
  rewrite (consensus_formula responses _ Hcs Hlen).
  destruct (List.length responses) as [|n]; [lia|].
  rewrite variance_of_equals. num_by_evaluation.
Qed.

End ConsensusBounds.

(* --------------------------------------------------------------------- *)
(** ** The average confidence of a batch of remote answers *)

Section AverageConfidence.

Local Open Scope string_scope.

Lemma scoreOf_rejected (r : json) :
  (exists message, Service.scoreOf r = Rejected message) <-> r = JNull.
Proof.
  split.
  - intros [message H]. destruct r; try reflexivity; unfold Service.scoreOf in H;
      repeat match type of H with
             | context [if ?c then _ else _] => destruct c
             end; discriminate H.
  - intros ->. eexists. reflexivity.
Qed.

Lemma mapScores_cases (results : list json) :
  match Service.mapScores results with
  | Rejected _ => In JNull results
  | Fulfilled _ => ~ In JNull results
  end.
Proof.
  induction results as [|r rest IH]; cbn [Service.mapScores].
  - intros [].
  - destruct (Service.scoreOf r) as [c|message] eqn:E.
    + assert (Hr : r <> JNull).
      { intros ->. discriminate E. }
      destruct (Service.mapScores rest).
      * intros [H|H]; [now apply Hr | now apply IH].
      * now right.
    + left. apply (proj1 (scoreOf_rejected r)). eauto.
Qed.

Lemma positiveNumbers_positive (values : list (option json)) :
  Forall (fun c => lt (Fin 0) c) (Service.positiveNumbers values).
Proof.
  induction values as [|[[| |c| | |]|] rest IH]; cbn [Service.positiveNumbers];
    try exact IH; try constructor.
  destruct (gtb c (Fin 0)) eqn:E; [constructor; assumption | exact IH].
Qed.

Lemma add_positive (x y : num) :
  x = Fin 0 \/ lt (Fin 0) x -> lt (Fin 0) y -> lt (Fin 0) (add x y).
Proof.
  unfold lt. intros [->|Hx] Hy.
  - destruct y; try discriminate Hy; try reflexivity.
    simpl in *. apply Qcltb_true in Hy. apply Qcltb_true.
    to_Q. to_Q. lra.
  - destruct x, y; try discriminate Hx; try discriminate Hy; try reflexivity.
    simpl in *. apply Qcltb_true in Hx, Hy. apply Qcltb_true.
    to_Q. to_Q. lra.
Qed.

Lemma fold_add_positive (cs : list num) (acc : num) :
  cs <> [] -> Forall (fun c => lt (Fin 0) c) cs ->
  acc = Fin 0 \/ lt (Fin 0) acc ->
  lt (Fin 0) (fold_left (fun a b => add a b) cs acc).
Proof.
  intros Hne Hall. revert acc Hne.
  induction Hall as [|c cs Hc Hall IH]; intros acc Hne Hacc; [contradiction|].
  cbn [fold_left]. destruct cs as [|c' cs'].
  - simpl. now apply add_positive.
  - apply IH; [discriminate|]. right. now apply add_positive.
Qed.

Lemma div_positive (x : num) (n : nat) :
  lt (Fin 0) x -> lt (Fin 0) (div x (of_nat (S n))).
Proof.
  unfold lt, of_nat. intros Hx.
  pose proof (of_nat_pos n) as Hn.
  destruct x as [a| | |]; try discriminate Hx.
  - rewrite div_fin by now apply positive_nonzero.
    simpl in *. apply Qcltb_true in Hx. apply Qcltb_true.
    now apply Qcdiv_positive.
  - assert (E : Qcltb (Q2Qc (inject_Z (Z.of_nat (S n)))) 0 = false).
    { apply Qcltb_false. now apply Qclt_le_weak. }
    cbn [div]. now rewrite E.
Qed.

(** X20.  [calculateAverageConfidence] throws exactly when one of the
    results is [null]; otherwise it returns a number above 0 (never 0,
    never [NaN]), whatever the results hold: scores that are missing, not
    numbers or not positive are left out, and 0.5 stands in when none is
    left. *)
Theorem average_confidence_is_positive (results : list json) :
  match Service.calculateAverageConfidence results with
  | Rejected _ => In JNull results
  | Fulfilled c => ~ In JNull results /\ lt (Fin 0) c
  end.
Proof.
  unfold Service.calculateAverageConfidence.
  pose proof (mapScores_cases results) as Hcases.
  destruct (Service.mapScores results) as [values|message]; [|exact Hcases].
  split; [exact Hcases|].
  pose proof (positiveNumbers_positive values) as Hall.
  destruct (Service.positiveNumbers values) as [|c cs] eqn:E;
    [reflexivity|].
  cbn [List.length Nat.ltb Nat.leb]. apply div_positive.
  apply fold_add_positive; [discriminate | exact Hall | now left].
Qed.

End AverageConfidence.

(* --------------------------------------------------------------------- *)
(** ** A request with a market context *)

Section WithContext.

Local Open Scope string_scope.





End WithContext.

(* --------------------------------------------------------------------- *)
(** ** InvestmentAnalysisService: scores, allocation and risk *)

Section InvestmentScores.

Local Open Scope string_scope.

Import Ranges.

Ltac whole_by_evaluation :=
  first [ exists 3%Z; split; [lia | num_by_evaluation]
        | exists 4%Z; split; [lia | num_by_evaluation]
        | exists 5%Z; split; [lia | num_by_evaluation]
        | exists 6%Z; split; [lia | num_by_evaluation]
        | exists 7%Z; split; [lia | num_by_evaluation]
        | exists 8%Z; split; [lia | num_by_evaluation] ].

(** X22.  The technical score is a whole number from 3 to 8 and the
    fundamental score a whole number from 4 to 8, whatever the numbers
    they are computed from ([NaN] and the infinities included): the
    clamping to [0, 10] at the end of the two methods never changes the
    score. *)
Theorem scores_are_whole_numbers :
  (forall technical,
      exists n : Z,
        (3 <= n <= 8)%Z
        /\ Investment.calculateTechnicalScore technical
           = Fin (Q2Qc (inject_Z n)))
  /\ (forall c,
         exists n : Z,
           (4 <= n <= 8)%Z
           /\ Investment.calculateFundamentalScore c
              = Fin (Q2Qc (inject_Z n))).
Proof.
  split.
  - intros [technical|]; [|exists 5%Z; split; [lia | num_by_evaluation]].
    unfold Investment.calculateTechnicalScore.
    destruct (gtb (Investment.rsi technical) (dec 70));
      destruct (ltb (Investment.rsi technical) (dec 30));
      destruct (gtb (Investment.value (Investment.macd technical))
                    (Investment.signal (Investment.macd technical)));
      destruct (gtb (Investment.volume technical) (dec 1000000000));
      whole_by_evaluation.
  - intros c. unfold Investment.calculateFundamentalScore.
    destruct (gtb (Investment.marketCap c) (dec 100000000000));
      destruct (gtb (Investment.marketCap c) (dec 10000000000));
      destruct (gtb (Investment.volume24h c)
                    (Investment.marketCap c * dec 0.1)%num);
      whole_by_evaluation.
Qed.

Local Open Scope Qc_scope.

(** The bonus that [calculateSentimentScore] adds for a confidence
    between 0 and 1. *)
Lemma confidence_bonus (c : Qc) :
  0 <= c -> c <= 1 ->
  exists b,
    (if truthy (Fin c) then Fin c else dec 0.5) = Fin b
    /\ 0 < b /\ b <= 1 /\ (c = 0 -> b = Q2Qc 0.5).
Proof.
  intros Hlo Hhi. unfold truthy. destruct (Qceqb c 0) eqn:E; cbn [negb].
  - exists (Q2Qc 0.5). repeat split; to_Q; to_Q; lra.
  - apply Qceqb_false in E. exists c. repeat split; try assumption.
    + destruct (Qcle_lt_or_eq _ _ Hlo) as [H|H]; [exact H | congruence].
    + intros H. contradiction.
Qed.

Lemma capped_score (base b : Qc) :
  base <= Q2Qc 7.5 -> b <= 1 ->
  min (dec 10) (Fin base + Fin b * dec 2)%num = Fin (base + b * Q2Qc 2).
Proof.
  intros Hbase Hb. unfold dec. cbn [mul add]. unfold min, ltb.
  assert (E : Qcltb (base + b * Q2Qc 2) (Q2Qc 10) = true).
  { apply Qcltb_true. to_Q. to_Q. lra. }
  now rewrite E.
Qed.

(** X23.  For a sentiment whose confidence lies between 0 and 1 the
    sentiment score lies in a band of width 2 above the base score of its
    label: above 7.5 up to 9.5 for "positive", above 2.5 up to 4.5 for
    "negative", above 5 up to 7 for any other label.  The cap at 10 is
    not reached, and a confidence of 0 scores as a confidence of 0.5. *)
Theorem sentiment_score_bands (s : Investment.SentimentResult) (c : Qc) :
  Investment.confidence s = Fin c -> 0 <= c -> c <= 1 ->
  (exists q,
      Investment.calculateSentimentScore (Some s) = Fin q
      /\ (if String.eqb (Investment.sentiment s) "positive"
          then Q2Qc 7.5 < q /\ q <= Q2Qc 9.5
          else if String.eqb (Investment.sentiment s) "negative"
               then Q2Qc 2.5 < q /\ q <= Q2Qc 4.5
               else Q2Qc 5 < q /\ q <= Q2Qc 7))
  /\ (c = 0 ->
      Investment.calculateSentimentScore (Some s)
      = Investment.calculateSentimentScore
          (Some {| Investment.sentiment := Investment.sentiment s;
                   Investment.confidence := dec 0.5 |})).
Proof.
  intros Hc Hlo Hhi. split.
  - unfold Investment.calculateSentimentScore. rewrite Hc.
    destruct (confidence_bonus Hlo Hhi) as (b & -> & Hb0 & Hb1 & _).
    destruct (String.eqb (Investment.sentiment s) "positive");
      [|destruct (String.eqb (Investment.sentiment s) "negative")].
    + exists (Q2Qc 7.5 + b * Q2Qc 2). split.
      * apply capped_score; [apply Qcle_refl | exact Hb1].
      * split; to_Q; to_Q; lra.
    + exists (Q2Qc 2.5 + b * Q2Qc 2). split.
      * apply capped_score; [to_Q; to_Q; lra | exact Hb1].
      * split; to_Q; to_Q; lra.
    + exists (Q2Qc 5 + b * Q2Qc 2). split.
      * apply capped_score; [to_Q; to_Q; lra | exact Hb1].
      * split; to_Q; to_Q; lra.
  - intros ->. unfold Investment.calculateSentimentScore.
    cbn [Investment.sentiment Investment.confidence]. rewrite Hc.
    reflexivity.
Qed.

(** X24.  The risk level depends on the coin alone: it is "high" exactly
    when the market capitalisation is below 1e9 and the price moved by
    more than 10 percent, "low" when neither holds and "medium" when one
    of the two holds; the point that a technical volatility above 15
    adds never changes the level. *)
Theorem risk_level_ignores_technical (c : Investment.Coin)
  (technical : option Investment.TechnicalAnalysisData) :
  Investment.assessRiskLevel c technical = Investment.assessRiskLevel c None
  /\ Investment.assessRiskLevel c technical
     = (let small := ltb (Investment.marketCap c) (dec 1000000000) in
        let volatile := gtb (abs (Investment.priceChange24h c)) (dec 10) in
        if andb small volatile then "high"
        else if orb small volatile then "medium"
        else "low")%string.
Proof.
  unfold Investment.assessRiskLevel.
  destruct (ltb (Investment.marketCap c) (dec 1000000000));
    destruct (gtb (abs (Investment.priceChange24h c)) (dec 10));
    destruct technical as [technical|];
    try destruct (gtb (Investment.volatility technical) (dec 15));
    split; reflexivity.
Qed.

(** [Math.round] of a number that is not negative. *)
Lemma round_of_nonneg (x : Qc) :
  0 <= x ->
  exists r,
    Rounding.round (Fin x) = Fin r
    /\ 0 <= r /\ r <= x + Q2Qc 0.5
    /\ exists n : Z, r = Q2Qc (inject_Z n).
Proof.
  intros Hx. unfold Rounding.round.
  exists (Q2Qc (inject_Z (Qfloor (x + Rounding.half)))).
  split; [reflexivity|].
  assert (Hfloor : (0 <= Qfloor (x + Rounding.half))%Z).
  { rewrite <- (Qfloor_Z 0). apply Qfloor_resp_le.
    unfold Rounding.half. to_Q. to_Q. change (inject_Z 0) with 0%Q. lra. }
  pose proof (Qfloor_le (x + Rounding.half)) as Hle.
  rewrite Zle_Qle in Hfloor.
  remember (inject_Z (Qfloor (x + Rounding.half))) as n eqn:En.
  split; [|split].
  - clear Hle. to_Q. to_Q. exact Hfloor.
  - unfold Rounding.half in Hle. clear Hfloor En. to_Q. to_Q. lra.
  - subst n. eexists. reflexivity.
Qed.

(** X25.  For an amount that is not negative, the allocation of a coin
    is a whole number of dollars between 0 and 48 percent of the amount
    (plus the half that rounding can add), whatever the three scores and
    the risk tolerance. *)
Theorem allocation_is_bounded (sentimentScore technicalScore fundamentalScore : num)
  (riskTolerance : string) (amount : Qc) :
  0 <= amount ->
  exists q,
    Investment.calculateAllocation sentimentScore technicalScore
      fundamentalScore riskTolerance (Fin amount) = Fin q
    /\ 0 <= q /\ q <= Q2Qc 0.48 * amount + Q2Qc 0.5
    /\ exists n : Z, q = Q2Qc (inject_Z n).
Proof.
  intros Hamount. unfold Investment.calculateAllocation.
  assert (Hround : forall b m : Qc,
             0 <= b -> 0 <= m -> b * m <= Q2Qc 0.48 ->
             exists q,
               Rounding.round (Fin amount * Fin b * Fin m)%num = Fin q
               /\ 0 <= q /\ q <= Q2Qc 0.48 * amount + Q2Qc 0.5
               /\ exists n : Z, q = Q2Qc (inject_Z n)).
  { intros b m Hb Hm Hbm. cbn [mul].
    assert (Hk : 0 <= b * m) by (to_Q; to_Q; now apply Qmult_le_0_compat).
    rewrite <- Qcmult_assoc.
    remember (b * m) as k eqn:Ek. clear Ek Hb Hm.
    assert (H0 : 0 <= amount * k)
      by (to_Q; to_Q; now apply Qmult_le_0_compat).
    destruct (round_of_nonneg H0) as (r & Hr & Hr0 & Hr1 & Hn).
    exists r. split; [exact Hr|]. split; [exact Hr0|]. split; [|exact Hn].
    apply (Qcle_trans _ _ _ Hr1). clear Hr Hr0 Hr1 Hn H0.
    to_Q. to_Q. nra. }
  assert (Hzero : exists q,
             dec 0 = Fin q /\ 0 <= q /\ q <= Q2Qc 0.48 * amount + Q2Qc 0.5
             /\ exists n : Z, q = Q2Qc (inject_Z n)).
  { exists (Q2Qc 0). split; [reflexivity|]. split; [apply Qcle_refl|].
    split; [to_Q; to_Q; lra | exists 0%Z; reflexivity]. }
  destruct (Investment.geb _ (dec 7));
    [|destruct (Investment.geb _ (dec 6));
      [|destruct (Investment.geb _ (dec 5)); [|exact Hzero]]];
    (destruct (String.eqb riskTolerance "aggressive");
     [|destruct (String.eqb riskTolerance "conservative")]);
    apply Hround; to_Q; to_Q; lra.
Qed.

Lemma rounds_total (xs : list Qc) :
  exists rs,
    map Rounding.round (map Fin xs) = map Fin rs
    /\ Qcsum rs - Qcsum xs
       <= Q2Qc (inject_Z (Z.of_nat (List.length xs))) * Q2Qc 0.5
    /\ Qcsum xs - Qcsum rs
       <= Q2Qc (inject_Z (Z.of_nat (List.length xs))) * Q2Qc 0.5.
Proof.
  induction xs as [|x xs (rs & Hrs & Hup & Hdown)].
  - exists []. split; [reflexivity|]. cbn [Qcsum List.length].
    change (Z.of_nat 0) with 0%Z.
    split; to_Q; to_Q; change (inject_Z 0) with 0%Q; lra.
  - destruct (round_within x) as (a & b & Ha & Hb & H1 & H2).
    injection Hb as <-.
    exists (a :: rs). cbn [map]. rewrite Hrs, Ha. split; [reflexivity|].
    cbn [Qcsum List.length]. rewrite of_nat_S.
    remember (Q2Qc (inject_Z (Z.of_nat (List.length xs)))) as n eqn:En.
    clear En. unfold Rounding.half in *.
    remember (Qcsum rs) as R eqn:ER. remember (Qcsum xs) as X eqn:EX.
    clear ER EX Hrs Ha.
    split; to_Q; to_Q; lra.
Qed.

Lemma Qcsum_times (qs : list Qc) (t : Qc) :
  Qcsum (map (fun q => q * t) qs) = Qcsum qs * t.
Proof.
  induction qs as [|q qs IH]; simpl; [ring | rewrite IH; ring].
Qed.

(** X26.  [normalizeAllocations] leaves allocations alone that add up
    to the amount or less.  Allocations of finite numbers that add up to
    more are scaled and rounded one by one, so their new total is the
    amount only up to half a dollar per recommendation. *)
Theorem normalised_allocations_total
  (recommendations : list Investment.InvestmentRecommendation)
  (allocations : list Qc) (amount : Qc) :
  map Investment.allocation recommendations = map Fin allocations ->
  0 <= amount ->
  (Qcsum allocations <= amount ->
   Investment.normalizeAllocations recommendations (Fin amount)
   = recommendations)
  /\ (amount < Qcsum allocations ->
      within
        (Q2Qc (inject_Z (Z.of_nat (List.length recommendations))) * Q2Qc 0.5)
        (sum (map Investment.allocation
                  (Investment.normalizeAllocations recommendations
                                                   (Fin amount))))
        (Fin amount)).
Proof.
  intros Hqs Hamount. unfold Investment.normalizeAllocations.
  rewrite (fold_left_map_add Investment.allocation recommendations (Fin 0)).
  rewrite Hqs, fold_add_fin.
  replace (0 + Qcsum allocations) with (Qcsum allocations) by ring.
  unfold gtb, ltb. split; intros Htotal.
  - apply Qcltb_false in Htotal. now rewrite Htotal.
  - assert (Hnonzero : Qcsum allocations <> 0).
    { apply positive_nonzero. exact (Qcle_lt_trans _ _ _ Hamount Htotal). }
    apply Qcltb_true in Htotal. rewrite Htotal, (div_fin _ Hnonzero).
    rewrite map_map. cbn [Investment.withAllocation Investment.allocation].
    rewrite <- (map_map Investment.allocation
                  (fun a => Rounding.round (a * Fin (amount / Qcsum allocations))%num)).
    rewrite Hqs, map_map. cbn [mul].
    rewrite <- (map_map (fun q => q * (amount / Qcsum allocations))
                        (fun x => Rounding.round (Fin x))).
    rewrite <- (map_map Fin Rounding.round).
    destruct (rounds_total
                (map (fun q => q * (amount / Qcsum allocations)) allocations))
      as (rs & Hrs & Hup & Hdown).
    rewrite Hrs, sum_fin.
    rewrite Qcsum_times in Hup, Hdown. rewrite length_map in Hup, Hdown.
    assert (Hlen : List.length allocations = List.length recommendations).
    { rewrite <- (length_map Fin allocations), <- Hqs. apply length_map. }
    rewrite Hlen in Hup, Hdown.
    assert (Hscaled : Qcsum allocations * (amount / Qcsum allocations)
                      = amount) by (field; exact Hnonzero).
    rewrite Hscaled in Hup, Hdown.
    exists (Qcsum rs), amount. repeat split; assumption.
Qed.

(** X27.  The value that [calculateRSI] draws between 30 and 70 never
    counts: for the analysis that [generateTechnicalAnalysis] builds for
    a coin, the technical score is 5, plus 1 if the price went up and
    minus 1 otherwise, plus 1 if the volume is above 1e9, whatever the
    number drawn. *)
Theorem drawn_rsi_never_counts (c : Investment.Coin) (random : Qc) :
  0 <= random -> random < 1 ->
  Investment.calculateTechnicalScore
    (Some (Investment.technicalOf (Fin random) c))
  = (if gtb (Investment.priceChange24h c) (dec 0)
     then (if gtb (Investment.volume24h c) (dec 1000000000)
           then dec 7 else dec 6)
     else (if gtb (Investment.volume24h c) (dec 1000000000)
           then dec 5 else dec 4)).
Proof.
  intros Hlo Hhi. unfold Investment.calculateTechnicalScore.
  cbn [Investment.technicalOf Investment.rsi Investment.macd Investment.value
       Investment.signal Investment.volume].
  assert (Hover : gtb (Investment.calculateRSI (Fin random)) (dec 70) = false).
  { unfold Investment.calculateRSI, dec, gtb. cbn [sub neg add mul ltb].
    apply Qcltb_false. to_Q. to_Q. lra. }
  assert (Hunder : ltb (Investment.calculateRSI (Fin random)) (dec 30) = false).
  { unfold Investment.calculateRSI, dec. cbn [sub neg add mul ltb].
    apply Qcltb_false. to_Q. to_Q. lra. }
  rewrite Hover, Hunder.
  destruct (gtb (Investment.priceChange24h c) (dec 0));
    destruct (gtb (Investment.volume24h c) (dec 1000000000));
    num_by_evaluation.
Qed.

End InvestmentScores.

(* --------------------------------------------------------------------- *)
(** ** The further properties on sample values *)

Section OnSamples.

Local Open Scope string_scope.

Import Ranges.

Lemma pair_in_range : Forall inRange Example.pair.
Proof.
  unfold Example.pair. apply Forall_cons; [|apply Forall_cons; [|apply Forall_nil]].
  - exists (Q2Qc 0.6), (Q2Qc 120). repeat split.
    + vm_compute. discriminate.
  - exists (Q2Qc 0.9), (Q2Qc 80). repeat split.
    + vm_compute. discriminate.
Qed.

Lemma cryptoTimeout_names_sources : Service.namesSources Sample.cryptoTimeout.
Proof.
  repeat split; simpl; intros;
    first [ discriminate
          | match goal with
            | H : Fulfilled _ = Fulfilled _ |- _ => injection H as <-
            end; reflexivity ].
Qed.

Lemma weights_in_unit_interval_witness :
  Forall inRange Example.pair
  /\ (forall strategy,
         Forall unitWeight (Engine.calculateModelWeights Example.pair strategy))
  /\ (forall key s,
         get key (Config.strategies Config.AI_ENSEMBLE_CONFIG) = Some s ->
         Forall unitWeight (Config.weightingFunction s Example.pair)).
Proof.
  split; [exact pair_in_range|].
  exact (weights_in_unit_interval pair_in_range).
Defined.


Lemma weights_follow_order_witness :
  exists w1 w2,
    nth_error (Engine.calculateModelWeights Example.pair "confidence") 0
    = Some w1
    /\ nth_error (Engine.calculateModelWeights Example.pair "confidence") 1
       = Some w2
    /\ le w1 w2.
Proof.
  refine (proj1 (@weights_follow_order Example.pair 0 1
                   (Sample.response "FinBERT" 0.6 120)
                   (Sample.response "CryptoBERT" 0.9 80)
                   pair_in_range eq_refl eq_refl) _).
  vm_compute. discriminate.
Defined.

Lemma urgent_or_complex_strategy_weighs_equally_witness :
  Engine.calculateModelWeights Example.pair
    (Config.strategy
       (Config.getOptimalConfiguration Config.AI_ENSEMBLE_CONFIG
                                       Example.urgentQuery))
  = Config.equalWeighting Example.pair.
Proof.
  refine (proj2 (proj2 (@urgent_or_complex_strategy_weighs_equally
                          Config.AI_ENSEMBLE_CONFIG Example.urgentQuery
                          Example.pair _))).
  left. reflexivity.
Defined.

Lemma urgent_query_configuration_witness :
  Config.strategy
    (Config.getOptimalConfiguration Config.AI_ENSEMBLE_CONFIG
                                    Example.urgentQuery)
  = "fastResponse"
  /\ (List.length
        (Config.enabledModels
           (Config.getOptimalConfiguration Config.AI_ENSEMBLE_CONFIG
                                           Example.urgentQuery)) <= 2)%nat.
Proof.
  destruct (@urgent_query_configuration Config.AI_ENSEMBLE_CONFIG
              Example.urgentQuery eq_refl) as (H1 & _ & H3 & _).
  split; assumption.
Defined.

Lemma gemini_heads_the_list_witness :
  exists rest,
    Config.enabledModels
      (Config.getOptimalConfiguration Config.AI_ENSEMBLE_CONFIG
                                      Sample.sentimentQuery)
    = "gemini" :: rest.
Proof.
  exact (proj1 (@gemini_heads_the_list Config.AI_ENSEMBLE_CONFIG
                  Sample.sentimentQuery) eq_refl).
Defined.

Lemma finbert_once_per_flag_witness :
  count_occ string_dec
    (Config.enabledModels
       (Config.getOptimalConfiguration Config.AI_ENSEMBLE_CONFIG
                                       Sample.sentimentQuery))
    "finbert"
  = 1%nat.
Proof.
  refine (@finbert_once_per_flag Config.AI_ENSEMBLE_CONFIG
            Sample.sentimentQuery eq_refl _).
  discriminate.
Defined.

Lemma success_rate_is_always_one_witness :
  match Manager.getModelPerformance Example.tracked "gemini" with
  | Manager.Stats stats => Manager.successRate stats = dec 1
  | Manager.NoData _ => False
  end.
Proof.
  destruct (Manager.getModelPerformance Example.tracked "gemini")
    as [message|stats] eqn:E.
  - vm_compute in E. discriminate E.
  - exact (success_rate_is_always_one Example.tracked "gemini" E).
Defined.

Lemma averages_are_rounded_means_witness :
  exists stats,
    Manager.getModelPerformance Example.tracked "gemini" = Manager.Stats stats
    /\ within (Q2Qc 0.5) (Manager.averageResponseTime stats)
              (Fin (mean [Q2Qc 900; Q2Qc 1001]))
    /\ (exists n : Z,
           Manager.averageResponseTime stats = Fin (Q2Qc (inject_Z n)))
    /\ within (Q2Qc 0.0005) (Manager.averageConfidence stats)
              (Fin (mean [Q2Qc 0.1; Q2Qc 0.9])).
Proof.
  apply (@averages_are_rounded_means Example.tracked "gemini" Example.records).
  - reflexivity.
  - discriminate.
  - reflexivity.
  - reflexivity.
Defined.



Lemma import_accepts_invalid_then_refuses_witness :
  fst (Manager.importConfiguration Example.parseNoModels
         Manager.aiConfigManager "{}") = true
  /\ forall text,
       Manager.importConfiguration Example.parseNoModels
         (snd (Manager.importConfiguration Example.parseNoModels
                 Manager.aiConfigManager "{}")) text
       = (false,
          snd (Manager.importConfiguration Example.parseNoModels
                 Manager.aiConfigManager "{}")).
Proof.
  assert (Hvalid : Manager.valid
                     (Manager.validateConfiguration Manager.aiConfigManager)
                   = true) by (vm_compute; reflexivity).
  assert (Hbad : Manager.valid
                   (Manager.validateConfiguration
                      (Manager.create Example.noModels)) = false)
    by (vm_compute; reflexivity).
  destruct (@import_accepts_invalid_then_refuses Example.parseNoModels
              Manager.aiConfigManager "{}" Example.noModels
              eq_refl Hvalid Hbad) as (H1 & _ & _ & H4).
  split; assumption.
Defined.

Lemma failed_update_is_kept_witness :
  let after :=
    {| Manager.config :=
         Manager.merge Config.AI_ENSEMBLE_CONFIG Example.dropModels;
       Manager.performanceHistory := [] |} in
  Manager.updateConfiguration Manager.aiConfigManager Example.dropModels
  = (false, after)
  /\ Config.models (Manager.getConfiguration after) = []
  /\ forall parse text,
       Manager.importConfiguration parse after text = (false, after).
Proof.
  intros after.
  assert (Hupdate : Manager.updateConfiguration Manager.aiConfigManager
                      Example.dropModels = (false, after)) by reflexivity.
  destruct (failed_update_is_kept Manager.aiConfigManager Example.dropModels
              Hupdate) as (H1 & _ & H3).
  split; [exact Hupdate|]. split; [now rewrite H1 | exact H3].
Defined.

Lemma performance_endpoint_has_no_data_witness :
  Manager.getModelPerformance
    (fold_left (Route.enhanced "hf_key") [Example.request; Example.request]
               Manager.aiConfigManager) "gemini"
  = Manager.NoData "No performance data available".
Proof.
  apply performance_endpoint_has_no_data.
  - apply Forall_cons; [exact cryptoTimeout_names_sources|].
    apply Forall_cons; [exact cryptoTimeout_names_sources | apply Forall_nil].
  - simpl. auto.
Defined.

(** The records of these two requests are there, under the name of the
    source. *)
Example records_are_filed_under_the_source :
  List.length
    (historyOf (fold_left (Route.enhanced "hf_key")
                          [Example.request; Example.request]
                          Manager.aiConfigManager) "Gemini-2.0-Flash")
  = 2%nat
  /\ map fst (Manager.performanceHistory
                (fold_left (Route.enhanced "hf_key")
                           [Example.request; Example.request]
                           Manager.aiConfigManager))
     = ["Gemini-2.0-Flash"; "Technical-Analyzer"].
Proof. split; vm_compute; reflexivity. Qed.

Lemma consensus_of_unit_confidences_witness :
  let responses :=
    [Sample.response "Gemini-2.0-Flash" 0.85 900; Sample.insufficientData] in
  le (dec 0.75) (Engine.calculateConsensusScore responses)
  /\ le (Engine.calculateConsensusScore responses) (dec 0.95).
Proof.
  intros responses. apply consensus_of_unit_confidences.
  - simpl. lia.
  - apply Forall_cons; [|apply Forall_cons; [|apply Forall_nil]].
    + exists (Q2Qc 0.85). repeat split; vm_compute; discriminate.
    + exists (Q2Qc 0.3). repeat split; vm_compute; discriminate.
Defined.

Lemma consensus_of_equal_confidences_witness :
  Engine.calculateConsensusScore Example.agreeing = dec 0.95.
Proof.
  apply (@consensus_of_equal_confidences Example.agreeing (Q2Qc 0.75)).
  - simpl. lia.
  - repeat constructor.
Defined.


Lemma sentiment_score_bands_witness :
  exists q,
    Investment.calculateSentimentScore (Some Example.unsure) = Fin q
    /\ Q2Qc 7.5 < q /\ q <= Q2Qc 9.5.
Proof.
  refine (proj1 (@sentiment_score_bands Example.unsure (Q2Qc 0) eq_refl _ _)).
  - vm_compute. discriminate.
  - vm_compute. discriminate.
Defined.

Lemma allocation_is_bounded_witness :
  exists q,
    Investment.calculateAllocation (dec 8.5) (dec 7) (dec 7) "aggressive"
                                   (Fin (Q2Qc 1000)) = Fin q
    /\ 0 <= q /\ q <= Q2Qc 0.48 * Q2Qc 1000 + Q2Qc 0.5
    /\ exists n : Z, q = Q2Qc (inject_Z n).
Proof.
  apply allocation_is_bounded. vm_compute. discriminate.
Defined.

Lemma normalised_allocations_total_witness :
  let recommendations :=
    [Example.recommend 480; Example.recommend 480; Example.recommend 300] in
  within (Q2Qc (inject_Z (Z.of_nat 3)) * Q2Qc 0.5)
         (sum (map Investment.allocation
                   (Investment.normalizeAllocations recommendations
                                                    (Fin (Q2Qc 1000)))))
         (Fin (Q2Qc 1000)).
Proof.
  intros recommendations.
  refine (proj2 (@normalised_allocations_total recommendations
                   [Q2Qc 480; Q2Qc 480; Q2Qc 300] (Q2Qc 1000) eq_refl _) _).
  - vm_compute. discriminate.
  - vm_compute. reflexivity.
Defined.

(** Three allocations of one dollar for an amount of a dollar and a
    half: each is scaled to a half and rounded up to a dollar again, and
    the new total is twice the amount. *)
Example normalised_total_above_the_amount :
  sum (map Investment.allocation
           (Investment.normalizeAllocations
              [Example.recommend 1; Example.recommend 1; Example.recommend 1]
              (dec 1.5)))
  = dec 3.
Proof. num_by_evaluation. Qed.

Lemma drawn_rsi_never_counts_witness :
  Investment.calculateTechnicalScore
    (Some (Investment.technicalOf (Fin (Q2Qc 0.25)) Example.bitcoinCoin))
  = dec 7.
Proof.
  refine (@drawn_rsi_never_counts Example.bitcoinCoin (Q2Qc 0.25) _ _).
  - vm_compute. discriminate.
  - vm_compute. reflexivity.
Defined.

End OnSamples.
